(** * breezy_rgb_lcd: a shallow embedding of [rgb_display.c] and [rgb_gfx.c]

    The display module keeps its state in file-level statics; here they
    are the fields of one record, [state], and every C function becomes a
    function on that record (a computation in the small state monad [M]
    when it returns a value or calls out to a collaborator).

    Conventions.
    - [int] values are integers ([Z]).  Where the code adds or subtracts
      [int] arguments of a caller before any test bounds them (the clipping
      of [rgb_gfx_hline], [rgb_gfx_vline], [rgb_gfx_rect] and
      [rgb_gfx_rectfill]), the result is reduced to 32 bits in two's
      complement ([int_add], [int_sub]), as the 32-bit target computes it;
      C leaves the overflowing case undefined.  Elsewhere a sum is either
      bounded by the tests around it or, as a destination coordinate of
      the blits, only compared with the framebuffer bounds, which reject a
      sum above [INT_MAX] and its negative reduction alike; there the
      arithmetic is that of [Z].  Division is C's truncating division
      ([Z.quot], [Z.rem]).
    - Unsigned values ([uint8_t], [uint16_t], [uint32_t]) are [Z] with the
      reduction modulo [2^w] written out at each conversion.
    - An array is a list; [load] and [store] take the [int] index the code
      uses.  A read or write outside the array is undefined in C: [load]
      then yields a default and [store] changes nothing.
    - A pointer that the code only tests against [NULL] and dereferences
      is an [option] of the object it points to.
    - The console collaborator, the heap and the RTOS are outside the
      module.  Their state is the abstract [World]; hooks and allocation
      are functions on it ([Platform], [rgb_display_callbacks_t]).  A hook
      does not call back into the module while it runs.
    - Logging and the calls that create and start the panel driver leave
      the statics alone and are left out. *)

From Stdlib Require Import ZArith Lia Bool.
From stdpp Require Import base tactics option list list_numbers.

Local Open Scope Z_scope.

(** ** Machine integers *)

Definition to_uint8 (z : Z) : Z := z mod 256.
Definition to_uint16 (z : Z) : Z := z mod 65536.
Definition to_uint32 (z : Z) : Z := z mod 4294967296.

(** [int] on the 32-bit target: the value range, and the reduction of a
    sum or difference to it. *)
Definition INT_MIN : Z := -2147483648.
Definition INT_MAX : Z := 2147483647.

Definition to_int (z : Z) : Z := (z + 2147483648) mod 4294967296 - 2147483648.

Definition int_add (a b : Z) : Z := to_int (a + b).
Definition int_sub (a b : Z) : Z := to_int (a - b).

(** ** Arrays indexed by [int] *)

Definition load {A : Type} (d : A) (a : list A) (i : Z) : A :=
  if i <? 0 then d else default d (a !! Z.to_nat i).

Definition store {A : Type} (a : list A) (i : Z) (v : A) : list A :=
  if i <? 0 then a else <[Z.to_nat i := v]> a.

(** [a[i][j]] and [a[i][j] = v] on a two-level table. *)
Definition load2 (a : list (list Z)) (i j : Z) : Z := load 0 (load [] a i) j.

Definition store2 (a : list (list Z)) (i j : Z) (v : Z) : list (list Z) :=
  store a i (store (load [] a i) j v).

(** [memset (a + off, c, n)]: the [n] bytes from offset [off] on become [c].
    The part of the range that lies outside the array is not written. *)
Definition memset (a : list Z) (off : Z) (c : Z) (n : Z) : list Z :=
  if (off <? 0) || (n <=? 0) then a
  else
    let o := Z.to_nat off in
    let k := Nat.min (Z.to_nat n) (length a - o) in
    take o a ++ replicate k (to_uint8 c) ++ drop (o + k) a.

(** [memcpy (dst + doff, src + soff, n)] for non-overlapping objects. *)
Definition memcpy (dst : list Z) (doff : Z) (src : list Z) (soff : Z) (n : Z)
  : list Z :=
  if (doff <? 0) || (soff <? 0) || (n <=? 0) then dst
  else
    let o := Z.to_nat doff in
    let k := Nat.min (Z.to_nat n) (length dst - o) in
    take o dst ++ take k (drop (Z.to_nat soff) src ++ replicate k 0)
      ++ drop (o + k) dst.

(** ** Counted loops

    [for_range lo hi body s] is [for (i = lo; i < hi; i++) body], run from
    the loop-carried value [s].  A [continue] is a body that returns its
    argument. *)

Fixpoint for_loop {St : Type} (n : nat) (i : Z) (body : Z -> St -> St) (s : St)
  : St :=
  match n with
  | O => s
  | S n' => for_loop n' (i + 1) body (body i s)
  end.

Definition for_range {St : Type} (lo hi : Z) (body : Z -> St -> St) (s : St)
  : St :=
  for_loop (Z.to_nat (hi - lo)) lo body s.

(** ** Constants of [rgb_display.c] and [rgb_display.h] *)

Definition SCREEN_WIDTH : Z := 1024.
Definition SCREEN_HEIGHT : Z := 600.
Definition BOUNCE_HEIGHT_PX : Z := 12.
Definition FONT_WIDTH : Z := 8.
Definition FONT_HEIGHT : Z := 16.
Definition TEXT_COLS : Z := 128.
Definition TEXT_ROWS : Z := 37.

Definition GFX_VGA_WIDTH : Z := 320.
Definition GFX_VGA_HEIGHT : Z := 200.
Definition GFX_VGA_SIZE : Z := GFX_VGA_WIDTH * GFX_VGA_HEIGHT.
Definition GFX_VGA_SCALE : Z := 3.
Definition GFX_VGA_MARGIN_X : Z := 32.

Definition GFX_150P_WIDTH : Z := 256.
Definition GFX_150P_HEIGHT : Z := 150.
Definition GFX_150P_SIZE : Z := GFX_150P_WIDTH * GFX_150P_HEIGHT.
Definition GFX_150P_SCALE : Z := 4.

(** [screen_mode_t].  The enumeration is an [int] in C and
    [rgb_display_set_mode] has a branch for values that are none of the
    three, so a mode is an integer here. *)
Abbreviation screen_mode_t := Z (only parsing).
Definition SM_TEXT : screen_mode_t := 3.
Definition SM_VGA13H : screen_mode_t := 19.
Definition SM_150P : screen_mode_t := 128.

Definition LCD_ATTR_FG (attr : Z) : Z := Z.land attr 15.
Definition LCD_ATTR_BG (attr : Z) : Z := Z.land (Z.shiftr attr 4) 15.

(** [lcd_cell_t]: a character byte and an attribute byte, packed. *)
Record lcd_cell_t : Type := Cell { ch : Z; attr : Z }.

Definition MASK_LUT : list Z := [0; 4294901760; 65535; 4294967295].

Definition s_cga_colors : list Z :=
  [ 0; 21; 1344; 1365; 43008; 43029; 42272; 44373;
    21162; 21183; 22506; 22527; 64170; 64191; 65504; 65535 ].

(** ** The platform: heap, RTOS, build configuration, font asset *)

Inductive malloc_caps : Type :=
| MALLOC_CAP_INTERNAL_8BIT
| MALLOC_CAP_SPIRAM.

Class Platform : Type := {
  (** state of everything outside the module *)
  World : Type;
  (** [heap_caps_malloc size caps]: [true] when a block was obtained *)
  heap_caps_malloc : Z -> malloc_caps -> World -> bool * World;
  (** [xSemaphoreCreateBinary ()]: [true] when a semaphore was created *)
  xSemaphoreCreateBinary : World -> bool * World;
  (** [heap_caps_free (p)] *)
  heap_caps_free : World -> unit * World;
  (** [xSemaphoreGiveFromISR (sem, &woken)]: the value left in [woken] *)
  xSemaphoreGiveFromISR : World -> bool * World;
  (** [xSemaphoreTake (sem, ticks)]: returns on the signal or the timeout *)
  xSemaphoreTake : Z -> World -> bool * World;
  (** whether the build defines [CONFIG_SPIRAM] *)
  CONFIG_SPIRAM : bool;
  (** the glyph bitmap asset, 16 bytes for each of the codes 0x20..0xFF *)
  terminus16_glyph_bitmap : list Z
}.

Section Display.
Context {P : Platform}.

(** ** Module state *)

(** [rgb_display_callbacks_t]: every hook may be [NULL] ([None]).  A hook
    acts on the collaborator's own state and returns its result. *)
Record rgb_display_callbacks_t : Type := Callbacks {
  get_text_palette : option (World -> list Z * World);
  enter_graphics : option (World -> Z * World);
  exit_graphics : option (World -> Z * World);
  get_text_buffer : option (World -> option (list lcd_cell_t) * World);
  flush_input : option (World -> unit * World)
}.

(** The statics of [rgb_display.c], with [env] for the world outside.
    [s_graphics_framebuffer] and [s_display_buffer] are [None] for [NULL]
    and otherwise hold the bytes, respectively cells, pointed to;
    [s_callbacks] likewise; [s_vsync_sem] is [true] for a non-null handle. *)
Record state : Type := State {
  env : World;
  s_gfx_width : Z;
  s_gfx_height : Z;
  s_gfx_scale : Z;
  s_gfx_margin_x : Z;
  s_display_buffer : option (list lcd_cell_t);
  s_screen_mode : screen_mode_t;
  s_graphics_framebuffer : option (list Z);
  s_vsync_sem : bool;
  s_waiting_for_vsync : bool;
  s_cursor_col : Z;
  s_cursor_row : Z;
  s_frame_count : Z;
  font_ram : list (list Z);
  BYTE_MASKS : list (list Z);
  ATTR_LUT : list (list Z);
  s_vga_palette : list Z;
  s_callbacks : option rgb_display_callbacks_t
}.

(** Assignment to one static; the others keep their values. *)
Definition set_env (v : World) (s : state) : state :=
  State v (s_gfx_width s) (s_gfx_height s) (s_gfx_scale s)
    (s_gfx_margin_x s) (s_display_buffer s) (s_screen_mode s)
    (s_graphics_framebuffer s) (s_vsync_sem s) (s_waiting_for_vsync s)
    (s_cursor_col s) (s_cursor_row s) (s_frame_count s) (font_ram s)
    (BYTE_MASKS s) (ATTR_LUT s) (s_vga_palette s) (s_callbacks s).
Definition set_s_gfx_width (v : Z) (s : state) : state :=
  State (env s) v (s_gfx_height s) (s_gfx_scale s) (s_gfx_margin_x s)
    (s_display_buffer s) (s_screen_mode s) (s_graphics_framebuffer s)
    (s_vsync_sem s) (s_waiting_for_vsync s) (s_cursor_col s)
    (s_cursor_row s) (s_frame_count s) (font_ram s) (BYTE_MASKS s)
    (ATTR_LUT s) (s_vga_palette s) (s_callbacks s).
Definition set_s_gfx_height (v : Z) (s : state) : state :=
  State (env s) (s_gfx_width s) v (s_gfx_scale s) (s_gfx_margin_x s)
    (s_display_buffer s) (s_screen_mode s) (s_graphics_framebuffer s)
    (s_vsync_sem s) (s_waiting_for_vsync s) (s_cursor_col s)
    (s_cursor_row s) (s_frame_count s) (font_ram s) (BYTE_MASKS s)
    (ATTR_LUT s) (s_vga_palette s) (s_callbacks s).
Definition set_s_gfx_scale (v : Z) (s : state) : state :=
  State (env s) (s_gfx_width s) (s_gfx_height s) v (s_gfx_margin_x s)
    (s_display_buffer s) (s_screen_mode s) (s_graphics_framebuffer s)
    (s_vsync_sem s) (s_waiting_for_vsync s) (s_cursor_col s)
    (s_cursor_row s) (s_frame_count s) (font_ram s) (BYTE_MASKS s)
    (ATTR_LUT s) (s_vga_palette s) (s_callbacks s).
Definition set_s_gfx_margin_x (v : Z) (s : state) : state :=
  State (env s) (s_gfx_width s) (s_gfx_height s) (s_gfx_scale s) v
    (s_display_buffer s) (s_screen_mode s) (s_graphics_framebuffer s)
    (s_vsync_sem s) (s_waiting_for_vsync s) (s_cursor_col s)
    (s_cursor_row s) (s_frame_count s) (font_ram s) (BYTE_MASKS s)
    (ATTR_LUT s) (s_vga_palette s) (s_callbacks s).
Definition set_s_display_buffer (v : option (list lcd_cell_t)) (s : state) : state :=
  State (env s) (s_gfx_width s) (s_gfx_height s) (s_gfx_scale s)
    (s_gfx_margin_x s) v (s_screen_mode s) (s_graphics_framebuffer s)
    (s_vsync_sem s) (s_waiting_for_vsync s) (s_cursor_col s)
    (s_cursor_row s) (s_frame_count s) (font_ram s) (BYTE_MASKS s)
    (ATTR_LUT s) (s_vga_palette s) (s_callbacks s).
Definition set_s_screen_mode (v : screen_mode_t) (s : state) : state :=
  State (env s) (s_gfx_width s) (s_gfx_height s) (s_gfx_scale s)
    (s_gfx_margin_x s) (s_display_buffer s) v (s_graphics_framebuffer s)
    (s_vsync_sem s) (s_waiting_for_vsync s) (s_cursor_col s)
    (s_cursor_row s) (s_frame_count s) (font_ram s) (BYTE_MASKS s)
    (ATTR_LUT s) (s_vga_palette s) (s_callbacks s).
Definition set_s_graphics_framebuffer (v : option (list Z)) (s : state) : state :=
  State (env s) (s_gfx_width s) (s_gfx_height s) (s_gfx_scale s)
    (s_gfx_margin_x s) (s_display_buffer s) (s_screen_mode s) v
    (s_vsync_sem s) (s_waiting_for_vsync s) (s_cursor_col s)
    (s_cursor_row s) (s_frame_count s) (font_ram s) (BYTE_MASKS s)
    (ATTR_LUT s) (s_vga_palette s) (s_callbacks s).
Definition set_s_vsync_sem (v : bool) (s : state) : state :=
  State (env s) (s_gfx_width s) (s_gfx_height s) (s_gfx_scale s)
    (s_gfx_margin_x s) (s_display_buffer s) (s_screen_mode s)
    (s_graphics_framebuffer s) v (s_waiting_for_vsync s) (s_cursor_col s)
    (s_cursor_row s) (s_frame_count s) (font_ram s) (BYTE_MASKS s)
    (ATTR_LUT s) (s_vga_palette s) (s_callbacks s).
Definition set_s_waiting_for_vsync (v : bool) (s : state) : state :=
  State (env s) (s_gfx_width s) (s_gfx_height s) (s_gfx_scale s)
    (s_gfx_margin_x s) (s_display_buffer s) (s_screen_mode s)
    (s_graphics_framebuffer s) (s_vsync_sem s) v (s_cursor_col s)
    (s_cursor_row s) (s_frame_count s) (font_ram s) (BYTE_MASKS s)
    (ATTR_LUT s) (s_vga_palette s) (s_callbacks s).
Definition set_s_cursor_col (v : Z) (s : state) : state :=
  State (env s) (s_gfx_width s) (s_gfx_height s) (s_gfx_scale s)
    (s_gfx_margin_x s) (s_display_buffer s) (s_screen_mode s)
    (s_graphics_framebuffer s) (s_vsync_sem s) (s_waiting_for_vsync s) v
    (s_cursor_row s) (s_frame_count s) (font_ram s) (BYTE_MASKS s)
    (ATTR_LUT s) (s_vga_palette s) (s_callbacks s).
Definition set_s_cursor_row (v : Z) (s : state) : state :=
  State (env s) (s_gfx_width s) (s_gfx_height s) (s_gfx_scale s)
    (s_gfx_margin_x s) (s_display_buffer s) (s_screen_mode s)
    (s_graphics_framebuffer s) (s_vsync_sem s) (s_waiting_for_vsync s)
    (s_cursor_col s) v (s_frame_count s) (font_ram s) (BYTE_MASKS s)
    (ATTR_LUT s) (s_vga_palette s) (s_callbacks s).
Definition set_s_frame_count (v : Z) (s : state) : state :=
  State (env s) (s_gfx_width s) (s_gfx_height s) (s_gfx_scale s)
    (s_gfx_margin_x s) (s_display_buffer s) (s_screen_mode s)
    (s_graphics_framebuffer s) (s_vsync_sem s) (s_waiting_for_vsync s)
    (s_cursor_col s) (s_cursor_row s) v (font_ram s) (BYTE_MASKS s)
    (ATTR_LUT s) (s_vga_palette s) (s_callbacks s).
Definition set_font_ram (v : list (list Z)) (s : state) : state :=
  State (env s) (s_gfx_width s) (s_gfx_height s) (s_gfx_scale s)
    (s_gfx_margin_x s) (s_display_buffer s) (s_screen_mode s)
    (s_graphics_framebuffer s) (s_vsync_sem s) (s_waiting_for_vsync s)
    (s_cursor_col s) (s_cursor_row s) (s_frame_count s) v (BYTE_MASKS s)
    (ATTR_LUT s) (s_vga_palette s) (s_callbacks s).
Definition set_BYTE_MASKS (v : list (list Z)) (s : state) : state :=
  State (env s) (s_gfx_width s) (s_gfx_height s) (s_gfx_scale s)
    (s_gfx_margin_x s) (s_display_buffer s) (s_screen_mode s)
    (s_graphics_framebuffer s) (s_vsync_sem s) (s_waiting_for_vsync s)
    (s_cursor_col s) (s_cursor_row s) (s_frame_count s) (font_ram s) v
    (ATTR_LUT s) (s_vga_palette s) (s_callbacks s).
Definition set_ATTR_LUT (v : list (list Z)) (s : state) : state :=
  State (env s) (s_gfx_width s) (s_gfx_height s) (s_gfx_scale s)
    (s_gfx_margin_x s) (s_display_buffer s) (s_screen_mode s)
    (s_graphics_framebuffer s) (s_vsync_sem s) (s_waiting_for_vsync s)
    (s_cursor_col s) (s_cursor_row s) (s_frame_count s) (font_ram s)
    (BYTE_MASKS s) v (s_vga_palette s) (s_callbacks s).
Definition set_s_vga_palette (v : list Z) (s : state) : state :=
  State (env s) (s_gfx_width s) (s_gfx_height s) (s_gfx_scale s)
    (s_gfx_margin_x s) (s_display_buffer s) (s_screen_mode s)
    (s_graphics_framebuffer s) (s_vsync_sem s) (s_waiting_for_vsync s)
    (s_cursor_col s) (s_cursor_row s) (s_frame_count s) (font_ram s)
    (BYTE_MASKS s) (ATTR_LUT s) v (s_callbacks s).
Definition set_s_callbacks (v : option rgb_display_callbacks_t) (s : state) : state :=
  State (env s) (s_gfx_width s) (s_gfx_height s) (s_gfx_scale s)
    (s_gfx_margin_x s) (s_display_buffer s) (s_screen_mode s)
    (s_graphics_framebuffer s) (s_vsync_sem s) (s_waiting_for_vsync s)
    (s_cursor_col s) (s_cursor_row s) (s_frame_count s) (font_ram s)
    (BYTE_MASKS s) (ATTR_LUT s) (s_vga_palette s) v.

(** The statics as the C initialisers leave them at program start. *)
Definition startup (w : World) : state :=
  {| env := w;
     s_gfx_width := 0; s_gfx_height := 0; s_gfx_scale := 0;
     s_gfx_margin_x := 0;
     s_display_buffer := None;
     s_screen_mode := SM_TEXT;
     s_graphics_framebuffer := None;
     s_vsync_sem := false;
     s_waiting_for_vsync := false;
     s_cursor_col := -1; s_cursor_row := -1;
     s_frame_count := 0;
     font_ram := replicate 256 (replicate 16 0);
     BYTE_MASKS := replicate 256 (replicate 4 0);
     ATTR_LUT := replicate 256 (replicate 2 0);
     s_vga_palette := replicate 256 0;
     s_callbacks := None |}.

(** ** A state monad for the module's procedures *)

Definition M (A : Type) : Type := state -> A * state.

Definition ret {A : Type} (a : A) : M A := fun s => (a, s).

Definition bind {A B : Type} (m : M A) (k : A -> M B) : M B :=
  fun s => let (a, s') := m s in k a s'.

Definition gets {A : Type} (f : state -> A) : M A := fun s => (f s, s).

Definition modify (f : state -> state) : M unit := fun s => (tt, f s).

Notation "x <- m ;; k" := (bind m (fun x => k))
  (at level 100, m at next level, right associativity).
Notation "m ;;; k" := (bind m (fun _ => k))
  (at level 100, right associativity).

(** A call into the platform. *)
Definition platform {R : Type} (f : World -> R * World) : M R :=
  fun s => let (r, w) := f (env s) in (r, set_env w s).

(** [if (s_callbacks && s_callbacks->hook) r = s_callbacks->hook ();]
    The result is [None] when the table or the hook is [NULL]. *)
Definition call {R : Type}
    (hook : rgb_display_callbacks_t -> option (World -> R * World))
  : M (option R) :=
  fun s =>
    match s_callbacks s with
    | Some cb =>
        match hook cb with
        | Some f => let (r, w) := f (env s) in (Some r, set_env w s)
        | None => (None, s)
        end
    | None => (None, s)
    end.

(** ** Color LUT builder *)

(** One cube entry: the levels [r], [g], [b] in [0,5] to RGB565. *)
Definition cube_color (r g b : Z) : Z :=
  let r5 := to_uint16 ((r * 51 * 31) ÷ 255) in
  let g6 := to_uint16 ((g * 51 * 63) ÷ 255) in
  let b5 := to_uint16 ((b * 51 * 31) ÷ 255) in
  to_uint16 (Z.lor (Z.lor (Z.shiftl r5 11) (Z.shiftl g6 5)) b5).

Definition gray_color (i : Z) : Z :=
  let gray := 8 + i * 10 in
  let g5 := to_uint16 ((gray * 31) ÷ 255) in
  let g6 := to_uint16 ((gray * 63) ÷ 255) in
  to_uint16 (Z.lor (Z.lor (Z.shiftl g5 11) (Z.shiftl g6 5)) g5).

(** [init_vga_palette], on the palette table.  The [memcpy] count is in
    entries.  The cube loops carry [idx] along with the table. *)
Definition init_vga_palette_table (pal : list Z) : list Z :=
  let pal := memcpy pal 0 s_cga_colors 0 16 in
  let '(_, pal) :=
    for_range 0 6 (fun r =>
      for_range 0 6 (fun g =>
        for_range 0 6 (fun b '(idx, pal) =>
          (idx + 1, store pal idx (cube_color r g b)))))
      (16, pal) in
  for_range 0 24 (fun i pal => store pal (232 + i) (gray_color i)) pal.

Definition init_vga_palette : M unit :=
  modify (fun s => set_s_vga_palette (init_vga_palette_table (s_vga_palette s)) s).

(** ** Framebuffer manager *)

(** A block fresh from the allocator.  Its content is indeterminate in C;
    the code overwrites all of it before anything reads it. *)
Definition fresh_block (size : Z) : list Z := replicate (Z.to_nat size) 165.

Definition malloc_result (size : Z) (ok : bool) : option (list Z) :=
  if ok then Some (fresh_block size) else None.

(** The size and the four dimension values [allocate_graphics_framebuffer]
    assigns for [mode]; [None] in its final [else]. *)
Definition mode_geometry (mode : screen_mode_t) : option (Z * Z * Z * Z * Z) :=
  if mode =? SM_VGA13H then
    Some (GFX_VGA_SIZE, GFX_VGA_WIDTH, GFX_VGA_HEIGHT, GFX_VGA_SCALE,
          GFX_VGA_MARGIN_X)
  else if mode =? SM_150P then
    Some (GFX_150P_SIZE, GFX_150P_WIDTH, GFX_150P_HEIGHT, GFX_150P_SCALE, 0)
  else None.

Definition allocate_graphics_framebuffer (mode : screen_mode_t) : M Z :=
  fb <- gets s_graphics_framebuffer ;;
  if bool_decide (fb ≠ None) then ret 0
  else
    match mode_geometry mode with
    | None => ret (-1)
    | Some (fb_size, w, h, scale, margin) =>
        modify (set_s_gfx_width w) ;;;
        modify (set_s_gfx_height h) ;;;
        modify (set_s_gfx_scale scale) ;;;
        modify (set_s_gfx_margin_x margin) ;;;
        ok <- platform (heap_caps_malloc fb_size MALLOC_CAP_INTERNAL_8BIT) ;;
        modify (set_s_graphics_framebuffer (malloc_result fb_size ok)) ;;;
        (if CONFIG_SPIRAM && negb ok then
           ok <- platform (heap_caps_malloc fb_size MALLOC_CAP_SPIRAM) ;;
           modify (set_s_graphics_framebuffer (malloc_result fb_size ok))
         else ret tt) ;;;
        fb <- gets s_graphics_framebuffer ;;
        match fb with
        | None => ret (-1)
        | Some block =>
            modify (set_s_graphics_framebuffer
                      (Some (memset block 0 0 fb_size))) ;;;
            ret 0
        end
    end.

Definition free_graphics_framebuffer : M unit :=
  fb <- gets s_graphics_framebuffer ;;
  match fb with
  | Some _ =>
      platform heap_caps_free ;;;
      modify (set_s_graphics_framebuffer None)
  | None => ret tt
  end.

(** ** Attribute LUT and byte masks *)

(** The loop of [rebuild_attr_lut] over a palette and the table.  The
    shift [color << 16] is made in [int]; the assignment to [uint32_t]
    keeps its low 32 bits. *)
Definition attr_lut_loop (palette : list Z) (lut : list (list Z))
  : list (list Z) :=
  for_range 0 256 (fun attr lut =>
    let fg_idx := to_uint8 (LCD_ATTR_FG attr) in
    let bg_idx := to_uint8 (LCD_ATTR_BG attr) in
    let fg_color := load 0 palette fg_idx in
    let bg_color := load 0 palette bg_idx in
    let bg32 := to_uint32 (Z.lor (Z.shiftl bg_color 16) bg_color) in
    let fg32 := to_uint32 (Z.lor (Z.shiftl fg_color 16) fg_color) in
    let lut := store2 lut attr 0 bg32 in
    store2 lut attr 1 (Z.lxor fg32 bg32)) lut.

(** The palette [rebuild_attr_lut] reads: the hook's, or the CGA colors. *)
Definition text_palette : M (list Z) :=
  r <- call get_text_palette ;;
  ret (match r with Some palette => palette | None => s_cga_colors end).

Definition rebuild_attr_lut : M unit :=
  palette <- text_palette ;;
  modify (fun s => set_ATTR_LUT (attr_lut_loop palette (ATTR_LUT s)) s).

Definition byte_masks_loop (masks : list (list Z)) : list (list Z) :=
  for_range 0 256 (fun i masks =>
    let masks := store2 masks i 0 (load 0 MASK_LUT (Z.land (Z.shiftr i 6) 3)) in
    let masks := store2 masks i 1 (load 0 MASK_LUT (Z.land (Z.shiftr i 4) 3)) in
    let masks := store2 masks i 2 (load 0 MASK_LUT (Z.land (Z.shiftr i 2) 3)) in
    store2 masks i 3 (load 0 MASK_LUT (Z.land i 3))) masks.

Definition precompute_tables : M unit :=
  rebuild_attr_lut ;;;
  modify (fun s => set_BYTE_MASKS (byte_masks_loop (BYTE_MASKS s)) s).

(** ** Scanline synthesizer

    The bounce buffer is a list of 16-bit pixels.  [memset (buf, 0,
    len_bytes)] clears [len_bytes / 2] of them (and the low byte of the
    next one when [len_bytes] is odd; the target is little-endian). *)

Definition clear_bounce (buf : list Z) (len_bytes : Z) : list Z :=
  let buf := memset buf 0 0 (len_bytes ÷ 2) in
  if Z.rem len_bytes 2 =? 1 then
    store buf (len_bytes ÷ 2) (Z.land (load 0 buf (len_bytes ÷ 2)) 65280)
  else buf.

(** [*dest++ = color;] the given number of times.  The loop-carried pair is
    the buffer and [dest], an index in pixels. *)
Definition put4 (color : Z) (bd : list Z * Z) : list Z * Z :=
  let '(buf, dest) := bd in
  let buf := store buf dest color in let dest := dest + 1 in
  let buf := store buf dest color in let dest := dest + 1 in
  let buf := store buf dest color in let dest := dest + 1 in
  let buf := store buf dest color in let dest := dest + 1 in
  (buf, dest).

Definition put3 (color : Z) (bd : list Z * Z) : list Z * Z :=
  let '(buf, dest) := bd in
  let buf := store buf dest color in let dest := dest + 1 in
  let buf := store buf dest color in let dest := dest + 1 in
  let buf := store buf dest color in let dest := dest + 1 in
  (buf, dest).

(** One iteration of the graphics loop over [line]. *)
Definition graphics_line (fb pal : list Z)
    (gfx_width gfx_height gfx_scale gfx_margin y_start : Z)
    (line : Z) (buf : list Z) : list Z :=
  let lcd_y := y_start + line in
  let src_y := lcd_y ÷ gfx_scale in
  if src_y >=? gfx_height then buf
  else
    let dest := line * SCREEN_WIDTH in
    let src_row := src_y * gfx_width in
    let dest := dest + gfx_margin in
    if gfx_scale =? 4 then
      fst (for_range 0 gfx_width (fun x bd =>
             let color := load 0 pal (load 0 fb (src_row + x)) in
             put4 color bd) (buf, dest))
    else
      fst (for_range 0 gfx_width (fun x bd =>
             let color := load 0 pal (load 0 fb (src_row + x)) in
             put3 color bd) (buf, dest)).

(** A 32-bit store through [uint32_t *dest], [dest] counted in words: the
    low half is the first pixel. *)
Definition store32 (buf : list Z) (dest : Z) (v : Z) : list Z :=
  store (store buf (2 * dest) (Z.land v 65535)) (2 * dest + 1) (Z.shiftr v 16).

(** The 32-bit read of two adjacent cells. *)
Definition cell_pair (cells : list lcd_cell_t) (i : Z) : Z :=
  let c0 := load (Cell 0 0) cells i in
  let c1 := load (Cell 0 0) cells (i + 1) in
  Z.lor (Z.lor (to_uint8 (ch c0)) (Z.shiftl (to_uint8 (attr c0)) 8))
        (Z.lor (Z.shiftl (to_uint8 (ch c1)) 16)
               (Z.shiftl (to_uint8 (attr c1)) 24)).

(** Rendering of one cell: four words, then the cursor overwrite. *)
Definition render_cell (s : state) (ch0 attr0 glyph_y : Z) (cursor_here : bool)
    (bd : list Z * Z) : list Z * Z :=
  let '(buf, dest) := bd in
  let bg32 := load2 (ATTR_LUT s) attr0 0 in
  let xor32 := load2 (ATTR_LUT s) attr0 1 in
  let glyph := load2 (font_ram s) ch0 glyph_y in
  let '(buf, dest) :=
    if glyph =? 0 then
      let buf := store32 buf dest bg32 in let dest := dest + 1 in
      let buf := store32 buf dest bg32 in let dest := dest + 1 in
      let buf := store32 buf dest bg32 in let dest := dest + 1 in
      let buf := store32 buf dest bg32 in let dest := dest + 1 in
      (buf, dest)
    else
      let m := load [] (BYTE_MASKS s) glyph in
      let buf := store32 buf dest (Z.lxor (Z.land xor32 (load 0 m 0)) bg32) in
      let dest := dest + 1 in
      let buf := store32 buf dest (Z.lxor (Z.land xor32 (load 0 m 1)) bg32) in
      let dest := dest + 1 in
      let buf := store32 buf dest (Z.lxor (Z.land xor32 (load 0 m 2)) bg32) in
      let dest := dest + 1 in
      let buf := store32 buf dest (Z.lxor (Z.land xor32 (load 0 m 3)) bg32) in
      let dest := dest + 1 in
      (buf, dest) in
  if cursor_here then
    let fg32 := Z.lxor bg32 xor32 in
    let buf := store32 buf (dest - 4) fg32 in
    let buf := store32 buf (dest - 3) fg32 in
    let buf := store32 buf (dest - 2) fg32 in
    let buf := store32 buf (dest - 1) fg32 in
    (buf, dest)
  else (buf, dest).

(** One iteration of the text loop over [line]. *)
Definition text_line (s : state) (src_buf : list lcd_cell_t)
    (cursor_col cursor_row cursor_blink_on y_start : Z)
    (line : Z) (buf : list Z) : list Z :=
  let y := y_start + line in
  let text_row := y ÷ FONT_HEIGHT in
  if text_row >=? TEXT_ROWS then buf
  else
    let glyph_y := Z.rem y FONT_HEIGHT in
    let dest := (line * SCREEN_WIDTH * 2) ÷ 4 in
    let draw_cursor :=
      (cursor_row >=? 0) && (text_row =? cursor_row)
      && (glyph_y >=? FONT_HEIGHT - 2) && negb (cursor_blink_on =? 0) in
    let cell_row := text_row * TEXT_COLS in
    fst (for_range 0 (TEXT_COLS ÷ 2) (fun pair bd =>
           let cell_data := cell_pair src_buf (cell_row + 2 * pair) in
           let ch0 := to_uint8 (Z.land cell_data 255) in
           let attr0 := to_uint8 (Z.land (Z.shiftr cell_data 8) 255) in
           let ch1 := to_uint8 (Z.land (Z.shiftr cell_data 16) 255) in
           let attr1 := to_uint8 (Z.land (Z.shiftr cell_data 24) 255) in
           let bd := render_cell s ch0 attr0 glyph_y
                       (draw_cursor && (pair * 2 =? cursor_col)) bd in
           render_cell s ch1 attr1 glyph_y
             (draw_cursor && (pair * 2 + 1 =? cursor_col)) bd)
         (buf, dest)).

(** [on_bounce_empty (panel, buf, pos_px, len_bytes, user_ctx)]: the buffer
    it leaves and its return value. *)
Definition on_bounce_empty (buf : list Z) (pos_px len_bytes : Z)
  : M (list Z * bool) :=
  let buf := clear_bounce buf len_bytes in
  let y_start := pos_px ÷ SCREEN_WIDTH in
  let num_lines := (len_bytes ÷ 2) ÷ SCREEN_WIDTH in
  (if y_start =? 0 then
     modify (fun s => set_s_frame_count (to_uint32 (s_frame_count s + 1)) s)
   else ret tt) ;;;
  s <- gets id ;;
  match
    (if (s_screen_mode s =? SM_VGA13H) || (s_screen_mode s =? SM_150P)
     then s_graphics_framebuffer s else None)
  with
  | Some fb =>
      ret (for_range 0 num_lines
             (graphics_line fb (s_vga_palette s) (s_gfx_width s)
                (s_gfx_height s) (s_gfx_scale s) (s_gfx_margin_x s) y_start)
             buf, false)
  | None =>
      match s_display_buffer s with
      | None => ret (buf, false)
      | Some src_buf =>
          ret (for_range 0 num_lines
                 (text_line s src_buf (s_cursor_col s) (s_cursor_row s)
                    (Z.land (Z.shiftr (s_frame_count s) 4) 1) y_start)
                 buf, false)
      end
  end.

(** [on_vsync (panel, edata, user_ctx)] *)
Definition on_vsync : M bool :=
  waiting <- gets s_waiting_for_vsync ;;
  sem <- gets s_vsync_sem ;;
  if waiting && sem then
    woken <- platform xSemaphoreGiveFromISR ;;
    modify (set_s_waiting_for_vsync false) ;;;
    ret woken
  else ret false.

(** ** Initialisation and the public interface of [rgb_display.c] *)

(** The font copy of [rgb_display_init]: clear the table, then 16 bytes
    for each code from 0x20 on. *)
Definition load_font (fr : list (list Z)) : list (list Z) :=
  let fr := map (fun row => memset row 0 0 16) fr in
  for_range 32 256 (fun i fr =>
    store fr i (memcpy (load [] fr i) 0 terminus16_glyph_bitmap
                  ((i - 32) * 16) 16)) fr.

Definition rgb_display_init : M unit :=
  init_vga_palette ;;;
  precompute_tables ;;;
  modify (fun s => set_font_ram (load_font (font_ram s)) s) ;;;
  sem <- platform xSemaphoreCreateBinary ;;
  modify (set_s_vsync_sem sem).

Definition rgb_display_set_buffer (cells : option (list lcd_cell_t)) : M unit :=
  modify (set_s_display_buffer cells).

Definition rgb_display_set_callbacks (cb : option rgb_display_callbacks_t)
  : M unit :=
  modify (set_s_callbacks cb).

Definition rgb_display_refresh_palette : M unit := rebuild_attr_lut.

Definition rgb_display_set_cursor (col row : Z) : M unit :=
  modify (set_s_cursor_col col) ;;;
  modify (set_s_cursor_row row).

Definition rgb_display_get_mode : M screen_mode_t := gets s_screen_mode.

Definition rgb_display_set_mode (mode : screen_mode_t) : M Z :=
  cur <- gets s_screen_mode ;;
  if mode =? cur then ret 0
  else if (mode =? SM_VGA13H) || (mode =? SM_150P) then
    r <- call enter_graphics ;;
    if match r with Some v => negb (v =? 0) | None => false end then ret (-1)
    else
      a <- allocate_graphics_framebuffer mode ;;
      if negb (a =? 0) then
        call exit_graphics ;;;
        ret (-1)
      else
        modify (set_s_screen_mode mode) ;;;
        modify (set_s_display_buffer None) ;;;
        ret 0
  else if mode =? SM_TEXT then
    modify (set_s_screen_mode SM_TEXT) ;;;
    free_graphics_framebuffer ;;;
    call exit_graphics ;;;
    tb <- call get_text_buffer ;;
    (match tb with
     | Some cells => modify (set_s_display_buffer cells)
     | None => ret tt
     end) ;;;
    call flush_input ;;;
    ret 0
  else ret (-1).

Definition rgb_display_get_framebuffer : M (option (list Z)) :=
  gets s_graphics_framebuffer.

(** [memcpy] of the whole table from the caller's 256 entries. *)
Definition rgb_display_set_vga_palette (palette : list Z) : M unit :=
  modify (fun s => set_s_vga_palette (memcpy (s_vga_palette s) 0 palette 0 256) s).

Definition rgb_display_set_vga_palette_entry (index rgb565 : Z) : M unit :=
  if (index >=? 0) && (index <? 256) then
    modify (fun s => set_s_vga_palette (store (s_vga_palette s) index rgb565) s)
  else ret tt.

Definition rgb_display_get_vga_palette_entry (index : Z) : M Z :=
  if (index >=? 0) && (index <? 256) then
    pal <- gets s_vga_palette ;;
    ret (load 0 pal index)
  else ret 0.

Definition rgb_display_wait_vsync : M unit :=
  mode <- gets s_screen_mode ;;
  sem <- gets s_vsync_sem ;;
  if (negb (mode =? SM_VGA13H) && negb (mode =? SM_150P)) || negb sem
  then ret tt
  else
    modify (set_s_waiting_for_vsync true) ;;;
    platform (xSemaphoreTake 100) ;;;
    ret tt.

Definition rgb_display_get_fb_width : M Z := gets s_gfx_width.

Definition rgb_display_get_fb_height : M Z := gets s_gfx_height.

(** ** Graphics primitives ([rgb_gfx.c])

    [get_fb] hands out the module's framebuffer pointer, so a write
    through it is a write to [s_graphics_framebuffer]: [write_fb].  The
    sprite passed to a blit is an object of its own ([None] for [NULL]). *)

Definition get_fb : M (option (list Z) * Z * Z) :=
  w <- rgb_display_get_fb_width ;;
  h <- rgb_display_get_fb_height ;;
  fb <- rgb_display_get_framebuffer ;;
  ret (fb, w, h).

Definition write_fb (fb : list Z) : M unit :=
  modify (set_s_graphics_framebuffer (Some fb)).

Definition rgb_gfx_clear (color : Z) : M unit :=
  r <- get_fb ;;
  let '(fb, w, h) := r in
  match fb with
  | Some fb =>
      if (w >? 0) && (h >? 0) then write_fb (memset fb 0 color (w * h))
      else ret tt
  | None => ret tt
  end.

Definition rgb_gfx_pixel (x y color : Z) : M unit :=
  r <- get_fb ;;
  let '(fb, w, h) := r in
  match fb with
  | Some fb =>
      if (x >=? 0) && (x <? w) && (y >=? 0) && (y <? h)
      then write_fb (store fb (y * w + x) (to_uint8 color))
      else ret tt
  | None => ret tt
  end.

Definition rgb_gfx_hline (x y len color : Z) : M unit :=
  r <- get_fb ;;
  let '(fb, w, h) := r in
  match fb with
  | None => ret tt
  | Some fb =>
      if (y <? 0) || (y >=? h) || (len <=? 0) then ret tt
      else
        let '(len, x) := if x <? 0 then (int_add len x, 0) else (len, x) in
        let len := if int_add x len >? w then int_sub w x else len in
        if len <=? 0 then ret tt
        else write_fb (memset fb (y * w + x) color len)
  end.

Definition rgb_gfx_vline (x y len color : Z) : M unit :=
  r <- get_fb ;;
  let '(fb, w, h) := r in
  match fb with
  | None => ret tt
  | Some fb =>
      if (x <? 0) || (x >=? w) || (len <=? 0) then ret tt
      else
        let '(len, y) := if y <? 0 then (int_add len y, 0) else (len, y) in
        let len := if int_add y len >? h then int_sub h y else len in
        if len <=? 0 then ret tt
        else
          let p := y * w + x in
          write_fb (fst (for_range 0 len (fun i '(fb, p) =>
                           (store fb p (to_uint8 color), p + w)) (fb, p)))
  end.

Definition rgb_gfx_rect (x y rw rh color : Z) : M unit :=
  if (rw <=? 0) || (rh <=? 0) then ret tt
  else
    rgb_gfx_hline x y rw color ;;;
    rgb_gfx_hline x (int_sub (int_add y rh) 1) rw color ;;;
    if rh >? 2 then
      rgb_gfx_vline x (int_add y 1) (int_sub rh 2) color ;;;
      rgb_gfx_vline (int_sub (int_add x rw) 1) (int_add y 1) (int_sub rh 2)
        color
    else ret tt.

Definition rgb_gfx_rectfill (x y rw rh color : Z) : M unit :=
  r <- get_fb ;;
  let '(fb, w, h) := r in
  match fb with
  | None => ret tt
  | Some fb =>
      if (rw <=? 0) || (rh <=? 0) then ret tt
      else
        let x0 := x in
        let y0 := y in
        let x1 := int_add x rw in
        let y1 := int_add y rh in
        let x0 := if x0 <? 0 then 0 else x0 in
        let y0 := if y0 <? 0 then 0 else y0 in
        let x1 := if x1 >? w then w else x1 in
        let y1 := if y1 >? h then h else y1 in
        let clipped_w := int_sub x1 x0 in
        let clipped_h := int_sub y1 y0 in
        if (clipped_w <=? 0) || (clipped_h <=? 0) then ret tt
        else
          write_fb (for_range y0 y1 (fun row fb =>
                      memset fb (row * w + x0) color clipped_w) fb)
  end.

(** The nested loops of [rgb_gfx_blit], carrying the framebuffer. *)
Definition blit_loops (data fb : list Z)
    (w h x y sw sh src_stride transparent_color : Z) : list Z :=
  for_range 0 sh (fun sy fb =>
    let dy := y + sy in
    if (dy <? 0) || (dy >=? h) then fb
    else
      let src_row := sy * src_stride in
      let dst_row := dy * w in
      for_range 0 sw (fun sx fb =>
        let dx := x + sx in
        if (dx <? 0) || (dx >=? w) then fb
        else
          let pixel := load 0 data (src_row + sx) in
          if (transparent_color <? 0)
             || negb (pixel =? to_uint8 transparent_color)
          then store fb (dst_row + dx) pixel
          else fb) fb) fb.

Definition rgb_gfx_blit (data : option (list Z))
    (x y sw sh src_stride transparent_color : Z) : M unit :=
  r <- get_fb ;;
  let '(fb, w, h) := r in
  match fb, data with
  | Some fb, Some data =>
      if (sw <=? 0) || (sh <=? 0) then ret tt
      else
        write_fb (blit_loops data fb w h x y sw sh src_stride
                    transparent_color)
  | _, _ => ret tt
  end.

(** The nested loops of [rgb_gfx_blit_flip]. *)
Definition blit_flip_loops (data fb : list Z)
    (w h x y sw sh src_stride transparent_color : Z) (flip_x flip_y : bool)
  : list Z :=
  for_range 0 sh (fun sy fb =>
    let src_y := if flip_y then sh - 1 - sy else sy in
    let dy := y + sy in
    if (dy <? 0) || (dy >=? h) then fb
    else
      let src_row := src_y * src_stride in
      let dst_row := dy * w in
      for_range 0 sw (fun sx fb =>
        let src_x := if flip_x then sw - 1 - sx else sx in
        let dx := x + sx in
        if (dx <? 0) || (dx >=? w) then fb
        else
          let pixel := load 0 data (src_row + src_x) in
          if (transparent_color <? 0)
             || negb (pixel =? to_uint8 transparent_color)
          then store fb (dst_row + dx) pixel
          else fb) fb) fb.

Definition rgb_gfx_blit_flip (data : option (list Z))
    (x y sw sh src_stride transparent_color : Z) (flip_x flip_y : bool)
  : M unit :=
  r <- get_fb ;;
  let '(fb, w, h) := r in
  match fb, data with
  | Some fb, Some data =>
      if (sw <=? 0) || (sh <=? 0) then ret tt
      else
        write_fb (blit_flip_loops data fb w h x y sw sh src_stride
                    transparent_color flip_x flip_y)
  | _, _ => ret tt
  end.

End Display.

(** ** Sequences of calls

    [op] names one call of the public interface (or of a driver
    callback) with its arguments; [run] performs a sequence of them. *)

Section Traces.
Context {P : Platform}.

Inductive op : Type :=
| Init
| SetBuffer (cells : option (list lcd_cell_t))
| SetCallbacks (cb : option rgb_display_callbacks_t)
| RefreshPalette
| SetCursor (col row : Z)
| SetMode (mode : screen_mode_t)
| SetVgaPalette (palette : list Z)
| SetVgaPaletteEntry (index rgb565 : Z)
| WaitVsync
| BounceEmpty (buf : list Z) (pos_px len_bytes : Z)
| Vsync
| GfxClear (color : Z)
| GfxPixel (x y color : Z)
| GfxHline (x y len color : Z)
| GfxVline (x y len color : Z)
| GfxRect (x y rw rh color : Z)
| GfxRectfill (x y rw rh color : Z)
| GfxBlit (data : option (list Z)) (x y sw sh src_stride transparent_color : Z)
| GfxBlitFlip (data : option (list Z))
    (x y sw sh src_stride transparent_color : Z) (flip_x flip_y : bool).

Definition run_op (o : op) (s : state) : state :=
  match o with
  | Init => snd (rgb_display_init s)
  | SetBuffer cells => snd (rgb_display_set_buffer cells s)
  | SetCallbacks cb => snd (rgb_display_set_callbacks cb s)
  | RefreshPalette => snd (rgb_display_refresh_palette s)
  | SetCursor col row => snd (rgb_display_set_cursor col row s)
  | SetMode mode => snd (rgb_display_set_mode mode s)
  | SetVgaPalette palette => snd (rgb_display_set_vga_palette palette s)
  | SetVgaPaletteEntry i c => snd (rgb_display_set_vga_palette_entry i c s)
  | WaitVsync => snd (rgb_display_wait_vsync s)
  | BounceEmpty buf pos_px len_bytes => snd (on_bounce_empty buf pos_px len_bytes s)
  | Vsync => snd (on_vsync s)
  | GfxClear c => snd (rgb_gfx_clear c s)
  | GfxPixel x y c => snd (rgb_gfx_pixel x y c s)
  | GfxHline x y len c => snd (rgb_gfx_hline x y len c s)
  | GfxVline x y len c => snd (rgb_gfx_vline x y len c s)
  | GfxRect x y rw rh c => snd (rgb_gfx_rect x y rw rh c s)
  | GfxRectfill x y rw rh c => snd (rgb_gfx_rectfill x y rw rh c s)
  | GfxBlit data x y sw sh stride t =>
      snd (rgb_gfx_blit data x y sw sh stride t s)
  | GfxBlitFlip data x y sw sh stride t fx fy =>
      snd (rgb_gfx_blit_flip data x y sw sh stride t fx fy s)
  end.

Definition run (ops : list op) (s : state) : state :=
  foldl (fun s o => run_op o s) s ops.

(** A state is reachable when a sequence of calls leads to it from the
    program's start. *)
Definition reachable (s : state) : Prop :=
  exists (w : World) (ops : list op), s = run ops (startup w).

End Traces.

(** ** Boards to run the model on

    [board ok] is a platform with nothing to remember, whose allocator
    succeeds exactly when [ok], without external RAM and with a blank
    font. *)
Definition board (ok : bool) : Platform :=
  {| World := unit;
     heap_caps_malloc := fun _ _ w => (ok, w);
     xSemaphoreCreateBinary := fun w => (true, w);
     heap_caps_free := fun w => (tt, w);
     xSemaphoreGiveFromISR := fun w => (false, w);
     xSemaphoreTake := fun _ w => (true, w);
     CONFIG_SPIRAM := false;
     terminus16_glyph_bitmap := replicate 3584 0 |}.

(** The program's start on [board ok]. *)
Definition boot (ok : bool) : @state (board ok) := @startup (board ok) tt.

(** A 256x150 session on [board true]; the same with the framebuffer
    cleared to index 5 and palette entry 5 set to 0x1234. *)
Definition session_150p : @state (board true) :=
  run [Init; SetMode SM_150P] (boot true).


(** A platform whose internal RAM is exhausted while external RAM is
    configured and has room. *)
Definition board_psram : Platform :=
  {| World := unit;
     heap_caps_malloc :=
       fun _ caps w =>
         (match caps with
          | MALLOC_CAP_SPIRAM => true
          | MALLOC_CAP_INTERNAL_8BIT => false
          end, w);
     xSemaphoreCreateBinary := fun w => (true, w);
     heap_caps_free := fun w => (tt, w);
     xSemaphoreGiveFromISR := fun w => (false, w);
     xSemaphoreTake := fun _ w => (true, w);
     CONFIG_SPIRAM := true;
     terminus16_glyph_bitmap := replicate 3584 0 |}.

(** A platform whose font asset has the byte 0xAA in every glyph row, so
    that every glyph is vertical stripes, and a text session on it: a full
    screen of the letter A, white on blue, with the cursor in the top left
    cell. *)
Definition board_striped : Platform :=
  {| World := unit;
     heap_caps_malloc := fun _ _ w => (true, w);
     xSemaphoreCreateBinary := fun w => (true, w);
     heap_caps_free := fun w => (tt, w);
     xSemaphoreGiveFromISR := fun w => (false, w);
     xSemaphoreTake := fun _ w => (true, w);
     CONFIG_SPIRAM := false;
     terminus16_glyph_bitmap := replicate 3584 170 |}.

Definition text_cells : list lcd_cell_t := replicate 4736 (Cell 65 31).

Definition text_session : @state board_striped :=
  run [Init; SetBuffer (Some text_cells); SetCursor 0 0]
    (@startup board_striped tt).

(** * Specification vocabulary *)

Section Vocabulary.
Context {P : Platform}.

Definition is_graphics_mode (mode : screen_mode_t) : Prop :=
  mode = SM_VGA13H \/ mode = SM_150P.

(** The framebuffer pointer is non-null exactly in the graphics modes, and
    the mode is one of the three. *)
Definition framebuffer_tracks_mode (s : state) : Prop :=
  (s_screen_mode s = SM_TEXT \/ is_graphics_mode (s_screen_mode s)) /\
  (s_graphics_framebuffer s <> None <-> is_graphics_mode (s_screen_mode s)).

Definition text_buffer_only_in_text (s : state) : Prop :=
  s_display_buffer s <> None -> s_screen_mode s = SM_TEXT.

(** [s'] has the mode of [s], the same text-buffer reference, and a
    framebuffer pointer that is null exactly when that of [s] is. *)
Definition same_shape (s s' : state) : Prop :=
  s_screen_mode s' = s_screen_mode s /\
  s_display_buffer s' = s_display_buffer s /\
  (s_graphics_framebuffer s' = None <-> s_graphics_framebuffer s = None).

Definition framebuffer_only_in_graphics (s : state) : Prop :=
  s_graphics_framebuffer s <> None -> is_graphics_mode (s_screen_mode s).

Definition exactly_one_active (s : state) : Prop :=
  (s_display_buffer s <> None /\ s_graphics_framebuffer s = None) \/
  (s_display_buffer s = None /\ s_graphics_framebuffer s <> None).

(** The buffer invariant in the specification's words. *)
Definition buffers_exclusive (s : state) : Prop :=
  text_buffer_only_in_text s /\
  framebuffer_only_in_graphics s /\
  exactly_one_active s.

(** Along [ops], started in [s], every [SetBuffer] with a non-null
    reference is made in text mode. *)
Fixpoint buffers_set_in_text_only (ops : list op) (s : state) : Prop :=
  match ops with
  | [] => True
  | o :: ops' =>
      match o with
      | SetBuffer (Some _) => s_screen_mode s = SM_TEXT
      | _ => True
      end /\ buffers_set_in_text_only ops' (run_op o s)
  end.

(** Length of the framebuffer, [0] for [NULL]. *)
Definition framebuffer_size (s : state) : Z :=
  match s_graphics_framebuffer s with
  | Some fb => Z.of_nat (length fb)
  | None => 0
  end.

(** The hooks of a console that refuses graphics. *)
Definition refusing_console : rgb_display_callbacks_t :=
  {| get_text_palette := None;
     enter_graphics := Some (fun w => (1, w));
     exit_graphics := None;
     get_text_buffer := None;
     flush_input := None |}.

(** The hooks of a console with a text palette of its own: sixteen gray
    levels, [0x0000], [0x1111], ..., [0xFFFF]. *)
Definition ramp_palette : list Z := map (fun i => i * 4369) (seqZ 0 16).

Definition ramp_console : rgb_display_callbacks_t :=
  {| get_text_palette := Some (fun w => (ramp_palette, w));
     enter_graphics := None;
     exit_graphics := None;
     get_text_buffer := None;
     flush_input := None |}.

(** The indexed palette as [init_vga_palette] builds it from a zeroed
    table. *)
Definition vga_palette_image : list Z :=
  Eval vm_compute in init_vga_palette_table (replicate 256 0).

(** RGB565 packing of three channel values. *)
Definition pack_rgb565 (r5 g6 b5 : Z) : Z :=
  Z.lor (Z.lor (Z.shiftl r5 11) (Z.shiftl g6 5)) b5.

(** A table of [rows] rows of [cols] entries each. *)
Definition table_shape (rows cols : nat) (t : list (list Z)) : Prop :=
  length t = rows /\ Forall (fun r => length r = cols) t.

(** The sixteen colors of a text palette are 16-bit values. *)
Definition uint16_palette (palette : list Z) : Prop :=
  forall i, 0 <= i < 16 -> 0 <= load 0 palette i < 65536.

(** A 16-bit color in both halves of a 32-bit word. *)
Definition replicate_color (c : Z) : Z := c * 65536 + c.

(** The attribute LUT in the specification's words: for an attribute
    byte, the background word and the XOR of the foreground word with
    it; the background index is the high nibble. *)
Definition attr_lut_entry (palette : list Z) (attr : Z) : list Z :=
  let bg_word := replicate_color (load 0 palette (attr / 16)) in
  let fg_word := replicate_color (load 0 palette (attr mod 16)) in
  [bg_word; Z.lxor fg_word bg_word].

Definition attr_lut_direct (palette : list Z) : list (list Z) :=
  map (attr_lut_entry palette) (seqZ 0 256).

(** Pixel [(x, y)] of a framebuffer that is [w] pixels wide. *)
Definition pixel_at (w : Z) (a : list Z) (x y : Z) : Z := load 0 a (y * w + x).

(** Index [i] is a pixel with coordinates in [[0, w) x [0, h)]. *)
Definition in_area (w h i : Z) : Prop :=
  exists x y, 0 <= x < w /\ 0 <= y < h /\ i = y * w + x.

(** From [s] to [s'] nothing but the bytes of the framebuffer changed:
    every static is as before, the framebuffer pointer is null when it
    was, and the framebuffer has the number of bytes it had. *)
Definition framebuffer_write (s s' : state) : Prop :=
  s' = set_s_graphics_framebuffer (s_graphics_framebuffer s') s /\
  match s_graphics_framebuffer s with
  | None => s_graphics_framebuffer s' = None
  | Some a =>
      exists a', s_graphics_framebuffer s' = Some a' /\ length a' = length a
  end.

(** The value fits an [int] of the 32-bit target. *)
Definition int_range (z : Z) : Prop := INT_MIN <= z <= INT_MAX.

Definition gfx_primitive (o : op) : bool :=
  match o with
  | GfxClear _ | GfxPixel _ _ _ | GfxHline _ _ _ _ | GfxVline _ _ _ _
  | GfxRect _ _ _ _ _ | GfxRectfill _ _ _ _ _
  | GfxBlit _ _ _ _ _ _ _ | GfxBlitFlip _ _ _ _ _ _ _ _ _ => true
  | _ => false
  end.

(** The state is in a graphics session of the given geometry over the
    framebuffer bytes [a]. *)
Definition framebuffer_is (s : state) (w h : Z) (a : list Z) : Prop :=
  s_gfx_width s = w /\ s_gfx_height s = h /\
  s_graphics_framebuffer s = Some a /\ Z.of_nat (length a) = w * h.

(** Pixel [(x, y)] of the state's framebuffer, [0] without one. *)
Definition pixel (s : state) (x y : Z) : Z :=
  match s_graphics_framebuffer s with
  | Some a => pixel_at (s_gfx_width s) a x y
  | None => 0
  end.

(** The state holds a framebuffer of [w * h] bytes with dimensions [w]
    and [h], both positive. *)
Definition graphics_session (s : state) (w h : Z) : Prop :=
  s_gfx_width s = w /\ s_gfx_height s = h /\ 0 < w /\ 0 < h /\
  framebuffer_size s = w * h.

(** A framebuffer, when there is one, has positive dimensions and their
    product as its size. *)
Definition framebuffer_sized (s : state) : Prop :=
  s_graphics_framebuffer s <> None ->
  graphics_session s (s_gfx_width s) (s_gfx_height s).

(** What a blit leaves at a destination pixel that received the source
    byte [v]: with a non-negative [transparent_color] the byte equal to it
    modulo 256 is skipped, every other byte is copied. *)
Definition blit_result (transparent_color v old : Z) : Z :=
  if (transparent_color <? 0) || negb (v =? transparent_color mod 256)
  then v else old.

(** The sprite byte the flipped blit reads for destination offset
    [(sx, sy)]. *)
Definition sprite_byte (data : list Z) (sw sh src_stride : Z)
    (flip_x flip_y : bool) (sx sy : Z) : Z :=
  load 0 data ((if flip_y then sh - 1 - sy else sy) * src_stride
               + (if flip_x then sw - 1 - sx else sx)).


(** The framebuffer size and the dimension statics are the ones
    [allocate_graphics_framebuffer] assigns for the current mode. *)
Definition geometry_matches_mode (s : state) : Prop :=
  mode_geometry (s_screen_mode s) =
  Some (framebuffer_size s, s_gfx_width s, s_gfx_height s, s_gfx_scale s,
        s_gfx_margin_x s).

(** The byte-mask table as [precompute_tables] builds it from a zeroed
    table. *)
Definition byte_masks_image : list (list Z) :=
  Eval vm_compute in byte_masks_loop (replicate 256 (replicate 4 0)).

(** The 16-bit pixel number [k] (0 first) of a 32-bit word in the
    little-endian bounce buffer. *)
Definition word_pixel (v k : Z) : Z :=
  if k mod 2 =? 0 then v mod 65536 else v / 65536.

(** The four tables have the dimensions of their C arrays. *)
Definition tables_shaped (s : state) : Prop :=
  length (s_vga_palette s) = 256%nat /\
  table_shape 256 2 (ATTR_LUT s) /\
  table_shape 256 4 (BYTE_MASKS s) /\
  table_shape 256 16 (font_ram s).

(** The framebuffer size and the dimension statics are those of one of
    the two graphics variants. *)
Definition geometry_of_a_variant (s : state) : Prop :=
  exists mode, is_graphics_mode mode /\
    mode_geometry mode =
    Some (framebuffer_size s, s_gfx_width s, s_gfx_height s, s_gfx_scale s,
          s_gfx_margin_x s).

(** The size [allocate_graphics_framebuffer] asks the heap for. *)
Definition mode_size (mode : screen_mode_t) : Z :=
  match mode_geometry mode with
  | Some (size, _, _, _, _) => size
  | None => 0
  end.

(** Every entry of a font table is a byte. *)
Definition font_bytes (font : list (list Z)) : bool :=
  forallb (forallb (fun b => (0 <=? b) && (b <=? 255))) font.

(** The color of pixel [k] (0 leftmost) of a text cell on row [glyph_y] of
    its glyph: the foreground color, the palette entry of the low
    attribute nibble, under the cursor or where bit [7 - k] of the glyph
    row is set; the background color, of the high nibble, elsewhere. *)
Definition cell_pixel (font : list (list Z)) (palette : list Z)
    (c : lcd_cell_t) (glyph_y : Z) (cursor : bool) (k : Z) : Z :=
  let glyph := load2 font (ch c mod 256) glyph_y in
  let a := attr c mod 256 in
  if cursor || Z.testbit glyph (7 - k)
  then load 0 palette (a mod 16) else load 0 palette (a / 16).

(** The cursor underscore covers scanline [y] of the cell in column
    [cell_col]: the blink phase is on, the cursor row is not negative and
    is the scanline's text row, the column is the cursor's, and the
    scanline is one of the last two of the glyph. *)
Definition cursor_shown (cursor_row cursor_col : Z) (blink : bool)
    (y cell_col : Z) : bool :=
  blink && (0 <=? cursor_row) && (y / 16 =? cursor_row)
  && (cell_col =? cursor_col) && (14 <=? y mod 16).

(** The font table holds the glyphs of the bitmap asset from code 0x20
    on, and blank glyphs below. *)
Definition font_loaded (s : state) : Prop :=
  forall c y, 0 <= c < 256 -> 0 <= y < 16 ->
    load2 (font_ram s) c y =
    if c <? 32 then 0
    else load 0 terminus16_glyph_bitmap ((c - 32) * 16 + y).

End Vocabulary.

(** * Properties *)

(** ** Loops *)

Lemma for_loop_ind {St : Type} (Inv : Z -> St -> Prop) (body : Z -> St -> St)
    (n : nat) :
  forall (i : Z) (s : St),
    Inv i s ->
    (forall j t, i <= j < i + Z.of_nat n -> Inv j t -> Inv (j + 1) (body j t)) ->
    Inv (i + Z.of_nat n) (for_loop n i body s).
Proof.
  induction n as [|n IH]; intros i s Hi Hstep; simpl for_loop.
  - replace (i + Z.of_nat 0) with i by lia. exact Hi.
  - replace (i + Z.of_nat (S n)) with ((i + 1) + Z.of_nat n) by lia.
    apply IH.
    + apply Hstep; [lia | exact Hi].
    + intros j t Hj. apply Hstep. lia.
Qed.

Lemma for_range_ind {St : Type} (Inv : Z -> St -> Prop) (body : Z -> St -> St)
    (lo hi : Z) (s : St) :
  lo <= hi ->
  Inv lo s ->
  (forall j t, lo <= j < hi -> Inv j t -> Inv (j + 1) (body j t)) ->
  Inv hi (for_range lo hi body s).
Proof.
  intros Hle H0 Hstep. unfold for_range.
  replace hi with (lo + Z.of_nat (Z.to_nat (hi - lo))) at 1 by lia.
  apply for_loop_ind; [exact H0 |].
  intros j t Hj. apply Hstep. lia.
Qed.

Lemma for_range_empty {St : Type} (body : Z -> St -> St) (lo hi : Z) (s : St) :
  hi <= lo -> for_range lo hi body s = s.
Proof.
  intros Hle. unfold for_range.
  replace (Z.to_nat (hi - lo)) with O by lia. reflexivity.
Qed.

(** A property every iteration preserves holds after the loop. *)
Lemma for_range_preserves {St : Type} (Q : St -> Prop) (body : Z -> St -> St)
    (lo hi : Z) (s : St) :
  Q s ->
  (forall j t, lo <= j < hi -> Q t -> Q (body j t)) ->
  Q (for_range lo hi body s).
Proof.
  intros H0 Hstep. destruct (Z_le_gt_dec lo hi) as [Hle|Hgt].
  - apply (for_range_ind (fun _ => Q)); auto.
  - rewrite for_range_empty by lia. exact H0.
Qed.

(** ** Arrays *)

Lemma length_store {A : Type} (a : list A) (i : Z) (v : A) :
  length (store a i v) = length a.
Proof.
  unfold store. destruct (i <? 0); [reflexivity | apply length_insert].
Qed.

Lemma load_store_eq {A : Type} (d : A) (a : list A) (i : Z) (v : A) :
  0 <= i < Z.of_nat (length a) -> load d (store a i v) i = v.
Proof.
  intros Hi. unfold load, store.
  destruct (i <? 0) eqn:E; [lia |].
  rewrite list_lookup_insert_eq by lia. reflexivity.
Qed.

Lemma load_store_ne {A : Type} (d : A) (a : list A) (i j : Z) (v : A) :
  i <> j -> load d (store a i v) j = load d a j.
Proof.
  intros Hne. unfold load, store.
  destruct (j <? 0) eqn:Ej; [reflexivity |].
  destruct (i <? 0) eqn:Ei; [reflexivity |].
  rewrite list_lookup_insert_ne by lia. reflexivity.
Qed.

Lemma load_out_of_range {A : Type} (d : A) (a : list A) (i : Z) :
  i < 0 \/ Z.of_nat (length a) <= i -> load d a i = d.
Proof.
  intros Hi. unfold load. destruct (i <? 0) eqn:E; [reflexivity |].
  rewrite (lookup_ge_None_2 a (Z.to_nat i)) by lia. reflexivity.
Qed.

Lemma store_out_of_range {A : Type} (a : list A) (i : Z) (v : A) :
  i < 0 \/ Z.of_nat (length a) <= i -> store a i v = a.
Proof.
  intros Hi. unfold store. destruct (i <? 0) eqn:E; [reflexivity |].
  apply list_insert_ge. lia.
Qed.


(** Two arrays of one length that [load] cannot tell apart are equal. *)
Lemma load_ext {A : Type} (d : A) (a b : list A) :
  length a = length b ->
  (forall i, 0 <= i < Z.of_nat (length a) -> load d a i = load d b i) ->
  a = b.
Proof.
  intros Hlen Hld. apply list_eq. intros n.
  destruct (decide (n < length a)%nat) as [Hlt|Hge].
  - specialize (Hld (Z.of_nat n) ltac:(lia)). unfold load in Hld.
    destruct (Z.of_nat n <? 0) eqn:E; [lia |].
    rewrite Nat2Z.id in Hld.
    destruct (lookup_lt_is_Some_2 a n Hlt) as [x Hx].
    destruct (lookup_lt_is_Some_2 b n ltac:(lia)) as [y Hy].
    rewrite Hx, Hy in *. simpl in Hld. congruence.
  - rewrite !lookup_ge_None_2 by lia. reflexivity.
Qed.

Lemma load_map_seqZ {A : Type} (d : A) (f : Z -> A) (n i : Z) :
  0 <= i < n -> load d (map f (seqZ 0 n)) i = f i.
Proof.
  intros Hi. unfold load. destruct (i <? 0) eqn:E; [lia |].
  rewrite list_lookup_fmap, (lookup_seqZ_lt 0 n) by lia. cbn.
  f_equal. lia.
Qed.

Lemma length_memset (a : list Z) (off c n : Z) :
  length (memset a off c n) = length a.
Proof.
  unfold memset. destruct ((off <? 0) || (n <=? 0)); [reflexivity |].
  rewrite !length_app, length_take, length_replicate, length_drop. lia.
Qed.

Lemma load_memset (a : list Z) (off c n i : Z) :
  load 0 (memset a off c n) i =
  if (0 <=? off) && (off <=? i) && (i <? off + n)
     && (i <? Z.of_nat (length a))
  then to_uint8 c else load 0 a i.
Proof.
  unfold memset.
  destruct (off <? 0) eqn:Eoff; simpl.
  { replace (0 <=? off) with false by lia. reflexivity. }
  replace (0 <=? off) with true by lia. simpl.
  destruct (n <=? 0) eqn:En.
  { destruct (off <=? i) eqn:E1; simpl; [| reflexivity].
    replace (i <? off + n) with false by lia. reflexivity. }
  unfold load. destruct (i <? 0) eqn:Ei.
  { replace (off <=? i) with false by lia. reflexivity. }
  destruct (off <=? i) eqn:E1; simpl.
  - rewrite lookup_app_r by (rewrite length_take; lia).
    rewrite length_take.
    destruct (i <? Z.of_nat (length a)) eqn:E3;
      destruct (i <? off + n) eqn:E2; simpl.
    + rewrite lookup_app_l by (rewrite length_replicate; lia).
      rewrite lookup_replicate_2 by lia. reflexivity.
    + rewrite lookup_app_r by (rewrite length_replicate; lia).
      rewrite length_replicate, lookup_drop. f_equal. f_equal. lia.
    + rewrite (lookup_ge_None_2 a) by lia.
      rewrite lookup_ge_None_2; [reflexivity |].
      rewrite length_app, length_replicate, length_drop. lia.
    + rewrite (lookup_ge_None_2 a) by lia.
      rewrite lookup_ge_None_2; [reflexivity |].
      rewrite length_app, length_replicate, length_drop. lia.
  - destruct (decide (i < Z.of_nat (length a))) as [Hlt|Hge].
    + rewrite lookup_app_l by (rewrite length_take; lia).
      rewrite lookup_take_lt by lia. reflexivity.
    + rewrite (lookup_ge_None_2 a) by lia.
      rewrite lookup_ge_None_2; [reflexivity |].
      rewrite !length_app, length_take, length_replicate, length_drop. lia.
Qed.

(** ** [int] arithmetic *)

Lemma to_int_small (z : Z) : INT_MIN <= z <= INT_MAX -> to_int z = z.
Proof.
  unfold INT_MIN, INT_MAX, to_int. intros Hz.
  rewrite Z.mod_small by lia. lia.
Qed.

Lemma int_add_small (a b : Z) :
  INT_MIN <= a + b <= INT_MAX -> int_add a b = a + b.
Proof. apply to_int_small. Qed.

Lemma int_sub_small (a b : Z) :
  INT_MIN <= a - b <= INT_MAX -> int_sub a b = a - b.
Proof. apply to_int_small. Qed.

(** Discharges the reductions to [int] of sums that stay in range. *)
Ltac int_small :=
  repeat match goal with
  | |- context [int_add ?a ?b] =>
      rewrite (int_add_small a b) by (unfold INT_MIN, INT_MAX; lia)
  | |- context [int_sub ?a ?b] =>
      rewrite (int_sub_small a b) by (unfold INT_MIN, INT_MAX; lia)
  end.


(** ** The mode state machine *)

Arguments for_loop : simpl never.
Arguments for_range : simpl never.
Arguments load : simpl never.
Arguments store : simpl never.
Arguments memset : simpl never.
Arguments memcpy : simpl never.
Arguments attr_lut_loop : simpl never.
Arguments byte_masks_loop : simpl never.
Arguments init_vga_palette_table : simpl never.
Arguments load_font : simpl never.
Arguments graphics_line : simpl never.
Arguments text_line : simpl never.
Arguments clear_bounce : simpl never.
Arguments blit_loops : simpl never.
Arguments blit_flip_loops : simpl never.
Arguments fresh_block : simpl never.
Arguments allocate_graphics_framebuffer : simpl never.
Arguments free_graphics_framebuffer : simpl never.
Arguments call : simpl never.
Arguments rgb_gfx_hline : simpl never.
Arguments rgb_gfx_vline : simpl never.
Arguments rgb_display_set_mode : simpl never.
Arguments on_bounce_empty : simpl never.
Arguments Z.mul : simpl never.
Arguments Z.add : simpl never.
Arguments Z.sub : simpl never.
Arguments Z.quot : simpl never.
Arguments to_int : simpl never.
Arguments int_add : simpl never.
Arguments int_sub : simpl never.

(** Case analysis on the innermost [match], [if] or [let] of the goal. *)
Ltac case_inner :=
  match goal with
  | |- context [match ?x with _ => _ end] =>
      lazymatch x with
      | context [match _ with _ => _ end] => fail
      | _ => destruct x eqn:?
      end
  end.

Ltac unfold_m :=
  unfold rgb_display_set_mode, allocate_graphics_framebuffer,
    free_graphics_framebuffer, malloc_result,
    rgb_display_init, init_vga_palette, precompute_tables,
    rgb_display_refresh_palette, rebuild_attr_lut, text_palette,
    rgb_display_set_buffer, rgb_display_set_callbacks,
    rgb_display_set_cursor, rgb_display_get_mode,
    rgb_display_set_vga_palette, rgb_display_set_vga_palette_entry,
    rgb_display_get_vga_palette_entry, rgb_display_wait_vsync,
    on_bounce_empty, on_vsync,
    rgb_gfx_clear, rgb_gfx_pixel, rgb_gfx_hline, rgb_gfx_vline,
    rgb_gfx_rect, rgb_gfx_rectfill, rgb_gfx_blit, rgb_gfx_blit_flip,
    get_fb, write_fb, rgb_display_get_fb_width, rgb_display_get_fb_height,
    rgb_display_get_framebuffer,
    bind, ret, gets, modify, platform, call in *.

Ltac cases_m := unfold_m; cbn; repeat (case_inner; cbn in *).

Section ModeMachine.
Context {P : Platform}.

Lemma framebuffer_guard (s : state) :
  bool_decide (s_graphics_framebuffer s <> None) = false ->
  s_graphics_framebuffer s = None.
Proof.
  intros Hb. apply bool_decide_eq_false_1 in Hb.
  destruct (s_graphics_framebuffer s); [| reflexivity].
  exfalso. apply Hb. discriminate.
Qed.

Lemma allocate_when_allocated (mode : screen_mode_t) (s : state) :
  s_graphics_framebuffer s <> None ->
  allocate_graphics_framebuffer mode s = (0, s).
Proof.
  intros Hfb. unfold_m. rewrite bool_decide_eq_true_2 by exact Hfb.
  reflexivity.
Qed.





Lemma same_shape_refl (s : state) : same_shape s s.
Proof. unfold same_shape. tauto. Qed.

Lemma same_shape_trans (s1 s2 s3 : state) :
  same_shape s1 s2 -> same_shape s2 s3 -> same_shape s1 s3.
Proof.
  unfold same_shape. intros (Ha & Hb & Hc) (Hd & He & Hf).
  repeat split; try congruence; tauto.
Qed.

Ltac shape_by_cases :=
  unfold same_shape; cases_m; repeat split; intros; congruence.

Lemma hline_same_shape (x y len color : Z) (s : state) :
  same_shape s (snd (rgb_gfx_hline x y len color s)).
Proof. shape_by_cases. Qed.

Lemma vline_same_shape (x y len color : Z) (s : state) :
  same_shape s (snd (rgb_gfx_vline x y len color s)).
Proof. shape_by_cases. Qed.

Lemma rect_same_shape (x y rw rh color : Z) (s : state) :
  same_shape s (snd (rgb_gfx_rect x y rw rh color s)).
Proof.
  unfold rgb_gfx_rect, bind, ret.
  destruct ((rw <=? 0) || (rh <=? 0)); cbn; [apply same_shape_refl |].
  pose proof (hline_same_shape x y rw color s) as H1.
  destruct (rgb_gfx_hline x y rw color s) as [[] s1]; cbn in *.
  pose proof (hline_same_shape x (int_sub (int_add y rh) 1) rw color s1)
    as H2.
  destruct (rgb_gfx_hline x (int_sub (int_add y rh) 1) rw color s1)
    as [[] s2]; cbn in *.
  destruct (rh >? 2); cbn.
  - pose proof (vline_same_shape x (int_add y 1) (int_sub rh 2) color s2)
      as H3.
    destruct (rgb_gfx_vline x (int_add y 1) (int_sub rh 2) color s2)
      as [[] s3].
    cbn in *.
    pose proof (vline_same_shape (int_sub (int_add x rw) 1) (int_add y 1)
                  (int_sub rh 2) color s3) as H4.
    exact (same_shape_trans _ _ _ H1
             (same_shape_trans _ _ _ H2 (same_shape_trans _ _ _ H3 H4))).
  - exact (same_shape_trans _ _ _ H1 H2).
Qed.

Lemma run_op_same_shape (o : op) (s : state) :
  match o with SetMode _ | SetBuffer _ => False | _ => True end ->
  same_shape s (run_op o s).
Proof.
  destruct o; cbn [run_op]; intros Ho; try contradiction;
    try apply hline_same_shape; try apply vline_same_shape;
    try apply rect_same_shape; shape_by_cases.
Qed.

Lemma set_mode_tracks (mode : screen_mode_t) (s : state) :
  framebuffer_tracks_mode s ->
  framebuffer_tracks_mode (snd (rgb_display_set_mode mode s)).
Proof.
  unfold framebuffer_tracks_mode, is_graphics_mode.
  cases_m; unfold SM_TEXT, SM_VGA13H, SM_150P in *;
    repeat match goal with
    | Hb : bool_decide _ = false |- _ => apply framebuffer_guard in Hb
    | Hb : bool_decide _ = true |- _ => apply bool_decide_eq_true_1 in Hb
    end;
    intros [Hk [H1 H2]]; (split; [lia |]); split; intros;
    try congruence; try lia; try tauto.
Qed.

Lemma set_mode_text_buffer (mode : screen_mode_t) (s : state) :
  text_buffer_only_in_text s ->
  text_buffer_only_in_text (snd (rgb_display_set_mode mode s)).
Proof.
  unfold text_buffer_only_in_text.
  cases_m; unfold SM_TEXT, SM_VGA13H, SM_150P in *;
    intros; try congruence; try lia; try tauto.
Qed.

End ModeMachine.

Section ModeClaims.
Context {P : Platform}.

Lemma run_app (ops1 ops2 : list op) (s : state) :
  run (ops1 ++ ops2) s = run ops2 (run ops1 s).
Proof. unfold run. apply foldl_app. Qed.

Lemma run_cons (o : op) (ops : list op) (s : state) :
  run (o :: ops) s = run ops (run_op o s).
Proof. reflexivity. Qed.

Lemma startup_tracks (w : World) : framebuffer_tracks_mode (startup w).
Proof.
  unfold framebuffer_tracks_mode, is_graphics_mode. cbn.
  unfold SM_TEXT, SM_VGA13H, SM_150P. split; [tauto |].
  split; [congruence | lia].
Qed.

Lemma same_shape_tracks (s s' : state) :
  same_shape s s' -> framebuffer_tracks_mode s -> framebuffer_tracks_mode s'.
Proof.
  unfold same_shape, framebuffer_tracks_mode.
  intros (Hm & _ & Hf) (Hk & Ht). rewrite Hm. split; [exact Hk |].
  rewrite <- Ht. tauto.
Qed.

Lemma run_op_tracks (o : op) (s : state) :
  framebuffer_tracks_mode s -> framebuffer_tracks_mode (run_op o s).
Proof.
  intros Hs. destruct o;
    try (apply (same_shape_tracks s); [apply run_op_same_shape; exact I
                                      | exact Hs]).
  - exact Hs.
  - apply set_mode_tracks. exact Hs.
Qed.

Lemma run_tracks (ops : list op) :
  forall s : state,
    framebuffer_tracks_mode s -> framebuffer_tracks_mode (run ops s).
Proof.
  induction ops as [|o ops IH]; intros s Hs; [exact Hs |].
  rewrite run_cons. apply IH, run_op_tracks, Hs.
Qed.

Lemma run_op_text_buffer (o : op) (s : state) :
  match o with SetBuffer (Some _) => s_screen_mode s = SM_TEXT | _ => True end ->
  text_buffer_only_in_text s -> text_buffer_only_in_text (run_op o s).
Proof.
  intros Ho Hs. destruct o;
    try (match goal with
         | |- text_buffer_only_in_text (run_op ?o s) =>
             destruct (run_op_same_shape o s I) as (Hm & Hb & _)
         end;
         unfold text_buffer_only_in_text in *; rewrite Hm, Hb; exact Hs).
  - match goal with |- context [SetBuffer ?c] => destruct c end;
      unfold text_buffer_only_in_text; cbn; intros; tauto.
  - apply set_mode_text_buffer. exact Hs.
Qed.

Lemma run_text_buffer (ops : list op) :
  forall s : state,
    buffers_set_in_text_only ops s ->
    text_buffer_only_in_text s -> text_buffer_only_in_text (run ops s).
Proof.
  induction ops as [|o ops IH]; intros s Hd Hs; [exact Hs |].
  destruct Hd as [Ho Hd]. rewrite run_cons.
  apply IH; [exact Hd |]. apply run_op_text_buffer; assumption.
Qed.

(** C4 (as amended).  In every state a sequence of calls reaches from the
    program's start, the framebuffer pointer is non-null exactly when the
    mode is a graphics variant.  When moreover every call that installed a
    non-null text buffer was made in text mode, the text-buffer reference
    is non-null only in text mode and the two are never non-null together
    (both may be null). *)
Theorem framebuffer_exclusive_of_text_buffer (w : World) (ops : list op) :
  let s := run ops (startup w) in
  (s_graphics_framebuffer s <> None <-> is_graphics_mode (s_screen_mode s)) /\
  (buffers_set_in_text_only ops (startup w) ->
   text_buffer_only_in_text s /\
   ~ (s_display_buffer s <> None /\ s_graphics_framebuffer s <> None)).
Proof.
  intros s.
  destruct (run_tracks ops (startup w) (startup_tracks w)) as [Hk Ht].
  fold s in Hk, Ht. split; [exact Ht |].
  intros Hd.
  assert (Hb : text_buffer_only_in_text s).
  { apply run_text_buffer; [exact Hd |].
    unfold text_buffer_only_in_text. cbn. congruence. }
  split; [exact Hb |].
  intros [Hbuf Hfb]. apply Hb in Hbuf. apply Ht in Hfb.
  unfold is_graphics_mode, SM_TEXT, SM_VGA13H, SM_150P in *. lia.
Qed.


(** Entering a graphics variant from a state without a framebuffer: on
    success the framebuffer and the dimensions are the variant's. *)
Lemma set_mode_fresh_geometry (mode : screen_mode_t) (s : state) :
  s_graphics_framebuffer s = None ->
  is_graphics_mode mode ->
  fst (rgb_display_set_mode mode s) = 0 ->
  mode <> s_screen_mode s ->
  let s' := snd (rgb_display_set_mode mode s) in
  mode_geometry mode =
    Some (framebuffer_size s', s_gfx_width s', s_gfx_height s',
          s_gfx_scale s', s_gfx_margin_x s') /\
  s_screen_mode s' = mode.
Proof.
  intros Hfb Hg. unfold framebuffer_size.
  assert (Hsize : forall n, 0 <= n ->
            Z.of_nat (length (memset (fresh_block n) 0 0 n)) = n).
  { intros n Hn. rewrite length_memset. unfold fresh_block.
    rewrite length_replicate. lia. }
  unfold rgb_display_set_mode, allocate_graphics_framebuffer, malloc_result,
    bind, ret, gets, modify, platform, call.
  destruct (mode =? s_screen_mode s) eqn:E0; [intros _ Hne; lia |].
  destruct Hg as [-> | ->]; cbn;
    repeat (case_inner; cbn in * );
    try rewrite Hfb in *; cbn in *;
    try discriminate; intros Hr Hne; try discriminate;
    rewrite Hsize by (vm_compute; discriminate);
    split; reflexivity.
Qed.

(** C2 (the code departs from it).  [rgb_display_set_mode (SM_TEXT)] never
    touches the dimension statics, so the getters keep reporting the last
    graphics geometry in text mode: after a 320x200 session they return
    320 and 200, not 0.  A failed allocation from text mode leaves the
    same values behind. *)
Theorem fb_dimensions_outlive_graphics_mode :
  (forall s : state,
     let s' := snd (rgb_display_set_mode SM_TEXT s) in
     fst (rgb_display_get_fb_width s') = fst (rgb_display_get_fb_width s) /\
     fst (rgb_display_get_fb_height s') = fst (rgb_display_get_fb_height s)) /\
  (let s := run [Init; SetMode SM_VGA13H; SetMode SM_TEXT] (boot true) in
   fst (rgb_display_get_mode s) = SM_TEXT /\
   fst (rgb_display_get_fb_width s) = 320 /\
   fst (rgb_display_get_fb_height s) = 200) /\
  (let s := run [Init; SetMode SM_VGA13H] (boot false) in
   fst (rgb_display_get_mode s) = SM_TEXT /\
   fst (rgb_display_get_fb_width s) = 320 /\
   fst (rgb_display_get_fb_height s) = 200).
Proof.
  split; [| split; vm_compute; repeat split; reflexivity].
  intros s. cases_m; split; reflexivity.
Qed.

(** C3 (the code departs from it).  With a framebuffer in place
    [allocate_graphics_framebuffer] returns success at once, whatever the
    mode asked for.  A switch from 320x200 straight to 256x150 therefore
    succeeds and reports mode 256x150 while the framebuffer still has
    64000 bytes and width, height, scale and margin are still 320, 200, 3
    and 32. *)
Theorem graphics_switch_keeps_old_framebuffer :
  let s1 := run [Init; SetMode SM_VGA13H] (boot true) in
  let r := rgb_display_set_mode SM_150P s1 in
  fst (rgb_display_get_mode s1) = SM_VGA13H /\
  fst (allocate_graphics_framebuffer SM_150P s1) = 0 /\
  fst r = 0 /\
  fst (rgb_display_get_mode (snd r)) = SM_150P /\
  framebuffer_size (snd r) = 64000 /\
  s_gfx_width (snd r) = 320 /\
  s_gfx_height (snd r) = 200 /\
  s_gfx_scale (snd r) = 3 /\
  s_gfx_margin_x (snd r) = 32 /\
  mode_geometry SM_150P = Some (38400, 256, 150, 4, 0).
Proof. vm_compute. repeat split; reflexivity. Qed.

End ModeClaims.

(** ** Palettes *)

Section Palette.
Context {P : Platform}.

(** A list is the list of its entries, read by index. *)
Lemma list_as_loads (l : list Z) (n : Z) :
  Z.of_nat (length l) = n -> l = map (load 0 l) (seqZ 0 n).
Proof.
  intros Hn. apply list_eq. intros k.
  rewrite list_lookup_fmap.
  destruct (decide (k < length l)%nat) as [Hlt|Hge].
  - rewrite (lookup_seqZ_lt 0 n k) by lia. cbn.
    destruct (lookup_lt_is_Some_2 l k Hlt) as [x Hx].
    rewrite Hx. unfold load.
    replace (0 + Z.of_nat k <? 0) with false by lia.
    replace (Z.to_nat (0 + Z.of_nat k)) with k by lia.
    rewrite Hx. reflexivity.
  - rewrite lookup_ge_None_2 by lia.
    rewrite lookup_seqZ_ge by lia. reflexivity.
Qed.

(** [init_vga_palette] assigns every entry: the table it leaves does not
    depend on the table it finds. *)
Lemma init_vga_palette_table_total (pal : list Z) :
  length pal = 256%nat -> init_vga_palette_table pal = vga_palette_image.
Proof.
  intros Hlen. rewrite (list_as_loads pal 256) by lia.
  generalize (load 0 pal). intros f. vm_compute. reflexivity.
Qed.

Lemma vga_palette_image_cube (r g b : Z) :
  0 <= r <= 5 -> 0 <= g <= 5 -> 0 <= b <= 5 ->
  load 0 vga_palette_image (16 + r * 36 + g * 6 + b) = cube_color r g b.
Proof.
  intros Hr Hg Hb.
  assert (Er : r = 0 \/ r = 1 \/ r = 2 \/ r = 3 \/ r = 4 \/ r = 5) by lia.
  assert (Eg : g = 0 \/ g = 1 \/ g = 2 \/ g = 3 \/ g = 4 \/ g = 5) by lia.
  assert (Eb : b = 0 \/ b = 1 \/ b = 2 \/ b = 3 \/ b = 4 \/ b = 5) by lia.
  clear Hr Hg Hb.
  repeat match goal with
         | Hx : _ \/ _ |- _ => destruct Hx as [-> | Hx]
         | Hx : _ = _ |- _ => subst
         end; vm_compute; reflexivity.
Qed.

(** C7 (as amended).  After [init_vga_palette], entry 16 is 0 and the cube
    entry for levels [(r, g, b)] sits at index [16 + 36 r + 6 g + b].
    So entry [16 + 6*6 - 1] is the packing of level-0 red with level-5
    green and blue, 0x07FF, and the packing of level 5 in all three
    channels, 0xFFFF, is entry [16 + 6*6*6 - 1]. *)
Theorem color_cube_entries (s : state) :
  length (s_vga_palette s) = 256%nat ->
  let pal := s_vga_palette (snd (init_vga_palette s)) in
  load 0 pal 16 = 0 /\
  (forall r g b, 0 <= r <= 5 -> 0 <= g <= 5 -> 0 <= b <= 5 ->
     load 0 pal (16 + r * 36 + g * 6 + b) = cube_color r g b) /\
  load 0 pal (16 + 6 * 6 - 1) = cube_color 0 5 5 /\
  cube_color 0 5 5 = pack_rgb565 0 63 31 /\
  pack_rgb565 0 63 31 = 2047 /\
  load 0 pal (16 + 6 * 6 * 6 - 1) = cube_color 5 5 5 /\
  cube_color 5 5 5 = pack_rgb565 31 63 31 /\
  pack_rgb565 31 63 31 = 65535.
Proof.
  intros Hlen pal.
  assert (Hpal : pal = vga_palette_image).
  { unfold pal, init_vga_palette, modify. cbn.
    apply init_vga_palette_table_total, Hlen. }
  rewrite Hpal. split; [reflexivity |].
  split; [apply vga_palette_image_cube |].
  repeat split; vm_compute; reflexivity.
Qed.

(** C9.  With the 256-entry palette table: writing entry [i] in [0,255]
    and reading it back returns the color written; for [i] outside that
    range the read returns 0 and the write changes nothing at all. *)
Theorem vga_palette_entry_round_trip (s : state) (i c : Z) :
  length (s_vga_palette s) = 256%nat ->
  (0 <= i <= 255 ->
   fst (rgb_display_get_vga_palette_entry i
          (snd (rgb_display_set_vga_palette_entry i c s))) = c) /\
  (~ 0 <= i <= 255 ->
   fst (rgb_display_get_vga_palette_entry i s) = 0 /\
   snd (rgb_display_set_vga_palette_entry i c s) = s).
Proof.
  intros Hlen.
  unfold rgb_display_get_vga_palette_entry, rgb_display_set_vga_palette_entry,
    bind, ret, gets, modify.
  split; intros Hi.
  - replace ((i >=? 0) && (i <? 256)) with true by lia. cbn.
    apply load_store_eq. lia.
  - replace ((i >=? 0) && (i <? 256)) with false by lia. cbn. tauto.
Qed.

End Palette.

(** ** Attribute LUT *)

Section AttrLut.
Context {P : Platform}.

Lemma lor_replicate_color (c : Z) :
  0 <= c < 65536 ->
  to_uint32 (Z.lor (Z.shiftl c 16) c) = replicate_color c.
Proof.
  intros Hc. unfold to_uint32, replicate_color.
  rewrite Z.shiftl_mul_pow2 by lia.
  assert (Hland : Z.land (c * 2 ^ 16) c = 0).
  { apply Z.bits_inj'. intros n Hn.
    rewrite Z.land_spec, Z.bits_0.
    destruct (Z.lt_ge_cases n 16) as [Hlt|Hge].
    - rewrite Z.mul_pow2_bits_low by lia. reflexivity.
    - replace c with (c mod 2 ^ 16) at 2 by (apply Z.mod_small; lia).
      rewrite Z.testbit_mod_pow2 by lia.
      replace (n <? 16) with false by lia.
      apply andb_false_r. }
  rewrite <- Z.lxor_lor, <- Z.add_nocarry_lxor by exact Hland.
  change (2 ^ 16) with 65536. apply Z.mod_small. lia.
Qed.

Lemma attr_nibbles (attr : Z) :
  0 <= attr < 256 ->
  to_uint8 (LCD_ATTR_FG attr) = attr mod 16 /\
  to_uint8 (LCD_ATTR_BG attr) = attr / 16.
Proof.
  intros Ha. unfold to_uint8, LCD_ATTR_FG, LCD_ATTR_BG.
  change 15 with (Z.ones 4).
  rewrite !Z.land_ones, Z.shiftr_div_pow2 by lia.
  change (2 ^ 4) with 16.
  assert (0 <= attr / 16 < 16)
    by (split; [apply Z.div_pos; lia | apply Z.div_lt_upper_bound; lia]).
  assert (0 <= attr mod 16 < 16) by (apply Z.mod_pos_bound; lia).
  rewrite (Z.mod_small (attr / 16) 16) by lia.
  split; apply Z.mod_small; lia.
Qed.

Lemma table_shape_load (rows cols : nat) (t : list (list Z)) (i : Z) :
  table_shape rows cols t -> 0 <= i < Z.of_nat rows ->
  length (load [] t i) = cols.
Proof.
  intros [Hlen Hall] Hi. unfold load.
  destruct (i <? 0) eqn:E; [lia |].
  destruct (lookup_lt_is_Some_2 t (Z.to_nat i) ltac:(lia)) as [r Hr].
  rewrite Hr. cbn. rewrite Forall_lookup in Hall. eapply Hall, Hr.
Qed.

Lemma table_shape_store (rows cols : nat) (t : list (list Z)) (i : Z)
    (r : list Z) :
  table_shape rows cols t -> length r = cols ->
  table_shape rows cols (store t i r).
Proof.
  intros [Hlen Hall] Hr. split; [rewrite length_store; exact Hlen |].
  unfold store. destruct (i <? 0); [exact Hall |].
  apply Forall_insert; assumption.
Qed.

(** One iteration of the loop, on a table of pairs. *)
Lemma attr_lut_step (t : list (list Z)) (a v x : Z) :
  table_shape 256 2 t -> 0 <= a < 256 ->
  let t' := store2 (store2 t a 0 v) a 1 x in
  table_shape 256 2 t' /\
  load [] t' a = [v; x] /\
  (forall b, b <> a -> load [] t' b = load [] t b).
Proof.
  intros Ht Ha. unfold store2.
  pose proof (table_shape_load 256 2 t a Ht ltac:(lia)) as Hrow.
  destruct (load [] t a) as [|r0 [|r1 [|r2 row]]] eqn:Erow;
    try discriminate Hrow.
  assert (Hlen : Z.of_nat (length t) = 256) by (destruct Ht; lia).
  rewrite !load_store_eq by (rewrite ?length_store; lia).
  change (store [r0; r1] 0 v) with [v; r1].
  change (store [v; r1] 1 x) with [v; x].
  split; [| split].
  - repeat apply table_shape_store; auto.
  - reflexivity.
  - intros b Hb. rewrite !load_store_ne by lia. reflexivity.
Qed.

Lemma attr_lut_loop_direct (palette : list Z) (lut : list (list Z)) :
  table_shape 256 2 lut -> uint16_palette palette ->
  attr_lut_loop palette lut = attr_lut_direct palette.
Proof.
  intros Hshape Hpal. unfold attr_lut_loop.
  match goal with
  | |- for_range 0 256 ?body lut = _ =>
      assert (Hinv : (fun k t => table_shape 256 2 t /\
                        forall a, 0 <= a < k ->
                          load [] t a = attr_lut_entry palette a)
                       256 (for_range 0 256 body lut))
  end.
  { apply for_range_ind; [lia | split; [exact Hshape | intros; lia] |].
    intros a t Ha [Ht Hdone].
    destruct (attr_nibbles a ltac:(lia)) as [Hfg Hbg].
    rewrite Hfg, Hbg.
    assert (0 <= a / 16 < 16)
      by (split; [apply Z.div_pos; lia | apply Z.div_lt_upper_bound; lia]).
    assert (0 <= a mod 16 < 16) by (apply Z.mod_pos_bound; lia).
    rewrite !lor_replicate_color by (apply Hpal; lia).
    match goal with
    | |- context [store2 (store2 t a 0 ?v) a 1 ?x] =>
        destruct (attr_lut_step t a v x Ht ltac:(lia)) as (Ht' & Heq & Hne)
    end.
    split; [exact Ht' |].
    intros b Hb. destruct (decide (b = a)) as [-> | Hba].
    - rewrite Heq. reflexivity.
    - rewrite Hne by exact Hba. apply Hdone. lia. }
  destruct Hinv as [[Hlen _] Hall].
  apply (load_ext []).
  - unfold attr_lut_direct. rewrite length_map, length_seqZ. lia.
  - intros i Hi. unfold attr_lut_direct.
    rewrite load_map_seqZ by lia. apply Hall. lia.
Qed.

(** C6.  After [rebuild_attr_lut], with the current text palette, which
    is the one the [get_text_palette] hook returns when the hook table
    and the hook are set and the built-in CGA colors otherwise, made of
    16-bit colors: for every attribute byte the background word is the
    palette color at the high nibble in both halves of a 32-bit word, and
    the XOR word is the foreground word, built the same way from the low
    nibble, XORed with the background word.  The table is the direct
    recomputation from that palette, whatever it held before. *)
Theorem attr_lut_matches_palette (s : state) (palette : list Z) :
  table_shape 256 2 (ATTR_LUT s) ->
  match s_callbacks s with
  | Some cb =>
      match get_text_palette cb with
      | Some hook => palette = fst (hook (env s))
      | None => palette = s_cga_colors
      end
  | None => palette = s_cga_colors
  end ->
  uint16_palette palette ->
  let lut := ATTR_LUT (snd (rebuild_attr_lut s)) in
  lut = attr_lut_direct palette /\
  forall attr, 0 <= attr <= 255 ->
    let bg := load 0 palette (attr / 16) in
    let fg := load 0 palette (attr mod 16) in
    let bg_word := load2 lut attr 0 in
    let xor_word := load2 lut attr 1 in
    bg_word = bg * 65536 + bg /\
    bg_word mod 65536 = bg /\
    bg_word / 65536 = bg /\
    xor_word = Z.lxor (fg * 65536 + fg) bg_word.
Proof.
  intros Hshape Hcur Hpal lut.
  assert (Hsel : fst (text_palette s) = palette).
  { unfold text_palette, bind, ret, call.
    destruct (s_callbacks s) as [cb|]; [| symmetry; exact Hcur].
    destruct (get_text_palette cb) as [hook|]; [| symmetry; exact Hcur].
    rewrite Hcur. destruct (hook (env s)). reflexivity. }
  assert (Hlut : lut = attr_lut_direct palette).
  { unfold lut, rebuild_attr_lut, bind, modify.
    destruct (text_palette s) as [pal s1] eqn:Etp. cbn in *. subst pal.
    assert (Hs1 : ATTR_LUT s1 = ATTR_LUT s).
    { revert Etp. unfold text_palette, bind, ret, call.
      repeat (case_inner; cbn); intros [= _ <-]; reflexivity. }
    rewrite Hs1. apply attr_lut_loop_direct; assumption. }
  split; [exact Hlut |].
  intros attr Ha bg fg bg_word xor_word.
  assert (Hbg : 0 <= bg < 65536).
  { apply Hpal.
    split; [apply Z.div_pos; lia | apply Z.div_lt_upper_bound; lia]. }
  assert (Hw0 : bg_word = bg * 65536 + bg).
  { unfold bg_word, load2. rewrite Hlut. unfold attr_lut_direct.
    rewrite load_map_seqZ by lia. reflexivity. }
  assert (Hw1 : xor_word = Z.lxor (fg * 65536 + fg) bg_word).
  { rewrite Hw0. unfold xor_word, load2. rewrite Hlut.
    unfold attr_lut_direct. rewrite load_map_seqZ by lia. reflexivity. }
  split; [exact Hw0 |]. split; [| split; [| exact Hw1]].
  - rewrite Hw0. rewrite Z.add_comm, Z.mod_add by lia.
    apply Z.mod_small. lia.
  - rewrite Hw0. rewrite Z.add_comm, Z.div_add by lia.
    rewrite Z.div_small by lia. reflexivity.
Qed.

End AttrLut.

(** ** Framebuffer pixels *)

Lemma in_area_index (w h i : Z) : 0 <= i < w * h -> 0 < w -> in_area w h i.
Proof.
  intros Hi Hw. exists (i mod w), (i / w).
  pose proof (Z.mod_pos_bound i w Hw).
  pose proof (Z.div_mod i w ltac:(lia)).
  assert (0 <= i / w) by (apply Z.div_pos; lia).
  assert (i / w < h) by (apply Z.div_lt_upper_bound; lia).
  lia.
Qed.

(** Distinct pixels of the area have distinct indices. *)
Lemma pixel_index_inj (w x y x' y' : Z) :
  0 <= x < w -> 0 <= x' < w ->
  y * w + x = y' * w + x' -> x = x' /\ y = y'.
Proof.
  intros Hx Hx' Heq.
  assert (y = y'); [| subst; lia].
  destruct (Z.lt_trichotomy y y') as [Hlt | [Heq' | Hgt]]; [| exact Heq' |].
  - assert (1 * w <= (y' - y) * w) by (apply Z.mul_le_mono_nonneg_r; lia).
    lia.
  - assert (1 * w <= (y - y') * w) by (apply Z.mul_le_mono_nonneg_r; lia).
    lia.
Qed.

Lemma pixel_index_bound (w h x y : Z) :
  0 <= x < w -> 0 <= y < h -> 0 <= y * w + x < w * h.
Proof.
  intros Hx Hy.
  assert (0 <= y * w) by (apply Z.mul_nonneg_nonneg; lia).
  assert ((y + 1) * w <= h * w) by (apply Z.mul_le_mono_nonneg_r; lia).
  lia.
Qed.

Lemma pixel_at_store (w h : Z) (a : list Z) (x y v px py : Z) :
  w * h <= Z.of_nat (length a) ->
  0 <= x < w -> 0 <= y < h -> 0 <= px < w -> 0 <= py < h ->
  pixel_at w (store a (y * w + x) v) px py =
  if (px =? x) && (py =? y) then v else pixel_at w a px py.
Proof.
  intros Hfit Hx Hy Hpx Hpy. unfold pixel_at.
  destruct ((px =? x) && (py =? y)) eqn:E.
  - assert (px = x /\ py = y) as [-> ->] by lia.
    apply load_store_eq. pose proof (pixel_index_bound w h x y Hx Hy). lia.
  - apply load_store_ne. intros Heq.
    destruct (pixel_index_inj w x y px py Hx Hpx Heq). lia.
Qed.

Lemma pixel_at_memset (w h : Z) (a : list Z) (x y n c px py : Z) :
  w * h <= Z.of_nat (length a) ->
  0 <= x -> x + n <= w -> 0 <= y < h -> 0 <= px < w -> 0 <= py < h ->
  pixel_at w (memset a (y * w + x) c n) px py =
  if (py =? y) && (x <=? px) && (px <? x + n) then to_uint8 c
  else pixel_at w a px py.
Proof.
  intros Hfit Hx Hn Hy Hpx Hpy. unfold pixel_at. rewrite load_memset.
  pose proof (pixel_index_bound w h px py Hpx Hpy).
  destruct ((py =? y) && (x <=? px) && (px <? x + n)) eqn:E.
  - assert (py = y) as -> by lia.
    replace ((0 <=? y * w + x) && (y * w + x <=? y * w + px)
             && (y * w + px <? y * w + x + n)
             && (y * w + px <? Z.of_nat (length a))) with true;
      [reflexivity |].
    assert (0 <= y * w) by (apply Z.mul_nonneg_nonneg; lia).
    symmetry. repeat (apply andb_true_intro; split); lia.
  - match goal with
    | |- (if ?b then _ else _) = _ => destruct b eqn:E2; [| reflexivity]
    end.
    exfalso.
    assert (Hr : y * w + x <= py * w + px < y * w + x + n) by lia.
    assert (py = y); [| subst py; lia].
    destruct (Z.lt_trichotomy py y) as [Hlt | [Heq' | Hgt]]; [| exact Heq' |].
    + assert (1 * w <= (y - py) * w)
        by (apply Z.mul_le_mono_nonneg_r; lia).
      lia.
    + assert (1 * w <= (py - y) * w)
        by (apply Z.mul_le_mono_nonneg_r; lia).
      lia.
Qed.

(** ** Graphics primitives: what they may change *)

Lemma length_vline_loop (a : list Z) (p0 w c n : Z) :
  length (fst (for_range 0 n (fun (_ : Z) '(fb, p) =>
                 (store fb p c, p + w)) (a, p0))) = length a.
Proof.
  apply (for_range_preserves
           (fun st : list Z * Z => length (fst st) = length a));
    [reflexivity |].
  intros j [fb p] _ Hl. cbn in *. rewrite length_store. exact Hl.
Qed.

Lemma length_fill_rows (a : list Z) (w x0 c cw y0 y1 : Z) :
  length (for_range y0 y1 (fun row fb => memset fb (row * w + x0) c cw) a)
  = length a.
Proof.
  apply (for_range_preserves (fun fb : list Z => length fb = length a));
    [reflexivity |].
  intros j fb _ Hl. rewrite length_memset. exact Hl.
Qed.

Lemma length_blit_flip_loops (data a : list Z)
    (w h x y sw sh stride t : Z) (fx fy : bool) :
  length (blit_flip_loops data a w h x y sw sh stride t fx fy) = length a.
Proof.
  unfold blit_flip_loops.
  apply (for_range_preserves (fun fb : list Z => length fb = length a));
    [reflexivity |].
  intros sy fb _ Hl. cbn beta zeta.
  destruct ((y + sy <? 0) || (y + sy >=? h)); [exact Hl |].
  apply (for_range_preserves (fun fb : list Z => length fb = length a));
    [exact Hl |].
  intros sx fb' _ Hl'. cbn beta zeta.
  destruct ((x + sx <? 0) || (x + sx >=? w)); [exact Hl' |].
  match goal with
  | |- length (if ?b then _ else _) = _ => destruct b; [| exact Hl']
  end.
  rewrite length_store. exact Hl'.
Qed.

(** [rgb_gfx_blit] runs the loops of [rgb_gfx_blit_flip] without flips. *)
Lemma blit_loops_as_flip (data a : list Z) (w h x y sw sh stride t : Z) :
  blit_loops data a w h x y sw sh stride t =
  blit_flip_loops data a w h x y sw sh stride t false false.
Proof. reflexivity. Qed.

Section Primitives.
Context {P : Platform}.

Lemma set_framebuffer_same (s : state) :
  set_s_graphics_framebuffer (s_graphics_framebuffer s) s = s.
Proof. destruct s. reflexivity. Qed.

Lemma framebuffer_write_refl (s : state) : framebuffer_write s s.
Proof.
  split; [symmetry; apply set_framebuffer_same |].
  destruct (s_graphics_framebuffer s) as [a|]; [| reflexivity].
  exists a. split; reflexivity.
Qed.

Lemma framebuffer_write_trans (s1 s2 s3 : state) :
  framebuffer_write s1 s2 -> framebuffer_write s2 s3 ->
  framebuffer_write s1 s3.
Proof.
  intros [E12 H12] [E23 H23]. split.
  - rewrite E23 at 1. rewrite E12. reflexivity.
  - destruct (s_graphics_framebuffer s1) as [a|].
    + destruct H12 as (b & Hb & Hab). rewrite Hb in H23.
      destruct H23 as (c & Hc & Hbc). exists c. split; [exact Hc |].
      congruence.
    + rewrite H12 in H23. exact H23.
Qed.

(** A write through the pointer [get_fb] returned. *)
Lemma framebuffer_write_fb (s : state) (a a' : list Z) :
  s_graphics_framebuffer s = Some a -> length a' = length a ->
  framebuffer_write s (set_s_graphics_framebuffer (Some a') s).
Proof.
  intros Hfb Hl. split; [reflexivity |]. rewrite Hfb.
  exists a'. split; [reflexivity | exact Hl].
Qed.

Ltac prim_start :=
  unfold_m; cbn;
  match goal with
  | |- context [s_graphics_framebuffer ?s] =>
      destruct (s_graphics_framebuffer s) as [a|] eqn:Hfb;
      cbn; [| apply framebuffer_write_refl]
  end.

Ltac prim_cases :=
  repeat (case_inner; cbn); try apply framebuffer_write_refl;
  (eapply framebuffer_write_fb; [eassumption |]).

Lemma clear_frame (color : Z) (s : state) :
  framebuffer_write s (snd (rgb_gfx_clear color s)).
Proof. prim_start. prim_cases. apply length_memset. Qed.

Lemma pixel_frame (x y color : Z) (s : state) :
  framebuffer_write s (snd (rgb_gfx_pixel x y color s)).
Proof. prim_start. prim_cases. apply length_store. Qed.

Lemma hline_frame (x y len color : Z) (s : state) :
  framebuffer_write s (snd (rgb_gfx_hline x y len color s)).
Proof. prim_start. prim_cases; apply length_memset. Qed.

Lemma vline_frame (x y len color : Z) (s : state) :
  framebuffer_write s (snd (rgb_gfx_vline x y len color s)).
Proof. prim_start. prim_cases; apply length_vline_loop. Qed.

Lemma rectfill_frame (x y rw rh color : Z) (s : state) :
  framebuffer_write s (snd (rgb_gfx_rectfill x y rw rh color s)).
Proof. prim_start. prim_cases; apply length_fill_rows. Qed.

Lemma rect_frame (x y rw rh color : Z) (s : state) :
  framebuffer_write s (snd (rgb_gfx_rect x y rw rh color s)).
Proof.
  unfold rgb_gfx_rect, bind, ret.
  destruct ((rw <=? 0) || (rh <=? 0)); cbn; [apply framebuffer_write_refl |].
  pose proof (hline_frame x y rw color s) as H1.
  destruct (rgb_gfx_hline x y rw color s) as [[] s1]; cbn in *.
  pose proof (hline_frame x (int_sub (int_add y rh) 1) rw color s1) as H2.
  destruct (rgb_gfx_hline x (int_sub (int_add y rh) 1) rw color s1)
    as [[] s2]; cbn in *.
  destruct (rh >? 2); cbn.
  - pose proof (vline_frame x (int_add y 1) (int_sub rh 2) color s2) as H3.
    destruct (rgb_gfx_vline x (int_add y 1) (int_sub rh 2) color s2)
      as [[] s3].
    cbn in *.
    pose proof (vline_frame (int_sub (int_add x rw) 1) (int_add y 1)
                  (int_sub rh 2) color s3) as H4.
    exact (framebuffer_write_trans _ _ _ H1
             (framebuffer_write_trans _ _ _ H2
                (framebuffer_write_trans _ _ _ H3 H4))).
  - exact (framebuffer_write_trans _ _ _ H1 H2).
Qed.

Lemma blit_flip_frame (data : option (list Z))
    (x y sw sh stride t : Z) (fx fy : bool) (s : state) :
  framebuffer_write s
    (snd (rgb_gfx_blit_flip data x y sw sh stride t fx fy s)).
Proof.
  prim_start.
  destruct data as [d|]; cbn; [| apply framebuffer_write_refl].
  prim_cases. apply length_blit_flip_loops.
Qed.

Lemma blit_frame (data : option (list Z)) (x y sw sh stride t : Z)
    (s : state) :
  framebuffer_write s (snd (rgb_gfx_blit data x y sw sh stride t s)).
Proof.
  prim_start.
  destruct data as [d|]; cbn; [| apply framebuffer_write_refl].
  prim_cases. rewrite blit_loops_as_flip. apply length_blit_flip_loops.
Qed.

(** Every graphics primitive, whatever its arguments, leaves the statics
    alone and keeps the size of the framebuffer. *)
Lemma gfx_primitive_frame (o : op) (s : state) :
  gfx_primitive o = true -> framebuffer_write s (run_op o s).
Proof.
  destruct o; cbn [gfx_primitive run_op]; try discriminate; intros _.
  - apply clear_frame.
  - apply pixel_frame.
  - apply hline_frame.
  - apply vline_frame.
  - apply rect_frame.
  - apply rectfill_frame.
  - apply blit_frame.
  - apply blit_flip_frame.
Qed.

Lemma framebuffer_write_is (s s' : state) (w h : Z) (a : list Z) :
  framebuffer_write s s' -> framebuffer_is s w h a ->
  exists a', framebuffer_is s' w h a'.
Proof.
  intros [Hs Hm] (Hw & Hh & Hfb & Hlen). rewrite Hfb in Hm.
  destruct Hm as (a' & Hfb' & Hl). exists a'.
  split; [rewrite Hs; exact Hw |]. split; [rewrite Hs; exact Hh |].
  split; [exact Hfb' |]. rewrite Hl. exact Hlen.
Qed.

End Primitives.

(** ** What the primitives paint *)

(** The row loop of [rgb_gfx_rectfill]. *)
Lemma fill_rows_pixels (w h : Z) (a : list Z) (x0 y0 y1 cw c : Z) :
  w * h <= Z.of_nat (length a) ->
  0 <= y0 <= y1 -> y1 <= h -> 0 <= x0 -> x0 + cw <= w ->
  let a' := for_range y0 y1 (fun row fb => memset fb (row * w + x0) c cw) a in
  length a' = length a /\
  forall px py, 0 <= px < w -> 0 <= py < h ->
    pixel_at w a' px py =
    if (y0 <=? py) && (py <? y1) && (x0 <=? px) && (px <? x0 + cw)
    then to_uint8 c else pixel_at w a px py.
Proof.
  intros Hfit Hy Hy1 Hx0 Hcw a'. unfold a'.
  apply (for_range_ind
           (fun r fb =>
              length fb = length a /\
              forall px py, 0 <= px < w -> 0 <= py < h ->
                pixel_at w fb px py =
                if (y0 <=? py) && (py <? r) && (x0 <=? px) && (px <? x0 + cw)
                then to_uint8 c else pixel_at w a px py)); [lia | |].
  - split; [reflexivity |]. intros px py Hpx Hpy.
    replace ((y0 <=? py) && (py <? y0)) with false by lia. reflexivity.
  - intros r fb Hr [Hlen Hpix]. split; [rewrite length_memset; exact Hlen |].
    intros px py Hpx Hpy.
    rewrite (pixel_at_memset w h) by (rewrite ?Hlen; lia).
    rewrite Hpix by assumption.
    destruct (py =? r) eqn:E1; destruct (x0 <=? px) eqn:E2;
      destruct (px <? x0 + cw) eqn:E3; destruct (y0 <=? py) eqn:E4;
      destruct (py <? r) eqn:E5; destruct (py <? r + 1) eqn:E6;
      cbn; try reflexivity; lia.
Qed.

Section Painted.
Context {P : Platform}.

Lemma hline_pixels (s : state) (w h : Z) (a : list Z) (x y len c px py : Z) :
  framebuffer_is s w h a -> 0 <= px < w -> 0 <= py < h ->
  w <= INT_MAX -> int_range x -> int_range len -> x + len <= INT_MAX ->
  pixel (snd (rgb_gfx_hline x y len c s)) px py =
  if (py =? y) && (x <=? px) && (px <? x + len) then to_uint8 c
  else pixel s px py.
Proof.
  intros (Hw & Hh & Hfb & Hlen) Hpx Hpy Hwi Hxi Hli Hsum.
  unfold int_range, INT_MIN, INT_MAX in *.
  unfold pixel, rgb_gfx_hline, get_fb, write_fb, rgb_display_get_fb_width,
    rgb_display_get_fb_height, rgb_display_get_framebuffer,
    bind, ret, gets, modify.
  destruct s; cbn in Hw, Hh, Hfb; subst. cbn.
  destruct ((y <? 0) || (y >=? h) || (len <=? 0)) eqn:E0; cbn.
  { replace ((py =? y) && (x <=? px) && (px <? x + len)) with false by lia.
    reflexivity. }
  destruct (x <? 0) eqn:Ex; cbn; int_small;
    repeat (case_inner; cbn);
    try (rewrite (pixel_at_memset w h) by lia);
    repeat match goal with
    | |- context [if ?b then _ else _] => destruct b eqn:?
    end; try reflexivity; lia.
Qed.

Lemma rectfill_pixels (s : state) (w h : Z) (a : list Z)
    (x y rw rh c px py : Z) :
  framebuffer_is s w h a -> 0 <= px < w -> 0 <= py < h ->
  w <= INT_MAX -> h <= INT_MAX ->
  int_range x -> int_range y -> int_range rw -> int_range rh ->
  x + rw <= INT_MAX -> y + rh <= INT_MAX ->
  pixel (snd (rgb_gfx_rectfill x y rw rh c s)) px py =
  if (x <=? px) && (px <? x + rw) && (y <=? py) && (py <? y + rh)
  then to_uint8 c else pixel s px py.
Proof.
  intros (Hw & Hh & Hfb & Hlen) Hpx Hpy Hwi Hhi Hxi Hyi Hrwi Hrhi Hsx Hsy.
  unfold int_range, INT_MIN, INT_MAX in *.
  unfold pixel, rgb_gfx_rectfill, get_fb, write_fb, rgb_display_get_fb_width,
    rgb_display_get_fb_height, rgb_display_get_framebuffer,
    bind, ret, gets, modify.
  destruct s; cbn in Hw, Hh, Hfb; subst. cbn.
  destruct ((rw <=? 0) || (rh <=? 0)) eqn:E0; cbn.
  { replace ((x <=? px) && (px <? x + rw) && (y <=? py) && (py <? y + rh))
      with false by lia.
    reflexivity. }
  int_small.
  set (x0 := if x <? 0 then 0 else x).
  set (y0 := if y <? 0 then 0 else y).
  set (x1 := if x + rw >? w then w else x + rw).
  set (y1 := if y + rh >? h then h else y + rh).
  assert (Hx0 : x0 = Z.max 0 x) by (unfold x0; destruct (x <? 0) eqn:?; lia).
  assert (Hy0 : y0 = Z.max 0 y) by (unfold y0; destruct (y <? 0) eqn:?; lia).
  assert (Hx1 : x1 = Z.min w (x + rw))
    by (unfold x1; destruct (x + rw >? w) eqn:?; lia).
  assert (Hy1 : y1 = Z.min h (y + rh))
    by (unfold y1; destruct (y + rh >? h) eqn:?; lia).
  clearbody x0 y0 x1 y1. int_small.
  destruct ((x1 - x0 <=? 0) || (y1 - y0 <=? 0)) eqn:E1; cbn.
  { replace ((x <=? px) && (px <? x + rw) && (y <=? py) && (py <? y + rh))
      with false by lia.
    reflexivity. }
  destruct (fill_rows_pixels w h a x0 y0 y1 (x1 - x0) c) as [_ Hpix];
    try lia.
  rewrite Hpix by assumption.
  repeat match goal with
  | |- context [if ?b then _ else _] => destruct b eqn:?
  end; try reflexivity; lia.
Qed.

End Painted.

(** ** Blits *)

Lemma blit_row_pixels (w h : Z) (data a : list Z)
    (x sw dy src_row t : Z) (src_x : Z -> Z) :
  w * h <= Z.of_nat (length a) -> 0 <= dy < h -> 0 <= sw ->
  let a' :=
    for_range 0 sw (fun sx fb =>
      let dx := x + sx in
      if (dx <? 0) || (dx >=? w) then fb
      else
        let pixel := load 0 data (src_row + src_x sx) in
        if (t <? 0) || negb (pixel =? to_uint8 t)
        then store fb (dy * w + dx) pixel
        else fb) a in
  length a' = length a /\
  forall px py, 0 <= px < w -> 0 <= py < h ->
    pixel_at w a' px py =
    if (py =? dy) && (x <=? px) && (px <? x + sw)
    then blit_result t (load 0 data (src_row + src_x (px - x)))
           (pixel_at w a px py)
    else pixel_at w a px py.
Proof.
  intros Hfit Hdy Hsw a'. unfold a'.
  apply (for_range_ind
           (fun k fb =>
              length fb = length a /\
              forall px py, 0 <= px < w -> 0 <= py < h ->
                pixel_at w fb px py =
                if (py =? dy) && (x <=? px) && (px <? x + k)
                then blit_result t (load 0 data (src_row + src_x (px - x)))
                       (pixel_at w a px py)
                else pixel_at w a px py)); [exact Hsw | |].
  - split; [reflexivity |]. intros px py Hpx Hpy.
    replace ((py =? dy) && (x <=? px) && (px <? x + 0)) with false by lia.
    reflexivity.
  - intros k fb Hk [Hlen Hpix]. cbn zeta.
    assert (Hcase :
      forall px py, 0 <= px < w -> 0 <= py < h ->
        ((py =? dy) && (x <=? px) && (px <? x + (k + 1)) = true /\
         (py =? dy) && (x <=? px) && (px <? x + k) = false /\
         px = x + k /\ py = dy) \/
        ((py =? dy) && (x <=? px) && (px <? x + (k + 1)) =
         (py =? dy) && (x <=? px) && (px <? x + k) /\
         ~ (px = x + k /\ py = dy))).
    { intros px py Hpx Hpy.
      destruct (decide (px = x + k /\ py = dy)) as [[-> ->] | Hn].
      - left. repeat split; lia.
      - right. split; [| exact Hn].
        destruct (py =? dy) eqn:E1; cbn; [| reflexivity].
        destruct (x <=? px) eqn:E2; cbn; [| reflexivity]. lia. }
    destruct ((x + k <? 0) || (x + k >=? w)) eqn:Eclip.
    { split; [exact Hlen |]. intros px py Hpx Hpy.
      rewrite Hpix by assumption.
      destruct (Hcase px py Hpx Hpy) as [(_ & _ & -> & _) | [-> _]];
        [lia | reflexivity]. }
    unfold to_uint8.
    destruct ((t <? 0)
              || negb (load 0 data (src_row + src_x k) =? t mod 256)) eqn:Et.
    + split; [rewrite length_store; exact Hlen |].
      intros px py Hpx Hpy.
      rewrite (pixel_at_store w h) by (rewrite ?Hlen; lia).
      rewrite Hpix by assumption.
      destruct (Hcase px py Hpx Hpy) as [(-> & -> & -> & ->) | [-> Hn]].
      * replace ((x + k =? x + k) && (dy =? dy)) with true by lia.
        unfold blit_result. replace (x + k - x) with k by lia.
        rewrite Et. reflexivity.
      * replace ((px =? x + k) && (py =? dy)) with false by lia.
        reflexivity.
    + split; [exact Hlen |]. intros px py Hpx Hpy.
      rewrite Hpix by assumption.
      destruct (Hcase px py Hpx Hpy) as [(-> & -> & -> & ->) | [-> Hn]];
        [| reflexivity].
      unfold blit_result. replace (x + k - x) with k by lia.
      rewrite Et. reflexivity.
Qed.

(** Every pixel of the area after the loops of [rgb_gfx_blit_flip]. *)
Lemma blit_flip_loops_pixels (w h : Z) (data a : list Z)
    (x y sw sh stride t : Z) (fx fy : bool) :
  w * h <= Z.of_nat (length a) -> 0 <= sw -> 0 <= sh ->
  let a' := blit_flip_loops data a w h x y sw sh stride t fx fy in
  length a' = length a /\
  forall px py, 0 <= px < w -> 0 <= py < h ->
    pixel_at w a' px py =
    if (x <=? px) && (px <? x + sw) && (y <=? py) && (py <? y + sh)
    then blit_result t (sprite_byte data sw sh stride fx fy (px - x) (py - y))
           (pixel_at w a px py)
    else pixel_at w a px py.
Proof.
  intros Hfit Hsw Hsh a'. unfold a', blit_flip_loops.
  apply (for_range_ind
           (fun k fb =>
              length fb = length a /\
              forall px py, 0 <= px < w -> 0 <= py < h ->
                pixel_at w fb px py =
                if (x <=? px) && (px <? x + sw) && (y <=? py) && (py <? y + k)
                then blit_result t
                       (sprite_byte data sw sh stride fx fy (px - x) (py - y))
                       (pixel_at w a px py)
                else pixel_at w a px py)); [exact Hsh | |].
  - split; [reflexivity |]. intros px py Hpx Hpy.
    replace ((x <=? px) && (px <? x + sw) && (y <=? py) && (py <? y + 0))
      with false by lia.
    reflexivity.
  - intros k fb Hk [Hlen Hpix]. cbn zeta.
    destruct ((y + k <? 0) || (y + k >=? h)) eqn:Eclip.
    { split; [exact Hlen |]. intros px py Hpx Hpy.
      rewrite Hpix by assumption.
      destruct ((x <=? px) && (px <? x + sw)) eqn:Ex; cbn; [| reflexivity].
      replace ((y <=? py) && (py <? y + (k + 1)))
        with ((y <=? py) && (py <? y + k)) by lia.
      reflexivity. }
    destruct (blit_row_pixels w h data fb x sw (y + k)
                ((if fy then sh - 1 - k else k) * stride) t
                (fun sx => if fx then sw - 1 - sx else sx))
      as [Hlen' Hrow]; [lia | lia | exact Hsw |].
    cbn beta zeta in Hlen', Hrow |- *.
    split; [rewrite Hlen'; exact Hlen |].
    intros px py Hpx Hpy.
    rewrite Hrow by assumption. rewrite !Hpix by assumption.
    destruct (x <=? px) eqn:E1; destruct (px <? x + sw) eqn:E2;
      destruct (y <=? py) eqn:E3; destruct (py <? y + k) eqn:E4;
      destruct (py <? y + (k + 1)) eqn:E5; destruct (py =? y + k) eqn:E6;
      cbn; try reflexivity; try lia.
    unfold sprite_byte. replace (py - y) with k by lia. reflexivity.
Qed.

Section GraphicsClaims.
Context {P : Platform}.

Lemma graphics_session_framebuffer (s : state) (w h : Z) :
  graphics_session s w h -> exists a, framebuffer_is s w h a.
Proof.
  intros (Hw & Hh & Hwp & Hhp & Hsize). unfold framebuffer_size in Hsize.
  destruct (s_graphics_framebuffer s) as [a|] eqn:Hfb.
  - exists a. repeat split; assumption.
  - assert (0 < w * h) by (apply Z.mul_pos_pos; assumption). lia.
Qed.

Lemma blit_flip_pixels (s : state) (w h : Z) (a data : list Z)
    (x y sw sh stride t : Z) (fx fy : bool) (px py : Z) :
  framebuffer_is s w h a -> 0 <= px < w -> 0 <= py < h ->
  pixel (snd (rgb_gfx_blit_flip (Some data) x y sw sh stride t fx fy s)) px py =
  if (x <=? px) && (px <? x + sw) && (y <=? py) && (py <? y + sh)
  then blit_result t (sprite_byte data sw sh stride fx fy (px - x) (py - y))
         (pixel s px py)
  else pixel s px py.
Proof.
  intros (Hw & Hh & Hfb & Hlen) Hpx Hpy.
  unfold pixel, rgb_gfx_blit_flip, get_fb, write_fb, rgb_display_get_fb_width,
    rgb_display_get_fb_height, rgb_display_get_framebuffer,
    bind, ret, gets, modify.
  destruct s; cbn in Hw, Hh, Hfb; subst. cbn.
  destruct ((sw <=? 0) || (sh <=? 0)) eqn:E0; cbn.
  { replace ((x <=? px) && (px <? x + sw) && (y <=? py) && (py <? y + sh))
      with false by lia.
    reflexivity. }
  destruct (blit_flip_loops_pixels w h data a x y sw sh stride t fx fy)
    as [_ Hpix]; try lia.
  apply Hpix; assumption.
Qed.

Lemma blit_pixels (s : state) (w h : Z) (a data : list Z)
    (x y sw sh stride t : Z) (px py : Z) :
  framebuffer_is s w h a -> 0 <= px < w -> 0 <= py < h ->
  pixel (snd (rgb_gfx_blit (Some data) x y sw sh stride t s)) px py =
  if (x <=? px) && (px <? x + sw) && (y <=? py) && (py <? y + sh)
  then blit_result t (load 0 data ((py - y) * stride + (px - x)))
         (pixel s px py)
  else pixel s px py.
Proof.
  intros Hs Hpx Hpy.
  rewrite <- (blit_flip_pixels s w h a data x y sw sh stride t false false)
    by assumption.
  reflexivity.
Qed.

(** C10.  In a graphics session, for a non-negative [transparent_color]
    [t] and every source pixel whose destination lies inside the
    framebuffer: [rgb_gfx_blit] and [rgb_gfx_blit_flip] leave the
    destination as it was when the source byte equals [t mod 256], and
    store the source byte otherwise.  So for [256 <= t < 512] the byte
    [t - 256] is transparent, though no byte equals [t]. *)
Theorem blit_transparency_modulo_256 (s : state) (w h : Z) (data : list Z)
    (x y sw sh stride t : Z) (fx fy : bool) (sx sy : Z) :
  graphics_session s w h -> 0 <= t ->
  0 <= sx < sw -> 0 <= sy < sh -> 0 <= x + sx < w -> 0 <= y + sy < h ->
  let old := pixel s (x + sx) (y + sy) in
  let v := load 0 data (sy * stride + sx) in
  let v' := sprite_byte data sw sh stride fx fy sx sy in
  pixel (snd (rgb_gfx_blit (Some data) x y sw sh stride t s))
    (x + sx) (y + sy)
  = (if v =? t mod 256 then old else v) /\
  pixel (snd (rgb_gfx_blit_flip (Some data) x y sw sh stride t fx fy s))
    (x + sx) (y + sy)
  = (if v' =? t mod 256 then old else v') /\
  (256 <= t < 512 -> t mod 256 = t - 256) /\
  (256 <= t -> 0 <= v < 256 -> v <> t).
Proof.
  intros Hs Ht Hsx Hsy Hdx Hdy old v v'.
  destruct (graphics_session_framebuffer s w h Hs) as [a Ha].
  assert (Hin : (x <=? x + sx) && (x + sx <? x + sw) && (y <=? y + sy)
                && (y + sy <? y + sh) = true) by lia.
  split; [| split; [| split]].
  - rewrite (blit_pixels s w h a) by assumption. rewrite Hin.
    replace (y + sy - y) with sy by lia. replace (x + sx - x) with sx by lia.
    unfold blit_result. fold v. replace (t <? 0) with false by lia. cbn.
    destruct (v =? t mod 256); reflexivity.
  - rewrite (blit_flip_pixels s w h a) by assumption. rewrite Hin.
    replace (y + sy - y) with sy by lia. replace (x + sx - x) with sx by lia.
    unfold blit_result. fold v'. replace (t <? 0) with false by lia. cbn.
    destruct (v' =? t mod 256); reflexivity.
  - intros Hr. symmetry. apply (Z.mod_unique t 256 1 (t - 256)); lia.
  - lia.
Qed.

(** [rgb_gfx_hline (100, 0, INT_MAX, c)] on a 256x150 framebuffer: the
    clip is skipped and [memset] gets the whole count. *)
Lemma hline_overflow (s : state) (a : list Z) (c : Z) :
  s_gfx_width s = 256 -> s_gfx_height s = 150 ->
  s_graphics_framebuffer s = Some a -> Z.of_nat (length a) = 256 * 150 ->
  let s' := snd (rgb_gfx_hline 100 0 INT_MAX c s) in
  s_graphics_framebuffer s' = Some (memset a (0 * 256 + 100) c INT_MAX) /\
  forall px py, 0 <= px < 256 -> 0 <= py < 150 -> 100 <= py * 256 + px ->
    pixel s' px py = to_uint8 c.
Proof.
  intros Hw Hh Ha Hlen s'.
  assert (Hsum : int_add 100 INT_MAX = -2147483549)
    by (vm_compute; reflexivity).
  assert (Hfb : s_graphics_framebuffer s' =
                Some (memset a (0 * 256 + 100) c INT_MAX)).
  { unfold s'.
    unfold rgb_gfx_hline, get_fb, write_fb, rgb_display_get_fb_width,
      rgb_display_get_fb_height, rgb_display_get_framebuffer,
      bind, ret, gets, modify.
    cbn. rewrite Hw, Hh, Ha.
    change ((0 <? 0) || (0 >=? 150) || (INT_MAX <=? 0)) with false.
    cbn match. change (100 <? 0) with false. cbn match.
    rewrite Hsum. change (-2147483549 >? 256) with false. cbn match.
    change (INT_MAX <=? 0) with false. cbn. reflexivity. }
  split; [exact Hfb |].
  assert (Hws : s_gfx_width s' = 256).
  { destruct (hline_frame 100 0 INT_MAX c s) as [Es _].
    fold s' in Es. clearbody s'. rewrite Es. exact Hw. }
  intros px py Hpx Hpy Hoff. unfold pixel. rewrite Hfb, Hws.
  unfold pixel_at. rewrite load_memset. unfold INT_MAX.
  replace ((0 <=? 0 * 256 + 100) && (0 * 256 + 100 <=? py * 256 + px)
           && (py * 256 + px <? 0 * 256 + 100 + 2147483647)
           && (py * 256 + px <? Z.of_nat (length a))) with true by lia.
  reflexivity.
Qed.

End GraphicsClaims.

(** C8.  The clipping of [rgb_gfx_hline] fails when [x + len] leaves the
    [int] range.  On the 256x150 framebuffer, for
    [rgb_gfx_hline (100, 0, INT_MAX, 9)] the sum [100 + INT_MAX] is
    negative as the target computes it, the test [x + len > w] is false,
    and [memset] is called at offset 100 with a count of [INT_MAX] bytes,
    far more than the 38400 bytes of the framebuffer.  Of the framebuffer
    itself every byte from offset 100 on is painted, rows 1 to 149
    included, where the call should paint columns 100 to 255 of row 0. *)
Theorem hline_overflow_defeats_clip :
  int_add 100 INT_MAX = -2147483549 /\
  framebuffer_size session_150p = 256 * 150 /\
  s_graphics_framebuffer (snd (rgb_gfx_hline 100 0 INT_MAX 9 session_150p)) =
  option_map (fun a => memset a (0 * 256 + 100) 9 INT_MAX)
    (s_graphics_framebuffer session_150p) /\
  0 * 256 + 100 + INT_MAX > framebuffer_size session_150p /\
  pixel session_150p 0 1 = 0 /\
  pixel (snd (rgb_gfx_hline 100 0 INT_MAX 9 session_150p)) 0 1 = 9 /\
  pixel session_150p 255 149 = 0 /\
  pixel (snd (rgb_gfx_hline 100 0 INT_MAX 9 session_150p)) 255 149 = 9.
Proof.
  assert (Hsum : int_add 100 INT_MAX = -2147483549)
    by (vm_compute; reflexivity).
  assert (Hw : s_gfx_width session_150p = 256) by (vm_compute; reflexivity).
  assert (Hh : s_gfx_height session_150p = 150) by (vm_compute; reflexivity).
  assert (Hsz : framebuffer_size session_150p = 256 * 150)
    by (vm_compute; reflexivity).
  assert (H01 : pixel session_150p 0 1 = 0) by (vm_compute; reflexivity).
  assert (H02 : pixel session_150p 255 149 = 0) by (vm_compute; reflexivity).
  revert Hsum Hw Hh Hsz H01 H02. generalize session_150p. intros s.
  intros Hsum Hw Hh Hsz H01 H02.
  rewrite Hsz. unfold framebuffer_size in Hsz.
  destruct (s_graphics_framebuffer s) as [a|] eqn:Ea; [| discriminate Hsz].
  destruct (hline_overflow s a 9 Hw Hh Ea Hsz) as [Hfb Hpix].
  split; [exact Hsum |]. split; [reflexivity |]. split; [exact Hfb |].
  split; [vm_compute; reflexivity |].
  split; [exact H01 |]. split; [apply Hpix; lia |].
  split; [exact H02 | apply Hpix; lia].
Qed.

(** ** The framebuffer has the size of its dimensions *)

Section Sized.
Context {P : Platform}.

Lemma startup_sized (w : World) : framebuffer_sized (startup w).
Proof. intros Hfb. cbn in Hfb. congruence. Qed.

Lemma framebuffer_write_sized (s s' : state) :
  framebuffer_write s s' -> framebuffer_sized s -> framebuffer_sized s'.
Proof.
  intros [Es Hw] Hs Hfb'.
  assert (Hd : s_gfx_width s' = s_gfx_width s /\
               s_gfx_height s' = s_gfx_height s)
    by (rewrite Es; split; reflexivity).
  destruct Hd as [Hdw Hdh].
  destruct (s_graphics_framebuffer s) as [a|] eqn:Hfb; [| congruence].
  destruct Hw as (a' & Ha' & Hlen).
  destruct (Hs ltac:(congruence)) as (_ & _ & Hwp & Hhp & Hsize).
  unfold graphics_session, framebuffer_size in *.
  rewrite Hfb in Hsize. rewrite Ha', Hlen, Hdw, Hdh.
  split; [reflexivity |]. split; [reflexivity |].
  split; [exact Hwp |]. split; [exact Hhp | exact Hsize].
Qed.

(** The calls that leave the framebuffer and the dimensions alone. *)
Lemma run_op_keeps_framebuffer (o : op) (s : state) :
  gfx_primitive o = false ->
  match o with SetMode _ => False | _ => True end ->
  s_graphics_framebuffer (run_op o s) = s_graphics_framebuffer s /\
  s_gfx_width (run_op o s) = s_gfx_width s /\
  s_gfx_height (run_op o s) = s_gfx_height s.
Proof.
  destruct o; cbn [gfx_primitive run_op]; intros Hg Ho;
    try discriminate; try contradiction;
    cases_m; repeat split; congruence.
Qed.

Lemma set_mode_sized (mode : screen_mode_t) (s : state) :
  framebuffer_sized s ->
  framebuffer_sized (snd (rgb_display_set_mode mode s)).
Proof.
  assert (Hsize : forall n, 0 <= n ->
            Z.of_nat (length (memset (fresh_block n) 0 0 n)) = n).
  { intros n Hn. rewrite length_memset. unfold fresh_block.
    rewrite length_replicate. lia. }
  unfold framebuffer_sized, graphics_session, framebuffer_size.
  unfold rgb_display_set_mode, allocate_graphics_framebuffer, malloc_result,
    free_graphics_framebuffer, mode_geometry,
    bind, ret, gets, modify, platform, call.
  cbn. repeat (case_inner; cbn in * );
    repeat match goal with
    | Hx : Some _ = Some _ |- _ => injection Hx as <-
    | Hx : (_, _) = (_, _) |- _ => injection Hx; clear Hx; intros; subst
    | Hx : Some _ = None |- _ => discriminate Hx
    | Hx : None = Some _ |- _ => discriminate Hx
    end;
    intros Hs Hfb; try congruence;
    try (rewrite Hsize by (vm_compute; discriminate));
    try (repeat split; reflexivity);
    try (apply Hs; congruence).
Qed.

Lemma run_op_sized (o : op) (s : state) :
  framebuffer_sized s -> framebuffer_sized (run_op o s).
Proof.
  intros Hs.
  destruct (gfx_primitive o) eqn:Hg.
  { eapply framebuffer_write_sized; [apply gfx_primitive_frame, Hg | exact Hs]. }
  destruct o; try discriminate Hg;
    try (match goal with
         | |- framebuffer_sized (run_op ?o s) =>
             destruct (run_op_keeps_framebuffer o s eq_refl I)
               as (Hf & Hw & Hh)
         end;
         unfold framebuffer_sized, graphics_session, framebuffer_size in *;
         rewrite Hf, Hw, Hh; exact Hs).
  apply set_mode_sized, Hs.
Qed.

(** In every state a sequence of calls reaches, a framebuffer has the
    size of the dimensions the getters report. *)
Lemma run_sized (ops : list op) :
  forall s : state, framebuffer_sized s -> framebuffer_sized (run ops s).
Proof.
  induction ops as [|o ops IH]; intros s Hs; [exact Hs |].
  rewrite run_cons. apply IH, run_op_sized, Hs.
Qed.

Lemma reachable_graphics_session (s : state) :
  reachable s -> s_graphics_framebuffer s <> None ->
  graphics_session s (s_gfx_width s) (s_gfx_height s).
Proof.
  intros (w & ops & ->). apply run_sized, startup_sized.
Qed.

End Sized.

(** ** Scanline synthesis, graphics path *)

Lemma put4_spec (c : Z) (buf : list Z) (dest : Z) :
  0 <= dest -> dest + 4 <= Z.of_nat (length buf) ->
  snd (put4 c (buf, dest)) = dest + 4 /\
  length (fst (put4 c (buf, dest))) = length buf /\
  forall j, load 0 (fst (put4 c (buf, dest))) j =
            if (dest <=? j) && (j <? dest + 4) then c else load 0 buf j.
Proof.
  intros Hd Hlen. unfold put4. cbn.
  split; [lia |]. split; [rewrite !length_store; reflexivity |].
  intros j.
  destruct ((dest <=? j) && (j <? dest + 4)) eqn:E.
  - assert (Hj : j = dest \/ j = dest + 1 \/ j = dest + 1 + 1
                 \/ j = dest + 1 + 1 + 1) by lia.
    destruct Hj as [-> | [-> | [-> | ->]]];
      repeat first
        [ rewrite load_store_eq by (rewrite ?length_store; lia)
        | rewrite load_store_ne by lia ];
      reflexivity.
  - rewrite !load_store_ne by lia. reflexivity.
Qed.

(** The 4x loop over the pixels of one source row. *)
Lemma scale4_row (pal fb buf : list Z) (w src_row dest0 : Z) :
  0 <= dest0 -> 0 <= w -> dest0 + 4 * w <= Z.of_nat (length buf) ->
  let out :=
    fst (for_range 0 w (fun x bd =>
           let color := load 0 pal (load 0 fb (src_row + x)) in
           put4 color bd) (buf, dest0)) in
  length out = length buf /\
  forall j, load 0 out j =
            if (dest0 <=? j) && (j <? dest0 + 4 * w)
            then load 0 pal (load 0 fb (src_row + (j - dest0) / 4))
            else load 0 buf j.
Proof.
  intros Hd Hw Hlen out. unfold out.
  cut ((fun k (bd : list Z * Z) =>
          snd bd = dest0 + 4 * k /\
          length (fst bd) = length buf /\
          forall j, load 0 (fst bd) j =
                    if (dest0 <=? j) && (j <? dest0 + 4 * k)
                    then load 0 pal (load 0 fb (src_row + (j - dest0) / 4))
                    else load 0 buf j) w
         (for_range 0 w
            (fun x bd => put4 (load 0 pal (load 0 fb (src_row + x))) bd)
            (buf, dest0))).
  { intros (_ & Hl & Hp). split; assumption. }
  apply for_range_ind; [exact Hw | |].
  - cbn. split; [lia |]. split; [reflexivity |]. intros j.
    replace ((dest0 <=? j) && (j <? dest0 + 4 * 0)) with false by lia.
    reflexivity.
  - intros k [b d] Hk (Hd' & Hl & Hpix). cbn in Hd', Hl, Hpix. subst d.
    destruct (put4_spec (load 0 pal (load 0 fb (src_row + k))) b
                (dest0 + 4 * k)) as (Hs & Hl' & Hp); [lia | lia |].
    split; [rewrite Hs; lia |]. split; [rewrite Hl'; exact Hl |].
    intros j. rewrite Hp, Hpix.
    destruct ((dest0 + 4 * k <=? j) && (j <? dest0 + 4 * k + 4)) eqn:E.
    + replace ((dest0 <=? j) && (j <? dest0 + 4 * (k + 1))) with true by lia.
      replace ((j - dest0) / 4) with k; [reflexivity |].
      apply (Z.div_unique (j - dest0) 4 k (j - dest0 - 4 * k)); lia.
    + destruct ((dest0 <=? j) && (j <? dest0 + 4 * k)) eqn:E1.
      * replace ((dest0 <=? j) && (j <? dest0 + 4 * (k + 1))) with true by lia.
        reflexivity.
      * replace ((dest0 <=? j) && (j <? dest0 + 4 * (k + 1))) with false
          by lia.
        reflexivity.
Qed.

(** One destination line in a mode with upscale factor 4. *)
Lemma graphics_line_scale4 (fb pal buf : list Z) (w h margin y_start line : Z) :
  0 <= w -> 0 <= margin -> margin + 4 * w <= SCREEN_WIDTH ->
  0 <= line -> (line + 1) * SCREEN_WIDTH <= Z.of_nat (length buf) ->
  let out := graphics_line fb pal w h 4 margin y_start line buf in
  let src_y := (y_start + line) ÷ 4 in
  length out = length buf /\
  forall j, load 0 out j =
            if (src_y <? h) && (line * SCREEN_WIDTH + margin <=? j)
               && (j <? line * SCREEN_WIDTH + margin + 4 * w)
            then load 0 pal
                   (load 0 fb (src_y * w
                               + (j - (line * SCREEN_WIDTH + margin)) / 4))
            else load 0 buf j.
Proof.
  intros Hw Hm Hfit Hline Hlen out src_y. unfold out, graphics_line.
  fold src_y. unfold SCREEN_WIDTH in *.
  destruct (src_y >=? h) eqn:Eh.
  { split; [reflexivity |]. intros j.
    replace (src_y <? h) with false by lia. reflexivity. }
  change (4 =? 4) with true. cbn match.
  destruct (scale4_row pal fb buf w (src_y * w) (line * 1024 + margin))
    as [Hl Hp]; [lia | lia | lia |].
  split; [exact Hl |]. intros j. rewrite Hp.
  replace (src_y <? h) with true by lia. reflexivity.
Qed.


Section ScanlineClaim.
Context {P : Platform}.



End ScanlineClaim.

(** ** Tables built at initialisation *)

Lemma forallb_seqZ_range (f : Z -> bool) (n : Z) :
  forallb f (seqZ 0 n) = true -> forall i, 0 <= i < n -> f i = true.
Proof.
  intros Hall i Hi. rewrite forallb_forall in Hall. apply Hall.
  apply list_elem_of_In, elem_of_seqZ. lia.
Qed.

(** A table of four-entry rows is the list of its rows, read by index. *)
Lemma table4_as_loads (t : list (list Z)) :
  table_shape 256 4 t ->
  t = map (fun i => [load2 t i 0; load2 t i 1; load2 t i 2; load2 t i 3])
        (seqZ 0 256).
Proof.
  intros Ht. apply (load_ext []).
  - rewrite length_map, length_seqZ. destruct Ht as [-> _]. reflexivity.
  - intros i Hi. assert (Hi' : 0 <= i < 256) by (destruct Ht; lia).
    rewrite load_map_seqZ by exact Hi'.
    pose proof (table_shape_load 256 4 t i Ht ltac:(lia)) as Hrow.
    unfold load2.
    destruct (load [] t i) as [|a [|b [|c [|d [|e r]]]]];
      try discriminate Hrow.
    reflexivity.
Qed.

Lemma byte_masks_loop_total (t : list (list Z)) :
  table_shape 256 4 t -> byte_masks_loop t = byte_masks_image.
Proof.
  intros Ht. rewrite (table4_as_loads t Ht).
  generalize (load2 t). intros f. vm_compute. reflexivity.
Qed.

Section Tables.
Context {P : Platform}.

Lemma text_palette_keeps (s : state) :
  let s1 := snd (text_palette s) in
  s1 = set_env (env s1) s.
Proof.
  unfold text_palette, bind, ret, call. destruct s.
  repeat (case_inner; cbn); reflexivity.
Qed.

Lemma precompute_tables_masks (s : state) :
  BYTE_MASKS (snd (precompute_tables s)) = byte_masks_loop (BYTE_MASKS s).
Proof.
  unfold precompute_tables, rebuild_attr_lut, bind, modify.
  pose proof (text_palette_keeps s) as Hk.
  destruct (text_palette s) as [pal s1]. cbn in *. rewrite Hk. reflexivity.
Qed.

Lemma byte_masks_image_pixels (b k : Z) :
  0 <= b <= 255 -> 0 <= k <= 7 ->
  let m := load2 byte_masks_image b (k / 2) in
  m = load 0 MASK_LUT (Z.land (Z.shiftr b (6 - 2 * (k / 2))) 3) /\
  0 <= m < 4294967296 /\
  word_pixel m k = if Z.testbit b (7 - k) then 65535 else 0.
Proof.
  intros Hb Hk m. subst m.
  assert (Hcheck :
    forallb (fun b =>
      forallb (fun k =>
        let m := load2 byte_masks_image b (k / 2) in
        (m =? load 0 MASK_LUT (Z.land (Z.shiftr b (6 - 2 * (k / 2))) 3))
        && (0 <=? m) && (m <? 4294967296)
        && (word_pixel m k =? if Z.testbit b (7 - k) then 65535 else 0))
        (seqZ 0 8)) (seqZ 0 256) = true) by (vm_compute; reflexivity).
  pose proof (forallb_seqZ_range _ _ Hcheck b ltac:(lia)) as Hb'.
  cbn beta in Hb'.
  pose proof (forallb_seqZ_range _ _ Hb' k ltac:(lia)) as Hk'.
  cbn beta zeta in Hk'. lia.
Qed.

(** X1.  After [precompute_tables], for every glyph byte [b] and pixel
    [k] of the eight it stands for: the mask word for the pixel is the
    [MASK_LUT] entry of its bit pair, and the pixel's half of that word is
    all ones when bit [7 - k] of [b] is set and zero otherwise. *)
Theorem byte_masks_select_pixels (s : state) (b k : Z) :
  table_shape 256 4 (BYTE_MASKS s) ->
  0 <= b <= 255 -> 0 <= k <= 7 ->
  let m := load2 (BYTE_MASKS (snd (precompute_tables s))) b (k / 2) in
  m = load 0 MASK_LUT (Z.land (Z.shiftr b (6 - 2 * (k / 2))) 3) /\
  0 <= m < 4294967296 /\
  word_pixel m k = if Z.testbit b (7 - k) then 65535 else 0.
Proof.
  intros Ht Hb Hk m. unfold m.
  rewrite precompute_tables_masks, (byte_masks_loop_total _ Ht).
  exact (byte_masks_image_pixels b k Hb Hk).
Qed.


Lemma length_memcpy (dst : list Z) (doff : Z) (src : list Z) (soff n : Z) :
  length (memcpy dst doff src soff n) = length dst.
Proof.
  unfold memcpy. destruct ((doff <? 0) || (soff <? 0) || (n <=? 0));
    [reflexivity |].
  rewrite !length_app, !length_take, !length_app, length_replicate,
    !length_drop.
  lia.
Qed.

Lemma load_memcpy (dst : list Z) (doff : Z) (src : list Z) (soff n i : Z) :
  0 <= doff -> 0 <= soff ->
  load 0 (memcpy dst doff src soff n) i =
  if (doff <=? i) && (i <? doff + n) && (i <? Z.of_nat (length dst))
  then load 0 src (soff + (i - doff)) else load 0 dst i.
Proof.
  intros Hd Hs. unfold memcpy.
  replace (doff <? 0) with false by lia.
  replace (soff <? 0) with false by lia. cbn [orb].
  destruct (n <=? 0) eqn:En.
  { replace ((doff <=? i) && (i <? doff + n)) with false by lia.
    reflexivity. }
  unfold load. destruct (i <? 0) eqn:Ei.
  { replace (doff <=? i) with false by lia. reflexivity. }
  destruct (doff <=? i) eqn:E1; cbn [andb].
  - replace (soff + (i - doff) <? 0) with false by lia.
    rewrite lookup_app_r by (rewrite length_take; lia).
    rewrite length_take.
    destruct (i <? Z.of_nat (length dst)) eqn:E3;
      destruct (i <? doff + n) eqn:E2; cbn [andb].
    + replace (Z.to_nat i - Z.to_nat doff `min` length dst)%nat
        with (Z.to_nat (i - doff)) by lia.
      rewrite lookup_app_l
        by (rewrite length_take, length_app, length_replicate; lia).
      rewrite lookup_take_lt by lia.
      rewrite lookup_app.
      destruct (decide (Z.to_nat (i - doff)
                        < length (drop (Z.to_nat soff) src))%nat)
        as [Hlt|Hge].
      * destruct (lookup_lt_is_Some_2 _ _ Hlt) as [x Hx]. rewrite Hx.
        rewrite lookup_drop in Hx.
        replace (Z.to_nat (soff + (i - doff)))
          with (Z.to_nat soff + Z.to_nat (i - doff))%nat by lia.
        rewrite Hx. reflexivity.
      * rewrite (lookup_ge_None_2 (drop _ _)) by lia.
        rewrite length_drop in Hge.
        rewrite (lookup_ge_None_2 src) by lia.
        rewrite lookup_replicate_2 by (rewrite length_drop; lia).
        reflexivity.
    + rewrite lookup_app_r
        by (rewrite length_take, length_app, length_replicate; lia).
      rewrite length_take, length_app, length_replicate, lookup_drop.
      f_equal. f_equal. lia.
    + rewrite (lookup_ge_None_2 dst) by lia.
      rewrite lookup_ge_None_2; [reflexivity |].
      rewrite length_app, length_take, length_app, length_replicate,
        !length_drop.
      lia.
    + rewrite (lookup_ge_None_2 dst) by lia.
      rewrite lookup_ge_None_2; [reflexivity |].
      rewrite length_app, length_take, length_app, length_replicate,
        !length_drop.
      lia.
  - destruct (decide (i < Z.of_nat (length dst))) as [Hlt|Hge].
    + rewrite lookup_app_l by (rewrite length_take; lia).
      rewrite lookup_take_lt by lia. reflexivity.
    + rewrite (lookup_ge_None_2 dst) by lia.
      rewrite lookup_ge_None_2; [reflexivity |].
      rewrite !length_app, !length_take, !length_app, length_replicate,
        !length_drop.
      lia.
Qed.

Lemma table_shape_store2 (rows cols : nat) (t : list (list Z)) (i j v : Z) :
  table_shape rows cols t -> table_shape rows cols (store2 t i j v).
Proof.
  intros Ht. unfold store2.
  destruct (decide (0 <= i < Z.of_nat rows)) as [Hi|Hi].
  - apply table_shape_store; [exact Ht |].
    rewrite length_store. eapply table_shape_load; eassumption.
  - rewrite store_out_of_range; [exact Ht |]. destruct Ht as [Hl _]. lia.
Qed.

Lemma attr_lut_loop_shape (palette : list Z) (t : list (list Z)) :
  table_shape 256 2 t -> table_shape 256 2 (attr_lut_loop palette t).
Proof.
  intros Ht. unfold attr_lut_loop.
  apply for_range_preserves; [exact Ht |].
  intros a t' _ Ht'. cbn zeta. auto using table_shape_store2.
Qed.

Lemma byte_masks_loop_shape (t : list (list Z)) :
  table_shape 256 4 t -> table_shape 256 4 (byte_masks_loop t).
Proof.
  intros Ht. unfold byte_masks_loop.
  apply for_range_preserves; [exact Ht |].
  intros a t' _ Ht'. cbn zeta. auto using table_shape_store2.
Qed.

Lemma init_vga_palette_table_length (pal : list Z) :
  length (init_vga_palette_table pal) = length pal.
Proof.
  unfold init_vga_palette_table.
  set (Q := fun ip : Z * list Z => length (snd ip) = length pal).
  assert (Hcube : Q (for_range 0 6 (fun r =>
            for_range 0 6 (fun g =>
              for_range 0 6 (fun b '(idx, pal) =>
                (idx + 1, store pal idx (cube_color r g b)))))
            (16, memcpy pal 0 s_cga_colors 0 16))).
  { apply for_range_preserves; [apply length_memcpy |].
    intros r ip _ Hip. apply for_range_preserves; [exact Hip |].
    intros g ip' _ Hip'. apply for_range_preserves; [exact Hip' |].
    intros b [idx p] _ Hp. unfold Q in *. cbn in *.
    rewrite length_store. exact Hp. }
  destruct (for_range 0 6 _ _) as [idx p]. unfold Q in Hcube. cbn in Hcube.
  apply (for_range_preserves (fun p' => length p' = length pal));
    [exact Hcube |].
  intros i p' _ Hp'. rewrite length_store. exact Hp'.
Qed.

(** The font copy, entry by entry. *)
Lemma load_font_entries (fr : list (list Z)) :
  table_shape 256 16 fr ->
  table_shape 256 16 (load_font fr) /\
  forall c y, 0 <= c < 256 -> 0 <= y < 16 ->
    load2 (load_font fr) c y =
    if c <? 32 then 0 else load 0 terminus16_glyph_bitmap ((c - 32) * 16 + y).
Proof.
  intros Ht. unfold load_font.
  set (fr0 := map (fun row => memset row 0 0 16) fr).
  assert (Ht0 : table_shape 256 16 fr0).
  { destruct Ht as [Hl Hall]. split; [unfold fr0; rewrite length_map; exact Hl |].
    unfold fr0. apply Forall_fmap. eapply Forall_impl; [exact Hall |].
    intros r Hr. cbn. rewrite length_memset. exact Hr. }
  assert (H0 : forall c y, 0 <= c < 256 -> 0 <= y < 16 -> load2 fr0 c y = 0).
  { intros c y Hc Hy. unfold load2, fr0.
    assert (Hrow : load [] (map (fun row => memset row 0 0 16) fr) c
                   = memset (load [] fr c) 0 0 16).
    { unfold load. destruct (c <? 0) eqn:E; [lia |].
      rewrite list_lookup_fmap.
      destruct (lookup_lt_is_Some_2 fr (Z.to_nat c)) as [r Hr];
        [destruct Ht; lia |].
      rewrite Hr. reflexivity. }
    rewrite Hrow, load_memset.
    pose proof (table_shape_load 256 16 fr c Ht ltac:(lia)) as Hlen.
    replace ((0 <=? 0) && (0 <=? y) && (y <? 0 + 16)
             && (y <? Z.of_nat (length (load [] fr c)))) with true by lia.
    reflexivity. }
  cut ((fun k t =>
          table_shape 256 16 t /\
          forall c y, 0 <= c < 256 -> 0 <= y < 16 ->
            load2 t c y =
            if (32 <=? c) && (c <? k)
            then load 0 terminus16_glyph_bitmap ((c - 32) * 16 + y) else 0)
         256
         (for_range 32 256 (fun i fr =>
            store fr i (memcpy (load [] fr i) 0 terminus16_glyph_bitmap
                          ((i - 32) * 16) 16)) fr0)).
  { intros [Hs Hv]. split; [exact Hs |]. intros c y Hc Hy.
    rewrite Hv by assumption.
    destruct (c <? 32) eqn:E.
    - replace (32 <=? c) with false by lia. reflexivity.
    - replace ((32 <=? c) && (c <? 256)) with true by lia. reflexivity. }
  apply for_range_ind; [lia | |].
  - split; [exact Ht0 |]. intros c y Hc Hy. rewrite H0 by assumption.
    replace ((32 <=? c) && (c <? 32)) with false by lia. reflexivity.
  - intros k t Hk [Hs Hv].
    pose proof (table_shape_load 256 16 t k Hs ltac:(lia)) as Hlen.
    split.
    + apply table_shape_store; [exact Hs |]. rewrite length_memcpy. exact Hlen.
    + intros c y Hc Hy. unfold load2.
      destruct (decide (c = k)) as [-> | Hne].
      * rewrite load_store_eq by (destruct Hs; lia).
        rewrite load_memcpy by lia.
        replace ((0 <=? y) && (y <? 0 + 16)
                 && (y <? Z.of_nat (length (load [] t k)))) with true by lia.
        replace ((32 <=? k) && (k <? k + 1)) with true by lia.
        f_equal. lia.
      * rewrite load_store_ne by lia. fold (load2 t c y).
        rewrite Hv by assumption.
        replace ((32 <=? c) && (c <? k + 1)) with ((32 <=? c) && (c <? k))
          by lia.
        reflexivity.
Qed.

Lemma startup_tables (w : World) : tables_shaped (startup w).
Proof.
  unfold tables_shaped, table_shape, startup.
  cbn [s_vga_palette ATTR_LUT BYTE_MASKS font_ram].
  rewrite !length_replicate.
  repeat split; apply Forall_replicate, length_replicate.
Qed.

(** The calls that leave the four tables alone. *)
Lemma run_op_keeps_tables (o : op) (s : state) :
  gfx_primitive o = false ->
  match o with
  | Init | RefreshPalette | SetVgaPalette _ | SetVgaPaletteEntry _ _ => False
  | _ => True
  end ->
  s_vga_palette (run_op o s) = s_vga_palette s /\
  ATTR_LUT (run_op o s) = ATTR_LUT s /\
  BYTE_MASKS (run_op o s) = BYTE_MASKS s /\
  font_ram (run_op o s) = font_ram s.
Proof.
  destruct o; cbn [gfx_primitive run_op]; intros Hg Ho;
    try discriminate; try contradiction;
    cases_m; (split; [| split; [| split]]); reflexivity.
Qed.

Lemma rebuild_attr_lut_tables (s : state) :
  tables_shaped s -> tables_shaped (snd (rebuild_attr_lut s)).
Proof.
  intros (H1 & H2 & H3 & H4).
  unfold rebuild_attr_lut, bind, modify.
  pose proof (text_palette_keeps s) as Hk.
  destruct (text_palette s) as [pal s1]. cbn in *. rewrite Hk.
  unfold tables_shaped. cbn.
  split; [exact H1 |]. split; [apply attr_lut_loop_shape, H2 |].
  split; assumption.
Qed.

Lemma init_tables (s : state) :
  tables_shaped s -> tables_shaped (snd (rgb_display_init s)).
Proof.
  intros (H1 & H2 & H3 & H4).
  unfold rgb_display_init, init_vga_palette, precompute_tables, bind, modify,
    platform.
  cbn.
  match goal with
  | |- context [rebuild_attr_lut ?s0] =>
      assert (Hr : tables_shaped (snd (rebuild_attr_lut s0)));
      [apply rebuild_attr_lut_tables | destruct (rebuild_attr_lut s0) as [[] s1]]
  end.
  { unfold tables_shaped. cbn. rewrite init_vga_palette_table_length.
    split; [exact H1 |]. split; [exact H2 |]. split; assumption. }
  cbn in *. destruct Hr as (R1 & R2 & R3 & R4).
  destruct (xSemaphoreCreateBinary (env s1)) as [sem w]. cbn.
  unfold tables_shaped. cbn.
  split; [exact R1 |]. split; [exact R2 |].
  split; [apply byte_masks_loop_shape, R3 | apply load_font_entries, R4].
Qed.

Lemma run_op_tables (o : op) (s : state) :
  tables_shaped s -> tables_shaped (run_op o s).
Proof.
  intros Hs. destruct (gfx_primitive o) eqn:Hg.
  { destruct (gfx_primitive_frame o s Hg) as [Es _]. rewrite Es.
    exact Hs. }
  destruct o; try discriminate Hg;
    try (match goal with
         | |- tables_shaped (run_op ?o s) =>
             destruct (run_op_keeps_tables o s eq_refl I)
               as (E1 & E2 & E3 & E4)
         end;
         unfold tables_shaped; rewrite E1, E2, E3, E4; exact Hs).
  - apply init_tables, Hs.
  - apply rebuild_attr_lut_tables, Hs.
  - destruct Hs as (H1 & H2 & H3 & H4). cbn [run_op].
    unfold rgb_display_set_vga_palette, modify, tables_shaped. cbn.
    rewrite length_memcpy. split; [exact H1 |]. split; [exact H2 |].
    split; assumption.
  - destruct Hs as (H1 & H2 & H3 & H4). cbn [run_op].
    unfold rgb_display_set_vga_palette_entry, modify, ret, tables_shaped.
    case_inner; cbn; rewrite ?length_store;
      (split; [exact H1 |]); (split; [exact H2 |]); split; assumption.
Qed.

(** X3.  [init_vga_palette] assigns all 256 entries, so the palette it
    leaves does not depend on the one it finds: entries 0..15 are the CGA
    colors, entry [232 + i] is the gray of level [8 + 10 i] with equal
    red and blue channels, and every entry is a 16-bit value. *)
Theorem vga_palette_defaults (s : state) :
  length (s_vga_palette s) = 256%nat ->
  let s' := snd (init_vga_palette s) in
  s_vga_palette s' = vga_palette_image /\
  (forall i, 0 <= i < 16 ->
     fst (rgb_display_get_vga_palette_entry i s') = load 0 s_cga_colors i) /\
  (forall i, 0 <= i < 24 ->
     let c := fst (rgb_display_get_vga_palette_entry (232 + i) s') in
     c = gray_color i /\
     Z.shiftr c 11 = ((8 + i * 10) * 31) ÷ 255 /\
     Z.land (Z.shiftr c 5) 63 = ((8 + i * 10) * 63) ÷ 255 /\
     Z.land c 31 = ((8 + i * 10) * 31) ÷ 255) /\
  (forall i, 0 <= i <= 255 ->
     0 <= fst (rgb_display_get_vga_palette_entry i s') < 65536).
Proof.
  intros Hlen s'.
  assert (Hpal : s_vga_palette s' = vga_palette_image).
  { unfold s', init_vga_palette, modify. cbn.
    apply init_vga_palette_table_total, Hlen. }
  assert (Hget : forall i, 0 <= i <= 255 ->
            fst (rgb_display_get_vga_palette_entry i s')
            = load 0 vga_palette_image i).
  { intros i Hi. unfold rgb_display_get_vga_palette_entry, bind, ret, gets.
    replace ((i >=? 0) && (i <? 256)) with true by lia.
    exact (f_equal (fun p => load 0 p i) Hpal). }
  split; [exact Hpal |]. split; [| split].
  - intros i Hi. rewrite Hget by lia.
    assert (Hc : forallb (fun i => load 0 vga_palette_image i
                                   =? load 0 s_cga_colors i)
                   (seqZ 0 16) = true) by (vm_compute; reflexivity).
    pose proof (forallb_seqZ_range _ _ Hc i Hi) as Hi'. cbn beta in Hi'. lia.
  - intros i Hi c. unfold c. rewrite Hget by lia.
    assert (Hc : forallb (fun i =>
                   let c := load 0 vga_palette_image (232 + i) in
                   (c =? gray_color i)
                   && (Z.shiftr c 11 =? ((8 + i * 10) * 31) ÷ 255)
                   && (Z.land (Z.shiftr c 5) 63 =? ((8 + i * 10) * 63) ÷ 255)
                   && (Z.land c 31 =? ((8 + i * 10) * 31) ÷ 255))
                   (seqZ 0 24) = true) by (vm_compute; reflexivity).
    pose proof (forallb_seqZ_range _ _ Hc i Hi) as Hi'.
    cbn beta zeta in Hi'. lia.
  - intros i Hi. rewrite Hget by lia.
    assert (Hc : forallb (fun i => (0 <=? load 0 vga_palette_image i)
                                   && (load 0 vga_palette_image i <? 65536))
                   (seqZ 0 256) = true) by (vm_compute; reflexivity).
    pose proof (forallb_seqZ_range _ _ Hc i ltac:(lia)) as Hi'.
    cbn beta in Hi'. lia.
Qed.

End Tables.

(** ** More on the mode state machine *)

Section ModeExtra.
Context {P : Platform}.

Lemma fresh_block_cleared (n i : Z) :
  0 <= i < n -> load 0 (memset (fresh_block n) 0 0 n) i = 0.
Proof.
  intros Hi. rewrite load_memset. unfold fresh_block.
  rewrite length_replicate, Z2Nat.id by lia.
  replace ((0 <=? 0) && (0 <=? i) && (i <? 0 + n) && (i <? n)) with true
    by lia.
  reflexivity.
Qed.

(** X4.  A successful switch into a graphics variant from a state without
    a framebuffer commits the mode, detaches the text buffer, and leaves
    a framebuffer of the variant's size and dimensions in which every
    byte is 0; palette and cursor are untouched. *)
Theorem set_mode_enters_graphics (mode : screen_mode_t) (s : state) :
  s_graphics_framebuffer s = None ->
  is_graphics_mode mode ->
  mode <> s_screen_mode s ->
  fst (rgb_display_set_mode mode s) = 0 ->
  let s' := snd (rgb_display_set_mode mode s) in
  s_screen_mode s' = mode /\
  s_display_buffer s' = None /\
  geometry_matches_mode s' /\
  (exists a, s_graphics_framebuffer s' = Some a /\
             forall i, 0 <= i < Z.of_nat (length a) -> load 0 a i = 0) /\
  s_vga_palette s' = s_vga_palette s /\
  s_cursor_col s' = s_cursor_col s /\
  s_cursor_row s' = s_cursor_row s.
Proof.
  intros Hfb Hg Hne Hr s'.
  destruct (set_mode_fresh_geometry mode s Hfb Hg Hr Hne) as [Hgeo Hmode].
  fold s' in Hgeo, Hmode.
  assert (Hrest :
    s_display_buffer s' = None /\
    (exists a, s_graphics_framebuffer s' = Some a /\
               forall i, 0 <= i < Z.of_nat (length a) -> load 0 a i = 0) /\
    s_vga_palette s' = s_vga_palette s /\
    s_cursor_col s' = s_cursor_col s /\
    s_cursor_row s' = s_cursor_row s).
  { assert (Hlen : forall n, 0 <= n ->
              Z.of_nat (length (memset (fresh_block n) 0 0 n)) = n).
    { intros n Hn. rewrite length_memset. unfold fresh_block.
      rewrite length_replicate. lia. }
    revert Hr. unfold s'. clear Hgeo Hmode s'.
    unfold rgb_display_set_mode, allocate_graphics_framebuffer,
      malloc_result, bind, ret, gets, modify, platform, call.
    destruct (mode =? s_screen_mode s) eqn:E0; [lia |].
    destruct Hg as [-> | ->]; cbn;
      repeat (case_inner; cbn in * );
      try rewrite Hfb in *; cbn in *;
      try discriminate; intros Hr; try discriminate;
      (split; [reflexivity |]);
      (split; [eexists; split; [reflexivity |];
               intros i Hi; rewrite Hlen in Hi by (vm_compute; discriminate);
               apply fresh_block_cleared; exact Hi |]);
      repeat split; reflexivity. }
  split; [exact Hmode |].
  destruct Hrest as (H1 & H2 & H3 & H4 & H5).
  split; [exact H1 |]. split; [| tauto].
  unfold geometry_matches_mode. rewrite Hmode. exact Hgeo.
Qed.

(** X5.  A switch to text mode from another mode always returns success:
    the mode becomes text and the framebuffer pointer null, whatever the
    hooks return.  Without a [get_text_buffer] hook the text-buffer
    reference stays as it was; with one it is what the hook returned.
    The dimension statics, palette and cursor are untouched. *)
Theorem set_mode_text_always_succeeds (s : state) :
  s_screen_mode s <> SM_TEXT ->
  let s' := snd (rgb_display_set_mode SM_TEXT s) in
  fst (rgb_display_set_mode SM_TEXT s) = 0 /\
  s_screen_mode s' = SM_TEXT /\
  s_graphics_framebuffer s' = None /\
  match s_callbacks s with
  | None => s_display_buffer s' = s_display_buffer s
  | Some cb =>
      match get_text_buffer cb with
      | None => s_display_buffer s' = s_display_buffer s
      | Some f => exists w, s_display_buffer s' = fst (f w)
      end
  end /\
  s_gfx_width s' = s_gfx_width s /\
  s_gfx_height s' = s_gfx_height s /\
  s_vga_palette s' = s_vga_palette s /\
  s_cursor_col s' = s_cursor_col s /\
  s_cursor_row s' = s_cursor_row s.
Proof.
  intros Hne.
  unfold rgb_display_set_mode, free_graphics_framebuffer,
    bind, ret, gets, modify, platform, call.
  replace (SM_TEXT =? s_screen_mode s) with false
    by (unfold SM_TEXT in *; lia).
  cbn.
  repeat (case_inner; cbn in * );
    repeat match goal with
    | Hx : Some _ = Some _ |- _ => injection Hx as <-
    | Hx : Some _ = None |- _ => discriminate Hx
    | Hx : None = Some _ |- _ => discriminate Hx
    end;
    (split; [reflexivity |]); (split; [reflexivity |]);
    (split; [first [reflexivity | assumption] |]);
    (split; [| repeat split; reflexivity]);
    repeat match goal with
    | Hx : ?a = Some _, Hy : ?a = Some _ |- _ =>
        rewrite Hx in Hy; injection Hy as <-
    | Hx : ?a = Some _, Hy : ?a = None |- _ =>
        rewrite Hx in Hy; discriminate Hy
    end;
    first
      [ reflexivity
      | match goal with
        | Hx : ?f ?w = (?r, _) |- exists w', ?r = fst (?f w') =>
            exists w; rewrite Hx; reflexivity
        end ].
Qed.

(** X6.  When the [enter_graphics] hook returns non-zero, the switch
    fails before anything else happens: the result is -1 and the state is
    the old one with only the world the hook left; no allocation is
    attempted and the dimension statics keep their values. *)
Theorem set_mode_rejected_before_allocation (mode : screen_mode_t)
    (s : state) (cb : rgb_display_callbacks_t) (f : World -> Z * World) :
  s_callbacks s = Some cb ->
  enter_graphics cb = Some f ->
  fst (f (env s)) <> 0 ->
  is_graphics_mode mode ->
  mode <> s_screen_mode s ->
  rgb_display_set_mode mode s = (-1, set_env (snd (f (env s))) s).
Proof.
  intros Hcb Hf Hrej Hg Hne.
  unfold rgb_display_set_mode, bind, ret, gets, call.
  replace (mode =? s_screen_mode s) with false by lia.
  replace ((mode =? SM_VGA13H) || (mode =? SM_150P)) with true
    by (destruct Hg as [-> | ->]; reflexivity).
  rewrite Hcb, Hf. destruct (f (env s)) as [r w]. cbn in *.
  replace (r =? 0) with false by lia. reflexivity.
Qed.

(** X7.  Allocation with the external-RAM fallback.  Without a framebuffer
    and for a graphics variant, [allocate_graphics_framebuffer] succeeds
    exactly when the internal pool yields a block or, in a build with
    [CONFIG_SPIRAM], the external pool does on the second attempt; the
    second attempt is made only after the first has failed. *)
Theorem allocate_falls_back_to_spiram (mode : screen_mode_t) (s : state) :
  s_graphics_framebuffer s = None ->
  is_graphics_mode mode ->
  let first := heap_caps_malloc (mode_size mode) MALLOC_CAP_INTERNAL_8BIT
                 (env s) in
  let second := heap_caps_malloc (mode_size mode) MALLOC_CAP_SPIRAM
                  (snd first) in
  let r := allocate_graphics_framebuffer mode s in
  fst r = (if fst first || (CONFIG_SPIRAM && fst second) then 0 else -1) /\
  env (snd r) = (if fst first || negb CONFIG_SPIRAM then snd first
                 else snd second) /\
  (fst r = 0 <-> s_graphics_framebuffer (snd r) <> None).
Proof.
  intros Hfb Hg.
  unfold allocate_graphics_framebuffer, malloc_result, mode_size,
    bind, ret, gets, modify, platform.
  rewrite Hfb. cbn.
  destruct Hg as [-> | ->]; cbn;
    destruct CONFIG_SPIRAM; cbn;
    (destruct (heap_caps_malloc _ MALLOC_CAP_INTERNAL_8BIT (env s))
       as [ok1 w1]; cbn;
     destruct ok1; cbn);
    try (destruct (heap_caps_malloc _ MALLOC_CAP_SPIRAM w1) as [ok2 w2];
         cbn; destruct ok2; cbn);
    (split; [reflexivity |]); (split; [reflexivity |]);
    split; intros Hx; try discriminate Hx; try reflexivity;
    try (intros Hy; discriminate Hy); exfalso; apply Hx; reflexivity.
Qed.

Lemma run_op_keeps_geometry (o : op) (s : state) :
  gfx_primitive o = false ->
  match o with SetMode _ => False | _ => True end ->
  s_graphics_framebuffer (run_op o s) = s_graphics_framebuffer s /\
  s_gfx_width (run_op o s) = s_gfx_width s /\
  s_gfx_height (run_op o s) = s_gfx_height s /\
  s_gfx_scale (run_op o s) = s_gfx_scale s /\
  s_gfx_margin_x (run_op o s) = s_gfx_margin_x s.
Proof.
  destruct o; cbn [gfx_primitive run_op]; intros Hg Ho;
    try discriminate; try contradiction;
    cases_m; (split; [| split; [| split; [| split]]]); congruence.
Qed.

Lemma mode_geometry_size (mode n w h sc mx : Z) :
  mode_geometry mode = Some (n, w, h, sc, mx) ->
  0 <= n /\ is_graphics_mode mode.
Proof.
  unfold mode_geometry, is_graphics_mode.
  destruct (mode =? SM_VGA13H) eqn:E1.
  - intros [= <- _ _ _ _]. split; [vm_compute; discriminate | lia].
  - destruct (mode =? SM_150P) eqn:E2; [| discriminate].
    intros [= <- _ _ _ _]. split; [vm_compute; discriminate | lia].
Qed.

Lemma set_mode_variant (mode : screen_mode_t) (s : state) :
  (s_graphics_framebuffer s <> None -> geometry_of_a_variant s) ->
  s_graphics_framebuffer (snd (rgb_display_set_mode mode s)) <> None ->
  geometry_of_a_variant (snd (rgb_display_set_mode mode s)).
Proof.
  assert (Hsize : forall n, 0 <= n ->
            Z.of_nat (length (memset (fresh_block n) 0 0 n)) = n).
  { intros n Hn. rewrite length_memset. unfold fresh_block.
    rewrite length_replicate. lia. }
  unfold geometry_of_a_variant, framebuffer_size.
  unfold rgb_display_set_mode, allocate_graphics_framebuffer, malloc_result,
    free_graphics_framebuffer, bind, ret, gets, modify, platform, call.
  cbn. repeat (case_inner; cbn in * );
    repeat match goal with
    | Hx : bool_decide _ = false |- _ => apply framebuffer_guard in Hx
    | Hx : Some _ = Some _ |- _ => injection Hx as <-
    | Hx : (_, _) = (_, _) |- _ => injection Hx; clear Hx; intros; subst
    | Hx : Some _ = None |- _ => discriminate Hx
    | Hx : None = Some _ |- _ => discriminate Hx
    end;
    intros Hs Hfb; try congruence;
    try (apply Hs; congruence);
    match goal with
    | Hx : mode_geometry mode = Some (?n, _, _, _, _) |- _ =>
        destruct (mode_geometry_size _ _ _ _ _ _ Hx) as [Hn Hm];
        exists mode; split; [exact Hm |];
        rewrite Hsize by exact Hn; exact Hx
    end.
Qed.

Lemma run_op_variant (o : op) (s : state) :
  (s_graphics_framebuffer s <> None -> geometry_of_a_variant s) ->
  s_graphics_framebuffer (run_op o s) <> None ->
  geometry_of_a_variant (run_op o s).
Proof.
  intros Hs. destruct (gfx_primitive o) eqn:Hg.
  { destruct (gfx_primitive_frame o s Hg) as [Es Hw]. intros Hfb'.
    destruct (s_graphics_framebuffer s) as [a|] eqn:Hfb; [| congruence].
    destruct Hw as (a' & Ha' & Hlen).
    destruct (Hs ltac:(discriminate)) as (m & Hm & Hgeo).
    exists m. split; [exact Hm |]. rewrite Hgeo.
    unfold framebuffer_size. rewrite Hfb, Ha', Hlen, Es. reflexivity. }
  destruct o; try discriminate Hg;
    try (match goal with
         | |- _ -> geometry_of_a_variant (run_op ?o s) =>
             destruct (run_op_keeps_geometry o s eq_refl I)
               as (Hf & Hw & Hh & Hc & Hx)
         end;
         unfold geometry_of_a_variant, framebuffer_size in *;
         rewrite Hf, Hw, Hh, Hc, Hx; exact Hs).
  apply set_mode_variant, Hs.
Qed.

Lemma reachable_variant (s : state) :
  reachable s -> s_graphics_framebuffer s <> None -> geometry_of_a_variant s.
Proof.
  intros (w & ops & ->). 
  assert (H0 : s_graphics_framebuffer (startup w) <> None ->
               geometry_of_a_variant (startup w))
    by (cbn; congruence).
  revert H0. generalize (startup w).
  induction ops as [|o ops IH]; intros s H0; [exact H0 |].
  rewrite run_cons. apply IH. apply run_op_variant, H0.
Qed.

Lemma variant_cases (s : state) :
  geometry_of_a_variant s ->
  (framebuffer_size s = 64000 /\ s_gfx_width s = 320 /\ s_gfx_height s = 200
   /\ s_gfx_scale s = 3 /\ s_gfx_margin_x s = 32) \/
  (framebuffer_size s = 38400 /\ s_gfx_width s = 256 /\ s_gfx_height s = 150
   /\ s_gfx_scale s = 4 /\ s_gfx_margin_x s = 0).
Proof.
  intros (m & [-> | ->] & Hgeo); injection Hgeo as <- <- <- <- <-;
    [left | right]; repeat split; reflexivity.
Qed.

(** X8.  In every reachable state that has a framebuffer, its size and the
    four dimension statics are those of one of the two graphics variants
    (not necessarily of the current mode).  So the upscale factor is 3 or
    4, never 0, the upscaled width with its left margin fits the panel
    width, and the upscaled height is the panel height. *)
Theorem reachable_geometry_of_a_variant (s : state) :
  reachable s ->
  s_graphics_framebuffer s <> None ->
  geometry_of_a_variant s /\
  (s_gfx_scale s = 3 \/ s_gfx_scale s = 4) /\
  framebuffer_size s = s_gfx_width s * s_gfx_height s /\
  0 <= s_gfx_margin_x s /\
  s_gfx_margin_x s + s_gfx_scale s * s_gfx_width s <= SCREEN_WIDTH /\
  s_gfx_scale s * s_gfx_height s = SCREEN_HEIGHT.
Proof.
  intros Hr Hfb. pose proof (reachable_variant s Hr Hfb) as Hv.
  split; [exact Hv |].
  unfold SCREEN_WIDTH, SCREEN_HEIGHT.
  destruct (variant_cases s Hv) as [(-> & -> & -> & -> & ->)
                                   | (-> & -> & -> & -> & ->)];
    repeat split; auto; lia.
Qed.

End ModeExtra.

(** ** Initialisation, palette interface, vertical blank *)

Section ApiExtra.
Context {P : Platform}.

Lemma rebuild_attr_lut_frame (s : state) :
  let s1 := snd (rebuild_attr_lut s) in
  s1 = set_ATTR_LUT (ATTR_LUT s1) (set_env (env s1) s).
Proof.
  unfold rebuild_attr_lut, bind, modify.
  pose proof (text_palette_keeps s) as Hk.
  destruct (text_palette s) as [pal s1]. cbn in *. rewrite Hk.
  reflexivity.
Qed.

Lemma init_effect (s : state) :
  tables_shaped s ->
  let s' := snd (rgb_display_init s) in
  (forall c y, 0 <= c < 256 -> 0 <= y < 16 ->
     load2 (font_ram s') c y =
     if c <? 32 then 0
     else load 0 terminus16_glyph_bitmap ((c - 32) * 16 + y)) /\
  BYTE_MASKS s' = byte_masks_image /\
  s_vga_palette s' = vga_palette_image /\
  s_screen_mode s' = s_screen_mode s /\
  s_graphics_framebuffer s' = s_graphics_framebuffer s /\
  s_display_buffer s' = s_display_buffer s /\
  s_cursor_col s' = s_cursor_col s /\
  s_cursor_row s' = s_cursor_row s /\
  s_callbacks s' = s_callbacks s.
Proof.
  intros (H1 & H2 & H3 & H4).
  unfold rgb_display_init, init_vga_palette, precompute_tables, bind, modify,
    platform.
  cbn.
  match goal with
  | |- context [rebuild_attr_lut ?s0] =>
      pose proof (rebuild_attr_lut_frame s0) as Hr;
      destruct (rebuild_attr_lut s0) as [[] s1]
  end.
  cbn in Hr. cbn.
  destruct (xSemaphoreCreateBinary (env s1)) as [sem w]. cbn.
  rewrite Hr. cbn.
  split; [apply load_font_entries, H4 |].
  split; [apply byte_masks_loop_total, H3 |].
  split; [apply init_vga_palette_table_total, H1 |].
  repeat split; reflexivity.
Qed.

(** X9.  [rgb_display_init] on tables of the right dimensions: the font
    table holds, for each character code from 0x20 on, the 16 bytes of its
    glyph in the bitmap asset, and zeros for the control codes below; the
    byte masks and the indexed palette are the fixed images, whatever the
    tables held before; mode, framebuffer, text buffer, cursor and hook
    table are untouched. *)
Theorem init_loads_font_and_tables (s : state) :
  tables_shaped s ->
  let s' := snd (rgb_display_init s) in
  (forall c y, 0 <= c < 256 -> 0 <= y < 16 ->
     load2 (font_ram s') c y =
     if c <? 32 then 0
     else load 0 terminus16_glyph_bitmap ((c - 32) * 16 + y)) /\
  BYTE_MASKS s' = byte_masks_image /\
  s_vga_palette s' = vga_palette_image /\
  s_screen_mode s' = s_screen_mode s /\
  s_graphics_framebuffer s' = s_graphics_framebuffer s /\
  s_display_buffer s' = s_display_buffer s /\
  s_cursor_col s' = s_cursor_col s /\
  s_cursor_row s' = s_cursor_row s /\
  s_callbacks s' = s_callbacks s.
Proof. exact (init_effect s). Qed.

(** X10.  [rgb_display_set_vga_palette] with a 256-entry palette replaces
    the whole table: afterwards every index in [0, 255] reads back the
    caller's entry. *)
Theorem set_vga_palette_round_trip (s : state) (palette : list Z) :
  length (s_vga_palette s) = 256%nat ->
  length palette = 256%nat ->
  let s' := snd (rgb_display_set_vga_palette palette s) in
  s_vga_palette s' = palette /\
  forall i, 0 <= i <= 255 ->
    fst (rgb_display_get_vga_palette_entry i s') = load 0 palette i.
Proof.
  intros Hlen Hp s'.
  assert (Hpal : s_vga_palette s' = palette).
  { unfold s', rgb_display_set_vga_palette, modify. cbn.
    apply (load_ext 0); [rewrite length_memcpy; congruence |].
    intros i Hi. rewrite length_memcpy in Hi.
    rewrite load_memcpy by lia.
    replace ((0 <=? i) && (i <? 0 + 256)
             && (i <? Z.of_nat (length (s_vga_palette s)))) with true by lia.
    f_equal. lia. }
  split; [exact Hpal |].
  intros i Hi. unfold rgb_display_get_vga_palette_entry, bind, ret, gets.
  replace ((i >=? 0) && (i <? 256)) with true by lia.
  exact (f_equal (fun p => load 0 p i) Hpal).
Qed.

(** X11.  Palette entries are independent: after
    [rgb_display_set_vga_palette_entry (i, c)] an index [j] reads [c] when
    it is [i] and [i] is in [0, 255], and reads what it read before
    otherwise. *)
Theorem vga_palette_entries_independent (s : state) (i j c : Z) :
  length (s_vga_palette s) = 256%nat ->
  fst (rgb_display_get_vga_palette_entry j
         (snd (rgb_display_set_vga_palette_entry i c s)))
  = if (j =? i) && (0 <=? i) && (i <? 256) then c
    else fst (rgb_display_get_vga_palette_entry j s).
Proof.
  intros Hlen.
  unfold rgb_display_get_vga_palette_entry, rgb_display_set_vga_palette_entry,
    bind, ret, gets, modify.
  destruct ((i >=? 0) && (i <? 256)) eqn:Ei;
    destruct ((j >=? 0) && (j <? 256)) eqn:Ej; cbn.
  - destruct (j =? i) eqn:E.
    + assert (j = i) as -> by lia.
      replace (0 <=? i) with true by lia.
      replace (i <? 256) with true by lia. cbn.
      apply load_store_eq. lia.
    + cbn. apply load_store_ne. lia.
  - replace (j =? i) with false by lia. reflexivity.
  - replace ((j =? i) && (0 <=? i) && (i <? 256)) with false by lia.
    reflexivity.
  - replace ((j =? i) && (0 <=? i) && (i <? 256)) with false by lia.
    reflexivity.
Qed.

(** X12.  The vertical-blank handshake.  Outside the graphics modes, or
    without a semaphore, [rgb_display_wait_vsync] returns at once and
    changes nothing.  Otherwise it raises the waiting flag and takes the
    semaphore; the next [on_vsync] gives the semaphore and lowers the
    flag, and a further [on_vsync] gives nothing and changes nothing. *)
Theorem vsync_handshake (s : state) :
  (~ is_graphics_mode (s_screen_mode s) \/ s_vsync_sem s = false ->
   rgb_display_wait_vsync s = (tt, s)) /\
  (s_waiting_for_vsync s = false -> on_vsync s = (false, s)) /\
  (is_graphics_mode (s_screen_mode s) -> s_vsync_sem s = true ->
   let s1 := snd (rgb_display_wait_vsync s) in
   let s2 := snd (on_vsync s1) in
   s1 = set_env (snd (xSemaphoreTake 100 (env s)))
          (set_s_waiting_for_vsync true s) /\
   s2 = set_s_waiting_for_vsync false
          (set_env (snd (xSemaphoreGiveFromISR (env s1))) s1) /\
   fst (on_vsync s1) = fst (xSemaphoreGiveFromISR (env s1)) /\
   on_vsync s2 = (false, s2)).
Proof.
  unfold is_graphics_mode, SM_VGA13H, SM_150P.
  split; [| split].
  - intros Hc. unfold rgb_display_wait_vsync, bind, ret, gets. cbn.
    replace ((negb (s_screen_mode s =? SM_VGA13H)
              && negb (s_screen_mode s =? SM_150P))
             || negb (s_vsync_sem s)) with true; [reflexivity |].
    unfold SM_VGA13H, SM_150P.
    symmetry. destruct Hc as [Hc | ->]; [| apply orb_true_r].
    apply orb_true_iff. left. lia.
  - intros Hw. unfold on_vsync, bind, ret, gets. cbn. rewrite Hw. reflexivity.
  - intros Hg Hsem.
    set (s1 := snd (rgb_display_wait_vsync s)).
    set (s2 := snd (on_vsync s1)).
    assert (E1 : s1 = set_env (snd (xSemaphoreTake 100 (env s)))
                   (set_s_waiting_for_vsync true s)).
    { unfold s1, rgb_display_wait_vsync, bind, ret, gets, modify, platform.
      cbn. rewrite Hsem.
      replace (negb (s_screen_mode s =? SM_VGA13H)
               && negb (s_screen_mode s =? SM_150P)) with false
        by (unfold SM_VGA13H, SM_150P; lia).
      cbn. destruct (xSemaphoreTake 100 (env s)). reflexivity. }
    assert (Hw1 : s_waiting_for_vsync s1 = true) by (rewrite E1; reflexivity).
    assert (Hs1 : s_vsync_sem s1 = true) by (rewrite E1; exact Hsem).
    assert (E2 : on_vsync s1 =
                 (fst (xSemaphoreGiveFromISR (env s1)),
                  set_s_waiting_for_vsync false
                    (set_env (snd (xSemaphoreGiveFromISR (env s1))) s1))).
    { unfold on_vsync, bind, ret, gets, modify, platform. cbn.
      rewrite Hw1, Hs1. cbn.
      destruct (xSemaphoreGiveFromISR (env s1)). reflexivity. }
    split; [exact E1 |]. unfold s2. rewrite E2. cbn.
    split; [reflexivity |]. split; [reflexivity |].
    unfold on_vsync, bind, ret, gets. cbn. reflexivity.
Qed.

Lemma run_op_initialised (o : op) (s : state) :
  tables_shaped s -> BYTE_MASKS s = byte_masks_image -> font_loaded s ->
  BYTE_MASKS (run_op o s) = byte_masks_image /\ font_loaded (run_op o s).
Proof.
  intros Hs Hm Hf. destruct (gfx_primitive o) eqn:Hg.
  { destruct (gfx_primitive_frame o s Hg) as [Es _]. rewrite Es.
    split; [exact Hm | exact Hf]. }
  destruct o; try discriminate Hg;
    try (match goal with
         | |- _ /\ font_loaded (run_op ?o s) =>
             destruct (run_op_keeps_tables o s eq_refl I)
               as (E1 & E2 & E3 & E4)
         end;
         unfold font_loaded; rewrite E3, E4; split; [exact Hm | exact Hf]).
  - destruct (init_effect s Hs) as (F & B & _). split; [exact B | exact F].
  - cbn [run_op]. unfold rgb_display_refresh_palette.
    rewrite rebuild_attr_lut_frame. split; [exact Hm | exact Hf].
  - split; [exact Hm | exact Hf].
  - cbn [run_op].
    unfold rgb_display_set_vga_palette_entry, modify, ret.
    case_inner; split; first [exact Hm | exact Hf].
Qed.

(** X22.  Once [rgb_display_init] has run, the byte masks and the font
    table stay as it built them through every later call, callbacks
    included: no other function writes them, and a repeated
    initialisation rebuilds the same contents.  The indexed palette is
    written by initialisation and its two setters only, so it survives
    mode switches; the attribute table by initialisation and
    [rgb_display_refresh_palette] only. *)
Theorem initialised_tables_persist :
  (forall (w : World) (ops1 ops2 : list op),
     let s := run (ops1 ++ Init :: ops2) (startup w) in
     BYTE_MASKS s = byte_masks_image /\ font_loaded s) /\
  (forall (o : op) (s : state),
     match o with
     | Init | SetVgaPalette _ | SetVgaPaletteEntry _ _ => True
     | _ => s_vga_palette (run_op o s) = s_vga_palette s
     end) /\
  (forall (o : op) (s : state),
     match o with
     | Init | RefreshPalette => True
     | _ => ATTR_LUT (run_op o s) = ATTR_LUT s
     end).
Proof.
  split; [| split].
  - intros w ops1 ops2 s. unfold s. rewrite run_app, run_cons.
    assert (H1 : tables_shaped (run ops1 (startup w))).
    { generalize (startup_tables w). generalize (startup w).
      induction ops1 as [|o ops IH]; intros s0 H0; [exact H0 |].
      rewrite run_cons. apply IH, run_op_tables, H0. }
    destruct (init_effect (run ops1 (startup w)) H1) as (F & B & _).
    pose proof (init_tables _ H1) as H2.
    change (snd (rgb_display_init (run ops1 (startup w))))
      with (run_op Init (run ops1 (startup w))) in F, B, H2.
    revert F B H2. generalize (run_op Init (run ops1 (startup w))).
    induction ops2 as [|o ops IH]; intros s0 F B H2; [split; assumption |].
    rewrite run_cons.
    destruct (run_op_initialised o s0 H2 B F) as [B' F'].
    apply IH; [exact F' | exact B' | apply run_op_tables, H2].
  - intros o s. destruct (gfx_primitive o) eqn:Hg.
    { destruct (gfx_primitive_frame o s Hg) as [Es _].
      destruct o; try discriminate Hg; rewrite Es; reflexivity. }
    destruct o; try discriminate Hg; try exact I;
      try (match goal with
           | |- s_vga_palette (run_op ?o s) = _ =>
               exact (proj1 (run_op_keeps_tables o s eq_refl I))
           end).
    cbn [run_op]. unfold rgb_display_refresh_palette.
    rewrite rebuild_attr_lut_frame. reflexivity.
  - intros o s. destruct (gfx_primitive o) eqn:Hg.
    { destruct (gfx_primitive_frame o s Hg) as [Es _].
      destruct o; try discriminate Hg; rewrite Es; reflexivity. }
    destruct o; try discriminate Hg; try exact I;
      try (match goal with
           | |- ATTR_LUT (run_op ?o s) = _ =>
               exact (proj1 (proj2 (run_op_keeps_tables o s eq_refl I)))
           end).
    + reflexivity.
    + cbn [run_op].
      unfold rgb_display_set_vga_palette_entry, modify, ret.
      case_inner; reflexivity.
Qed.

End ApiExtra.

(** ** What each graphics primitive paints *)

Section PaintedExtra.
Context {P : Platform}.

Lemma snd_seq {A B : Type} (m : M A) (k : M B) (s : state) :
  snd (bind m (fun _ => k) s) = snd (k (snd (m s))).
Proof. unfold bind. destruct (m s). reflexivity. Qed.

Lemma clear_pixels (s : state) (w h : Z) (a : list Z) (c px py : Z) :
  framebuffer_is s w h a -> 0 <= px < w -> 0 <= py < h ->
  pixel (snd (rgb_gfx_clear c s)) px py = to_uint8 c.
Proof.
  intros (Hw & Hh & Hfb & Hlen) Hpx Hpy.
  unfold pixel, rgb_gfx_clear, get_fb, write_fb, rgb_display_get_fb_width,
    rgb_display_get_fb_height, rgb_display_get_framebuffer,
    bind, ret, gets, modify.
  destruct s; cbn in Hw, Hh, Hfb; subst. cbn.
  replace ((w >? 0) && (h >? 0)) with true by lia. cbn.
  unfold pixel_at. rewrite load_memset.
  pose proof (pixel_index_bound w h px py Hpx Hpy).
  replace ((0 <=? 0) && (0 <=? py * w + px) && (py * w + px <? 0 + w * h)
           && (py * w + px <? Z.of_nat (length a))) with true by lia.
  reflexivity.
Qed.

Lemma pixel_pixels (s : state) (w h : Z) (a : list Z) (x y c px py : Z) :
  framebuffer_is s w h a -> 0 <= px < w -> 0 <= py < h ->
  pixel (snd (rgb_gfx_pixel x y c s)) px py =
  if (px =? x) && (py =? y) then to_uint8 c else pixel s px py.
Proof.
  intros (Hw & Hh & Hfb & Hlen) Hpx Hpy.
  unfold pixel, rgb_gfx_pixel, get_fb, write_fb, rgb_display_get_fb_width,
    rgb_display_get_fb_height, rgb_display_get_framebuffer,
    bind, ret, gets, modify.
  destruct s; cbn in Hw, Hh, Hfb; subst. cbn.
  destruct ((x >=? 0) && (x <? w) && (y >=? 0) && (y <? h)) eqn:E; cbn.
  - apply (pixel_at_store w h); lia.
  - replace ((px =? x) && (py =? y)) with false by lia. reflexivity.
Qed.

(** The loop of [rgb_gfx_vline]: [n] stores down column [x] from row
    [y0]. *)
Lemma vline_loop_pixels (w h : Z) (a : list Z) (x y0 n c : Z) :
  w * h <= Z.of_nat (length a) ->
  0 <= x < w -> 0 <= y0 -> 0 <= n -> y0 + n <= h ->
  let a' := fst (for_range 0 n (fun (_ : Z) '(fb, p) =>
                   (store fb p c, p + w)) (a, y0 * w + x)) in
  forall px py, 0 <= px < w -> 0 <= py < h ->
    pixel_at w a' px py =
    if (px =? x) && (y0 <=? py) && (py <? y0 + n) then c
    else pixel_at w a px py.
Proof.
  intros Hlen Hx Hy0 Hn Hle a'. unfold a'.
  cut ((fun k (st : list Z * Z) =>
          snd st = (y0 + k) * w + x /\
          length (fst st) = length a /\
          forall px py, 0 <= px < w -> 0 <= py < h ->
            pixel_at w (fst st) px py =
            if (px =? x) && (y0 <=? py) && (py <? y0 + k) then c
            else pixel_at w a px py) n
         (for_range 0 n (fun (_ : Z) '(fb, p) => (store fb p c, p + w))
            (a, y0 * w + x))).
  { intros (_ & _ & Hp). exact Hp. }
  apply for_range_ind; [exact Hn | |].
  - cbn. split; [f_equal; lia |]. split; [reflexivity |].
    intros px py Hpx Hpy.
    replace ((px =? x) && (y0 <=? py) && (py <? y0 + 0)) with false by lia.
    reflexivity.
  - intros k [fb p] Hk (Hp & Hl & Hpix). cbn in Hp, Hl, Hpix. subst p. cbn.
    split; [lia |]. split; [rewrite length_store; exact Hl |].
    intros px py Hpx Hpy.
    rewrite (pixel_at_store w h) by lia.
    rewrite Hpix by assumption.
    destruct ((px =? x) && (py =? y0 + k)) eqn:E.
    + replace ((px =? x) && (y0 <=? py) && (py <? y0 + (k + 1)))
        with true by lia.
      reflexivity.
    + destruct ((px =? x) && (y0 <=? py) && (py <? y0 + k)) eqn:E1.
      * replace ((px =? x) && (y0 <=? py) && (py <? y0 + (k + 1)))
          with true by lia.
        reflexivity.
      * replace ((px =? x) && (y0 <=? py) && (py <? y0 + (k + 1)))
          with false by lia.
        reflexivity.
Qed.

Lemma vline_pixels (s : state) (w h : Z) (a : list Z) (x y len c px py : Z) :
  framebuffer_is s w h a -> 0 <= px < w -> 0 <= py < h ->
  h <= INT_MAX -> int_range y -> int_range len -> y + len <= INT_MAX ->
  pixel (snd (rgb_gfx_vline x y len c s)) px py =
  if (px =? x) && (y <=? py) && (py <? y + len) then to_uint8 c
  else pixel s px py.
Proof.
  intros (Hw & Hh & Hfb & Hlen) Hpx Hpy Hhi Hyi Hli Hsum.
  unfold int_range, INT_MIN, INT_MAX in *.
  unfold pixel, rgb_gfx_vline, get_fb, write_fb, rgb_display_get_fb_width,
    rgb_display_get_fb_height, rgb_display_get_framebuffer,
    bind, ret, gets, modify.
  destruct s; cbn in Hw, Hh, Hfb; subst. cbn.
  destruct ((x <? 0) || (x >=? w) || (len <=? 0)) eqn:E0; cbn.
  { replace ((px =? x) && (y <=? py) && (py <? y + len)) with false by lia.
    reflexivity. }
  destruct (y <? 0) eqn:Ey; cbn; int_small;
    repeat (case_inner; cbn);
    try (rewrite (vline_loop_pixels w h) by lia);
    repeat match goal with
    | |- context [if ?b then _ else _] => destruct b eqn:?
    end; try reflexivity; lia.
Qed.

Lemma rect_pixels (s : state) (w h : Z) (a : list Z)
    (x y rw rh c px py : Z) :
  framebuffer_is s w h a -> 0 <= px < w -> 0 <= py < h ->
  w <= INT_MAX -> h <= INT_MAX ->
  int_range x -> int_range y -> int_range rw -> int_range rh ->
  x + rw <= INT_MAX -> y + rh <= INT_MAX ->
  pixel (snd (rgb_gfx_rect x y rw rh c s)) px py =
  if (x <=? px) && (px <? x + rw) && (y <=? py) && (py <? y + rh)
     && ((px =? x) || (px =? x + rw - 1) || (py =? y) || (py =? y + rh - 1))
  then to_uint8 c else pixel s px py.
Proof.
  intros Hfb Hpx Hpy Hwi Hhi Hxi Hyi Hrwi Hrhi Hsx Hsy. unfold rgb_gfx_rect.
  destruct ((rw <=? 0) || (rh <=? 0)) eqn:E0.
  { cbn.
    replace ((x <=? px) && (px <? x + rw) && (y <=? py) && (py <? y + rh)
             && ((px =? x) || (px =? x + rw - 1) || (py =? y)
                 || (py =? y + rh - 1))) with false by lia.
    reflexivity. }
  assert (Hr : int_range x /\ int_range rw) by (split; assumption).
  unfold int_range, INT_MIN, INT_MAX in Hxi, Hyi, Hrwi, Hrhi, Hsx, Hsy.
  int_small.
  rewrite !snd_seq.
  set (s1 := snd (rgb_gfx_hline x y rw c s)).
  set (s2 := snd (rgb_gfx_hline x (y + rh - 1) rw c s1)).
  destruct (framebuffer_write_is s s1 w h a (hline_frame _ _ _ _ _) Hfb)
    as [a1 Hfb1].
  destruct (framebuffer_write_is s1 s2 w h a1 (hline_frame _ _ _ _ _) Hfb1)
    as [a2 Hfb2].
  destruct Hr as [Hxr Hrwr].
  assert (H2 : pixel s2 px py =
               if ((py =? y) || (py =? y + rh - 1))
                  && (x <=? px) && (px <? x + rw)
               then to_uint8 c else pixel s px py).
  { unfold s2.
    rewrite (hline_pixels s1 w h a1)
      by first [assumption | unfold INT_MAX; lia].
    unfold s1.
    rewrite (hline_pixels s w h a)
      by first [assumption | unfold INT_MAX; lia].
    repeat match goal with
    | |- context [if ?b then _ else _] => destruct b eqn:?
    end; try reflexivity; lia. }
  destruct (rh >? 2) eqn:E2.
  - rewrite snd_seq.
    set (s3 := snd (rgb_gfx_vline x (y + 1) (rh - 2) c s2)).
    destruct (framebuffer_write_is s2 s3 w h a2 (vline_frame _ _ _ _ _) Hfb2)
      as [a3 Hfb3].
    rewrite (vline_pixels s3 w h a3)
      by first [assumption | unfold int_range, INT_MIN, INT_MAX; lia].
    unfold s3.
    rewrite (vline_pixels s2 w h a2)
      by first [assumption | unfold int_range, INT_MIN, INT_MAX; lia].
    rewrite H2.
    repeat match goal with
    | |- context [if ?b then _ else _] => destruct b eqn:?
    end; try reflexivity; lia.
  - cbn. rewrite H2.
    repeat match goal with
    | |- context [if ?b then _ else _] => destruct b eqn:?
    end; try reflexivity; lia.
Qed.

(** X13.  In a graphics session [rgb_gfx_clear] leaves the low byte of
    the color in every pixel, and, the dimensions being [int] values, is
    the same as filling the rectangle [(0, 0, width, height)] with
    [rgb_gfx_rectfill]. *)
Theorem clear_fills_every_pixel (s : state) (w h c : Z) :
  graphics_session s w h ->
  (forall px py, 0 <= px < w -> 0 <= py < h ->
     pixel (snd (rgb_gfx_clear c s)) px py = c mod 256) /\
  (int_range w -> int_range h ->
   snd (rgb_gfx_clear c s) = snd (rgb_gfx_rectfill 0 0 w h c s)).
Proof.
  intros Hs. destruct (graphics_session_framebuffer s w h Hs) as [a Ha].
  destruct Hs as (Hw & Hh & Hwp & Hhp & _).
  split.
  { intros px py Hpx Hpy. exact (clear_pixels s w h a c px py Ha Hpx Hpy). }
  intros Hwi Hhi.
  set (s1 := snd (rgb_gfx_clear c s)).
  set (s2 := snd (rgb_gfx_rectfill 0 0 w h c s)).
  assert (H1 : forall px py, 0 <= px < w -> 0 <= py < h ->
             pixel s1 px py = to_uint8 c).
  { intros px py Hpx Hpy. exact (clear_pixels s w h a c px py Ha Hpx Hpy). }
  assert (H2 : forall px py, 0 <= px < w -> 0 <= py < h ->
             pixel s2 px py = to_uint8 c).
  { intros px py Hpx Hpy. unfold s2.
    rewrite (rectfill_pixels s w h a)
      by first [assumption | unfold int_range, INT_MIN, INT_MAX in *; lia].
    replace ((0 <=? px) && (px <? 0 + w) && (0 <=? py) && (py <? 0 + h))
      with true by lia.
    reflexivity. }
  destruct (clear_frame c s) as [E1 M1].
  destruct (rectfill_frame 0 0 w h c s) as [E2 M2].
  fold s1 in E1, M1. fold s2 in E2, M2.
  destruct Ha as (Hw' & Hh' & Hfb & Hlen).
  rewrite Hfb in M1, M2.
  destruct M1 as (a1 & Hfb1 & Hl1). destruct M2 as (a2 & Hfb2 & Hl2).
  assert (Hw1 : s_gfx_width s1 = w) by (rewrite E1; exact Hw).
  assert (Hw2 : s_gfx_width s2 = w) by (rewrite E2; exact Hw).
  unfold pixel in H1, H2. rewrite Hfb1, Hw1 in H1. rewrite Hfb2, Hw2 in H2.
  rewrite E1, E2, Hfb1, Hfb2. do 2 f_equal.
  apply (load_ext 0); [congruence |].
  intros i Hi. rewrite Hl1, Hlen in Hi.
  destruct (in_area_index w h i Hi Hwp) as (px & py & Hpx & Hpy & ->).
  transitivity (to_uint8 c); [apply H1 | symmetry; apply H2]; assumption.
Qed.

(** X14.  In a graphics session, after [rgb_gfx_pixel (x, y, color)] the
    pixel [(x, y)] holds the low byte of the color and every other pixel
    what it held; with [(x, y)] outside the framebuffer no pixel
    changes. *)
Theorem pixel_write_read (s : state) (w h x y c px py : Z) :
  graphics_session s w h -> 0 <= px < w -> 0 <= py < h ->
  pixel (snd (rgb_gfx_pixel x y c s)) px py =
  if (px =? x) && (py =? y) then c mod 256 else pixel s px py.
Proof.
  intros Hs Hpx Hpy.
  destruct (graphics_session_framebuffer s w h Hs) as [a Ha].
  exact (pixel_pixels s w h a x y c px py Ha Hpx Hpy).
Qed.

(** X15.  In a graphics session, for [int] arguments:
    [rgb_gfx_hline (x, y, len, color)] with [x + len] not above [INT_MAX]
    paints exactly the pixels of row [y] with column in [[x, x + len)],
    and [rgb_gfx_vline (x, y, len, color)] with [y + len] not above
    [INT_MAX] exactly those of column [x] with row in [[y, y + len)], as
    far as they lie inside the framebuffer; every other pixel keeps its
    value. *)
Theorem lines_paint_clipped_segments (s : state) (w h x y len c px py : Z) :
  graphics_session s w h -> 0 <= px < w -> 0 <= py < h ->
  int_range w -> int_range h ->
  int_range x -> int_range y -> int_range len ->
  (x + len <= INT_MAX ->
   pixel (snd (rgb_gfx_hline x y len c s)) px py =
   if (py =? y) && (x <=? px) && (px <? x + len) then c mod 256
   else pixel s px py) /\
  (y + len <= INT_MAX ->
   pixel (snd (rgb_gfx_vline x y len c s)) px py =
   if (px =? x) && (y <=? py) && (py <? y + len) then c mod 256
   else pixel s px py).
Proof.
  intros Hs Hpx Hpy [_ Hwi] [_ Hhi] Hxi Hyi Hli.
  destruct (graphics_session_framebuffer s w h Hs) as [a Ha].
  split; intros Hsum.
  - exact (hline_pixels s w h a x y len c px py Ha Hpx Hpy Hwi Hxi Hli Hsum).
  - exact (vline_pixels s w h a x y len c px py Ha Hpx Hpy Hhi Hyi Hli Hsum).
Qed.

(** X16.  In a graphics session, for [int] arguments with [x + w] and
    [y + h] not above [INT_MAX], [rgb_gfx_rect (x, y, w, h, color)]
    paints exactly the border of the rectangle, the pixels of
    [[x, x + w) x [y, y + h)] on its first or last column or row, as far
    as they lie inside the framebuffer; the interior and everything
    outside keep their values. *)
Theorem rect_paints_border (s : state) (w h x y rw rh c px py : Z) :
  graphics_session s w h -> 0 <= px < w -> 0 <= py < h ->
  int_range w -> int_range h ->
  int_range x -> int_range y -> int_range rw -> int_range rh ->
  x + rw <= INT_MAX -> y + rh <= INT_MAX ->
  pixel (snd (rgb_gfx_rect x y rw rh c s)) px py =
  if (x <=? px) && (px <? x + rw) && (y <=? py) && (py <? y + rh)
     && ((px =? x) || (px =? x + rw - 1) || (py =? y) || (py =? y + rh - 1))
  then c mod 256 else pixel s px py.
Proof.
  intros Hs Hpx Hpy [_ Hwi] [_ Hhi] Hxi Hyi Hrwi Hrhi Hsx Hsy.
  destruct (graphics_session_framebuffer s w h Hs) as [a Ha].
  exact (rect_pixels s w h a x y rw rh c px py Ha Hpx Hpy Hwi Hhi
           Hxi Hyi Hrwi Hrhi Hsx Hsy).
Qed.

(** X17.  In a graphics session, for [int] arguments with [x + w] and
    [y + h] not above [INT_MAX], [rgb_gfx_rectfill (x, y, w, h, color)]
    paints exactly the pixels of [[x, x + w) x [y, y + h)] that lie inside
    the framebuffer, and filling twice is filling once. *)
Theorem rectfill_paints_intersection (s : state) (w h x y rw rh c px py : Z) :
  graphics_session s w h -> 0 <= px < w -> 0 <= py < h ->
  int_range w -> int_range h ->
  int_range x -> int_range y -> int_range rw -> int_range rh ->
  x + rw <= INT_MAX -> y + rh <= INT_MAX ->
  let s1 := snd (rgb_gfx_rectfill x y rw rh c s) in
  pixel s1 px py =
  (if (x <=? px) && (px <? x + rw) && (y <=? py) && (py <? y + rh)
   then c mod 256 else pixel s px py) /\
  pixel (snd (rgb_gfx_rectfill x y rw rh c s1)) px py = pixel s1 px py.
Proof.
  intros Hs Hpx Hpy [_ Hwi] [_ Hhi] Hxi Hyi Hrwi Hrhi Hsx Hsy s1.
  destruct (graphics_session_framebuffer s w h Hs) as [a Ha].
  destruct (framebuffer_write_is s s1 w h a (rectfill_frame _ _ _ _ _ _) Ha)
    as [a1 Ha1].
  rewrite (rectfill_pixels s1 w h a1) by assumption.
  unfold s1. rewrite (rectfill_pixels s w h a) by assumption.
  split; [reflexivity |].
  destruct ((x <=? px) && (px <? x + rw) && (y <=? py) && (py <? y + rh));
    reflexivity.
Qed.

(** X18.  [rgb_gfx_blit] is [rgb_gfx_blit_flip] with both flips off, and
    a null sprite or a non-positive sprite size changes nothing.  In a
    graphics session, a pixel outside the sprite's rectangle keeps its
    value; inside it, the pixel at offset [(dx, dy)] receives the sprite
    byte at [(dx, dy)], read from column [w - 1 - dx] with [flip_x] and
    from row [h - 1 - dy] with [flip_y]; with a negative
    [transparent_color] every byte is copied. *)
Theorem blit_copies_sprite (s : state) (data : option (list Z))
    (x y sw sh stride t : Z) (fx fy : bool) :
  rgb_gfx_blit data x y sw sh stride t s =
  rgb_gfx_blit_flip data x y sw sh stride t false false s /\
  (data = None \/ sw <= 0 \/ sh <= 0 ->
   snd (rgb_gfx_blit_flip data x y sw sh stride t fx fy s) = s) /\
  forall w h d px py,
    graphics_session s w h -> data = Some d ->
    0 <= px < w -> 0 <= py < h ->
    let s' := snd (rgb_gfx_blit_flip data x y sw sh stride t fx fy s) in
    let inside :=
      (x <=? px) && (px <? x + sw) && (y <=? py) && (py <? y + sh) in
    let v := load 0 d ((if fy then sh - 1 - (py - y) else py - y) * stride
                       + (if fx then sw - 1 - (px - x) else px - x)) in
    (inside = false -> pixel s' px py = pixel s px py) /\
    (inside = true -> t < 0 -> pixel s' px py = v) /\
    (inside = true -> 0 <= t ->
     pixel s' px py = if v =? t mod 256 then pixel s px py else v).
Proof.
  split; [| split].
  - unfold rgb_gfx_blit, rgb_gfx_blit_flip, bind.
    destruct (get_fb s) as [[[fb w] h] s0].
    destruct fb as [fb|]; [| reflexivity].
    destruct data as [d|]; [| reflexivity].
    rewrite blit_loops_as_flip. reflexivity.
  - intros Hd.
    unfold rgb_gfx_blit_flip, get_fb, write_fb, rgb_display_get_fb_width,
      rgb_display_get_fb_height, rgb_display_get_framebuffer,
      bind, ret, gets, modify.
    cbn.
    destruct (s_graphics_framebuffer s) as [fb|]; [| reflexivity].
    destruct data as [d|]; [| reflexivity].
    replace ((sw <=? 0) || (sh <=? 0)) with true; [reflexivity |].
    destruct Hd as [Hd | Hd]; [discriminate | lia].
  - intros w h d px py Hs -> Hpx Hpy s' inside v.
    destruct (graphics_session_framebuffer s w h Hs) as [a Ha].
    unfold s'. rewrite (blit_flip_pixels s w h a) by assumption.
    fold inside. unfold sprite_byte, blit_result. fold v.
    split; [intros ->; reflexivity |].
    split.
    + intros -> Ht. replace (t <? 0) with true by lia. reflexivity.
    + intros -> Ht. replace (t <? 0) with false by lia. cbn.
      destruct (v =? t mod 256); reflexivity.
Qed.

End PaintedExtra.

(** ** Scanline synthesis: both graphics variants, the black fallback *)

Lemma put3_spec (c : Z) (buf : list Z) (dest : Z) :
  0 <= dest -> dest + 3 <= Z.of_nat (length buf) ->
  snd (put3 c (buf, dest)) = dest + 3 /\
  length (fst (put3 c (buf, dest))) = length buf /\
  forall j, load 0 (fst (put3 c (buf, dest))) j =
            if (dest <=? j) && (j <? dest + 3) then c else load 0 buf j.
Proof.
  intros Hd Hlen. unfold put3. cbn.
  split; [lia |]. split; [rewrite !length_store; reflexivity |].
  intros j.
  destruct ((dest <=? j) && (j <? dest + 3)) eqn:E.
  - assert (Hj : j = dest \/ j = dest + 1 \/ j = dest + 1 + 1) by lia.
    destruct Hj as [-> | [-> | ->]];
      repeat first
        [ rewrite load_store_eq by (rewrite ?length_store; lia)
        | rewrite load_store_ne by lia ];
      reflexivity.
  - rewrite !load_store_ne by lia. reflexivity.
Qed.

(** The 3x loop over the pixels of one source row. *)
Lemma scale3_row (pal fb buf : list Z) (w src_row dest0 : Z) :
  0 <= dest0 -> 0 <= w -> dest0 + 3 * w <= Z.of_nat (length buf) ->
  let out :=
    fst (for_range 0 w (fun x bd =>
           let color := load 0 pal (load 0 fb (src_row + x)) in
           put3 color bd) (buf, dest0)) in
  length out = length buf /\
  forall j, load 0 out j =
            if (dest0 <=? j) && (j <? dest0 + 3 * w)
            then load 0 pal (load 0 fb (src_row + (j - dest0) / 3))
            else load 0 buf j.
Proof.
  intros Hd Hw Hlen out. unfold out.
  cut ((fun k (bd : list Z * Z) =>
          snd bd = dest0 + 3 * k /\
          length (fst bd) = length buf /\
          forall j, load 0 (fst bd) j =
                    if (dest0 <=? j) && (j <? dest0 + 3 * k)
                    then load 0 pal (load 0 fb (src_row + (j - dest0) / 3))
                    else load 0 buf j) w
         (for_range 0 w
            (fun x bd => put3 (load 0 pal (load 0 fb (src_row + x))) bd)
            (buf, dest0))).
  { intros (_ & Hl & Hp). split; assumption. }
  apply for_range_ind; [exact Hw | |].
  - cbn. split; [lia |]. split; [reflexivity |]. intros j.
    replace ((dest0 <=? j) && (j <? dest0 + 3 * 0)) with false by lia.
    reflexivity.
  - intros k [b d] Hk (Hd' & Hl & Hpix). cbn in Hd', Hl, Hpix. subst d.
    destruct (put3_spec (load 0 pal (load 0 fb (src_row + k))) b
                (dest0 + 3 * k)) as (Hs & Hl' & Hp); [lia | lia |].
    split; [rewrite Hs; lia |]. split; [rewrite Hl'; exact Hl |].
    intros j. rewrite Hp, Hpix.
    destruct ((dest0 + 3 * k <=? j) && (j <? dest0 + 3 * k + 3)) eqn:E.
    + replace ((dest0 <=? j) && (j <? dest0 + 3 * (k + 1))) with true by lia.
      replace ((j - dest0) / 3) with k; [reflexivity |].
      apply (Z.div_unique (j - dest0) 3 k (j - dest0 - 3 * k)); lia.
    + destruct ((dest0 <=? j) && (j <? dest0 + 3 * k)) eqn:E1.
      * replace ((dest0 <=? j) && (j <? dest0 + 3 * (k + 1))) with true by lia.
        reflexivity.
      * replace ((dest0 <=? j) && (j <? dest0 + 3 * (k + 1))) with false
          by lia.
        reflexivity.
Qed.

(** One destination line, for either upscale factor. *)
Lemma graphics_line_scaled (fb pal buf : list Z)
    (w h sc margin y_start line : Z) :
  sc = 3 \/ sc = 4 ->
  0 <= w -> 0 <= margin -> margin + sc * w <= SCREEN_WIDTH ->
  0 <= line -> (line + 1) * SCREEN_WIDTH <= Z.of_nat (length buf) ->
  let out := graphics_line fb pal w h sc margin y_start line buf in
  let src_y := (y_start + line) ÷ sc in
  length out = length buf /\
  forall j, load 0 out j =
            if (src_y <? h) && (line * SCREEN_WIDTH + margin <=? j)
               && (j <? line * SCREEN_WIDTH + margin + sc * w)
            then load 0 pal
                   (load 0 fb (src_y * w
                               + (j - (line * SCREEN_WIDTH + margin)) / sc))
            else load 0 buf j.
Proof.
  intros [-> | ->] Hw Hm Hfit Hline Hlen;
    [| apply graphics_line_scale4; assumption].
  intros out src_y. unfold out, graphics_line.
  fold src_y. unfold SCREEN_WIDTH in *.
  destruct (src_y >=? h) eqn:Eh.
  { split; [reflexivity |]. intros j.
    replace (src_y <? h) with false by lia. reflexivity. }
  change (3 =? 4) with false. cbn match.
  destruct (scale3_row pal fb buf w (src_y * w) (line * 1024 + margin))
    as [Hl Hp]; [lia | lia | lia |].
  split; [exact Hl |]. intros j. rewrite Hp.
  replace (src_y <? h) with true by lia. reflexivity.
Qed.

(** A band of destination lines, for either upscale factor: every pixel
    of line [line], column [col], and the pixels past the band. *)
Lemma graphics_band_scaled (fb pal buf : list Z)
    (w h sc margin y_start n : Z) :
  sc = 3 \/ sc = 4 ->
  0 <= w -> 0 <= margin -> margin + sc * w <= SCREEN_WIDTH ->
  0 <= n -> n * SCREEN_WIDTH <= Z.of_nat (length buf) ->
  let out :=
    for_range 0 n (graphics_line fb pal w h sc margin y_start) buf in
  length out = length buf /\
  (forall line col, 0 <= line < n -> 0 <= col < SCREEN_WIDTH ->
     load 0 out (line * SCREEN_WIDTH + col) =
     if ((y_start + line) ÷ sc <? h) && (margin <=? col)
        && (col <? margin + sc * w)
     then load 0 pal
            (load 0 fb (((y_start + line) ÷ sc) * w + (col - margin) / sc))
     else load 0 buf (line * SCREEN_WIDTH + col)) /\
  (forall j, n * SCREEN_WIDTH <= j -> load 0 out j = load 0 buf j).
Proof.
  intros Hsc Hw Hm Hfit Hn Hlen out. unfold out.
  cut ((fun k b =>
          length b = length buf /\
          (forall line col, 0 <= line < n -> 0 <= col < SCREEN_WIDTH ->
             load 0 b (line * SCREEN_WIDTH + col) =
             if (line <? k) && ((y_start + line) ÷ sc <? h)
                && (margin <=? col) && (col <? margin + sc * w)
             then load 0 pal
                    (load 0 fb
                       (((y_start + line) ÷ sc) * w + (col - margin) / sc))
             else load 0 buf (line * SCREEN_WIDTH + col)) /\
          (forall j, k * SCREEN_WIDTH <= j -> load 0 b j = load 0 buf j)) n
         (for_range 0 n (graphics_line fb pal w h sc margin y_start) buf)).
  { intros (Hl & Hpix & Hout). split; [exact Hl |]. split; [| exact Hout].
    intros line col Hline Hc. rewrite Hpix by assumption.
    replace (line <? n) with true by lia. reflexivity. }
  apply for_range_ind; [exact Hn | |].
  - split; [reflexivity |]. split; [| reflexivity].
    intros line col Hl Hc.
    replace (line <? 0) with false by lia. reflexivity.
  - intros k b Hk (Hlb & Hpix & Hout).
    destruct (graphics_line_scaled fb pal b w h sc margin y_start k)
      as [Hl' Hp]; try assumption; try lia.
    { rewrite Hlb. unfold SCREEN_WIDTH in *. lia. }
    split; [rewrite Hl'; exact Hlb |]. split.
    + intros line col Hl Hc. rewrite Hp, Hpix by assumption.
      unfold SCREEN_WIDTH in *.
      destruct (decide (line = k)) as [-> | Hne].
      * replace (k <? k) with false by lia.
        replace (k <? k + 1) with true by lia. cbn.
        replace (k * 1024 + margin <=? k * 1024 + col) with (margin <=? col)
          by lia.
        replace (k * 1024 + col <? k * 1024 + margin + sc * w)
          with (col <? margin + sc * w) by lia.
        replace (k * 1024 + col - (k * 1024 + margin)) with (col - margin)
          by lia.
        reflexivity.
      * replace (line <? k + 1) with (line <? k) by lia.
        destruct (Z.lt_ge_cases line k) as [Hlt | Hge].
        -- replace (k * 1024 + margin <=? line * 1024 + col) with false
             by lia.
           rewrite andb_false_r. reflexivity.
        -- replace (line * 1024 + col <? k * 1024 + margin + sc * w)
             with false by lia.
           rewrite andb_false_r. reflexivity.
    + intros j Hj. rewrite Hp. unfold SCREEN_WIDTH in *.
      replace (j <? k * 1024 + margin + sc * w) with false by lia.
      rewrite andb_false_r. apply Hout. lia.
Qed.

(** [memset (buf, 0, len_bytes)] on the 16-bit pixels of the bounce
    buffer. *)
Lemma load_clear_bounce (buf : list Z) (len_bytes j : Z) :
  0 <= j ->
  load 0 (clear_bounce buf len_bytes) j =
  if j <? len_bytes ÷ 2 then 0
  else if (j =? len_bytes ÷ 2) && (Z.rem len_bytes 2 =? 1)
       then Z.land (load 0 buf j) 65280
       else load 0 buf j.
Proof.
  intros Hj. unfold clear_bounce.
  assert (Hm : load 0 (memset buf 0 0 (len_bytes ÷ 2)) j =
               if j <? len_bytes ÷ 2 then 0 else load 0 buf j).
  { rewrite load_memset. change (to_uint8 0) with 0.
    destruct (j <? len_bytes ÷ 2) eqn:E1.
    - destruct (j <? Z.of_nat (length buf)) eqn:E2.
      + replace ((0 <=? 0) && (0 <=? j) && (j <? 0 + len_bytes ÷ 2))
          with true by lia.
        reflexivity.
      + rewrite andb_false_r. apply load_out_of_range. lia.
    - replace ((0 <=? 0) && (0 <=? j) && (j <? 0 + len_bytes ÷ 2))
        with false by lia.
      reflexivity. }
  destruct (Z.rem len_bytes 2 =? 1) eqn:Er; [| rewrite andb_false_r; exact Hm].
  rewrite andb_true_r.
  destruct (j =? len_bytes ÷ 2) eqn:Ej.
  - assert (j = len_bytes ÷ 2) as <- by lia.
    replace (j <? j) with false by lia.
    destruct (j <? Z.of_nat (length buf)) eqn:E2.
    + rewrite load_store_eq by (rewrite length_memset; lia).
      rewrite load_memset.
      replace ((0 <=? 0) && (0 <=? j) && (j <? 0 + j)) with false by lia.
      reflexivity.
    + rewrite store_out_of_range by (rewrite length_memset; lia).
      rewrite (load_out_of_range 0 (memset _ _ _ _) j)
        by (rewrite length_memset; lia).
      rewrite (load_out_of_range 0 buf j) by lia. reflexivity.
  - rewrite load_store_ne by lia. exact Hm.
Qed.

Section ScanlineExtra.
Context {P : Platform}.

(** X19.  [on_bounce_empty] returns false and changes no static but the
    frame counter, which it increments, wrapping at 2^32, exactly when the
    call starts at scanline 0.  With no framebuffer to show and no text
    buffer set, the buffer is left as the initial [memset] made it: the
    pixels below [len_bytes / 2] are black. *)
Theorem bounce_fallback_and_frame_count (s : state) (buf : list Z)
    (pos_px len_bytes : Z) :
  let r := on_bounce_empty buf pos_px len_bytes s in
  snd (fst r) = false /\
  snd r = (if pos_px ÷ SCREEN_WIDTH =? 0
           then set_s_frame_count ((s_frame_count s + 1) mod 4294967296) s
           else s) /\
  (~ is_graphics_mode (s_screen_mode s) \/ s_graphics_framebuffer s = None ->
   s_display_buffer s = None ->
   len_bytes <= 2 * Z.of_nat (length buf) ->
   forall j, 0 <= j ->
     load 0 (fst (fst r)) j =
     if j <? len_bytes ÷ 2 then 0
     else if (j =? len_bytes ÷ 2) && (Z.rem len_bytes 2 =? 1)
          then Z.land (load 0 buf j) 65280
          else load 0 buf j).
Proof.
  intros r.
  assert (Hr : exists out,
             r = (out, false,
                  if pos_px ÷ SCREEN_WIDTH =? 0
                  then set_s_frame_count
                         ((s_frame_count s + 1) mod 4294967296) s
                  else s)).
  { unfold r, on_bounce_empty, bind, ret, gets, modify.
    destruct (pos_px ÷ SCREEN_WIDTH =? 0); cbn;
      repeat case_inner; eexists; reflexivity. }
  destruct Hr as [out Hr].
  split; [rewrite Hr; reflexivity |]. split; [rewrite Hr; reflexivity |].
  intros Hg Hd Hfit j Hj.
  assert (Ho : fst (fst r) = clear_bounce buf len_bytes).
  { unfold r, on_bounce_empty, bind, ret, gets, modify.
    assert (Hsel : (if (s_screen_mode s =? SM_VGA13H)
                       || (s_screen_mode s =? SM_150P)
                    then s_graphics_framebuffer s else None) = None).
    { destruct Hg as [Hg | ->].
      - unfold is_graphics_mode in Hg.
        replace ((s_screen_mode s =? SM_VGA13H)
                 || (s_screen_mode s =? SM_150P)) with false by lia.
        reflexivity.
      - destruct ((s_screen_mode s =? SM_VGA13H)
                  || (s_screen_mode s =? SM_150P)); reflexivity. }
    destruct (pos_px ÷ SCREEN_WIDTH =? 0); cbn; rewrite Hsel, Hd;
      reflexivity. }
  rewrite Ho. apply load_clear_bounce, Hj.
Qed.

(** X20.  In every reachable state in a graphics mode, a call for [n]
    whole scanlines from scanline [y_start] leaves in each pixel of the
    band the palette color of the framebuffer pixel it upscales: column
    [(col - margin) / scale] of row [y / scale], for the scale and margin
    of the framebuffer's variant (3 and 32, or 4 and 0).  The margin
    columns and the scanlines past the panel height are black, and the
    buffer past the band is untouched. *)
Theorem bounce_graphics_upscales (s : state) (buf : list Z) (y_start n : Z) :
  reachable s -> is_graphics_mode (s_screen_mode s) ->
  0 <= y_start -> 0 <= n -> n * SCREEN_WIDTH <= Z.of_nat (length buf) ->
  let out := fst (fst (on_bounce_empty buf (y_start * SCREEN_WIDTH)
                         (n * SCREEN_WIDTH * 2) s)) in
  let sc := s_gfx_scale s in
  let margin := s_gfx_margin_x s in
  length out = length buf /\
  (forall line col, 0 <= line < n -> 0 <= col < SCREEN_WIDTH ->
     let y := y_start + line in
     load 0 out (line * SCREEN_WIDTH + col) =
     if (y <? SCREEN_HEIGHT) && (margin <=? col)
        && (col <? margin + sc * s_gfx_width s)
     then load 0 (s_vga_palette s) (pixel s ((col - margin) / sc) (y / sc))
     else 0) /\
  (forall j, n * SCREEN_WIDTH <= j -> load 0 out j = load 0 buf j).
Proof.
  intros Hr Hg Hy Hn Hlen out sc margin.
  assert (Ht : framebuffer_tracks_mode s).
  { destruct Hr as (w & ops & ->). apply run_tracks, startup_tracks. }
  destruct Ht as [_ Ht]. apply Ht in Hg as Hfb.
  pose proof (reachable_variant s Hr Hfb) as Hv.
  destruct (s_graphics_framebuffer s) as [a|] eqn:Ea; [| congruence].
  assert (Hout : out = for_range 0 n
                   (graphics_line a (s_vga_palette s) (s_gfx_width s)
                      (s_gfx_height s) sc margin y_start)
                   (memset buf 0 0 (n * SCREEN_WIDTH))).
  { unfold out, on_bounce_empty, bind, ret, gets, modify, clear_bounce.
    unfold SCREEN_WIDTH.
    replace (n * 1024 * 2 ÷ 2) with (n * 1024)
      by (symmetry; apply Z.quot_mul; lia).
    replace (n * 1024 ÷ 1024) with n by (symmetry; apply Z.quot_mul; lia).
    replace (y_start * 1024 ÷ 1024) with y_start
      by (symmetry; apply Z.quot_mul; lia).
    replace (Z.rem (n * 1024 * 2) 2 =? 1) with false
      by (rewrite Z.rem_mul by lia; reflexivity).
    unfold is_graphics_mode in Hg.
    destruct (y_start =? 0); cbn; rewrite Ea;
      replace ((s_screen_mode s =? SM_VGA13H) || (s_screen_mode s =? SM_150P))
        with true by lia;
      reflexivity. }
  assert (Hgeo : (sc = 3 \/ sc = 4) /\ 0 <= s_gfx_width s /\ 0 <= margin /\
                 margin + sc * s_gfx_width s <= SCREEN_WIDTH /\
                 sc * s_gfx_height s = SCREEN_HEIGHT).
  { unfold sc, margin, SCREEN_WIDTH, SCREEN_HEIGHT.
    destruct (variant_cases s Hv) as [(_ & -> & -> & -> & ->)
                                     | (_ & -> & -> & -> & ->)]; lia. }
  destruct Hgeo as (Hsc & Hw & Hm & Hfit & Hh).
  destruct (graphics_band_scaled a (s_vga_palette s)
              (memset buf 0 0 (n * SCREEN_WIDTH))
              (s_gfx_width s) (s_gfx_height s) sc margin y_start n)
    as (Hl & Hpix & Hpast); try assumption.
  { rewrite length_memset. exact Hlen. }
  rewrite <- Hout in Hl, Hpix, Hpast. rewrite length_memset in Hl.
  split; [exact Hl |]. split.
  - intros line col Hline Hc y. rewrite Hpix by assumption.
    unfold SCREEN_WIDTH, SCREEN_HEIGHT in *.
    assert (Hq : (y_start + line) ÷ sc = y / sc)
      by (apply Z.quot_div_nonneg; unfold y; lia).
    rewrite Hq.
    assert (Hrow : (y / sc <? s_gfx_height s) = (y <? 600)).
    { destruct (y <? 600) eqn:E.
      - apply Z.ltb_lt. apply Z.div_lt_upper_bound; lia.
      - apply Z.ltb_ge. apply Z.div_le_lower_bound; lia. }
    rewrite Hrow.
    destruct ((y <? 600) && (margin <=? col)
              && (col <? margin + sc * s_gfx_width s)) eqn:E.
    + unfold pixel, pixel_at. rewrite Ea. reflexivity.
    + rewrite load_memset. change (to_uint8 0) with 0.
      destruct ((0 <=? 0) && (0 <=? line * 1024 + col)
                && (line * 1024 + col <? 0 + n * 1024)
                && (line * 1024 + col <? Z.of_nat (length buf))) eqn:E1;
        [reflexivity |].
      apply load_out_of_range. lia.
  - intros j Hj. rewrite Hpast by exact Hj. rewrite load_memset.
    unfold SCREEN_WIDTH in *.
    replace (j <? 0 + n * 1024) with false by lia.
    rewrite andb_false_r. reflexivity.
Qed.

End ScanlineExtra.

(** ** Scanline synthesis, text path *)

Lemma land_lxor_distr (a b c : Z) :
  Z.land (Z.lxor a b) c = Z.lxor (Z.land a c) (Z.land b c).
Proof.
  apply Z.bits_inj'. intros n Hn.
  rewrite Z.land_spec, !Z.lxor_spec, !Z.land_spec.
  destruct (Z.testbit a n), (Z.testbit b n), (Z.testbit c n); reflexivity.
Qed.

Lemma land_ones16_small (y : Z) : 0 <= y < 65536 -> Z.land y 65535 = y.
Proof.
  intros Hy. change 65535 with (Z.ones 16). rewrite Z.land_ones by lia.
  apply Z.mod_small. exact Hy.
Qed.

Lemma lxor_uint16 (a b : Z) :
  0 <= a < 65536 -> 0 <= b < 65536 -> 0 <= Z.lxor a b < 65536.
Proof.
  intros Ha Hb.
  assert (E : Z.land (Z.lxor a b) 65535 = Z.lxor a b).
  { rewrite land_lxor_distr, !land_ones16_small by assumption.
    reflexivity. }
  rewrite <- E. change 65535 with (Z.ones 16). rewrite Z.land_ones by lia.
  apply Z.mod_pos_bound. reflexivity.
Qed.

(** The halves of a word with a 16-bit color in both. *)
Lemma replicate_color_halves (c : Z) :
  0 <= c < 65536 ->
  Z.land (replicate_color c) 65535 = c /\
  Z.shiftr (replicate_color c) 16 = c.
Proof.
  intros Hc. unfold replicate_color.
  change 65535 with (Z.ones 16).
  rewrite Z.land_ones, Z.shiftr_div_pow2 by lia. change (2 ^ 16) with 65536.
  split.
  - rewrite Z.add_comm, Z.mod_add by lia. apply Z.mod_small. exact Hc.
  - rewrite Z.add_comm, Z.div_add by lia. rewrite Z.div_small by lia.
    reflexivity.
Qed.

(** The two pixels of a rendered word: the foreground color where the
    mask half is all ones, the background color where it is zero. *)
Lemma masked_word_halves (fg bg m : Z) :
  0 <= fg < 65536 -> 0 <= bg < 65536 ->
  let bg32 := replicate_color bg in
  let xor32 := Z.lxor (replicate_color fg) bg32 in
  let v := Z.lxor (Z.land xor32 m) bg32 in
  (m mod 65536 = 65535 -> Z.land v 65535 = fg) /\
  (m mod 65536 = 0 -> Z.land v 65535 = bg) /\
  (m / 65536 = 65535 -> Z.shiftr v 16 = fg) /\
  (m / 65536 = 0 -> Z.shiftr v 16 = bg) /\
  Z.land (Z.lxor bg32 xor32) 65535 = fg /\
  Z.shiftr (Z.lxor bg32 xor32) 16 = fg.
Proof.
  intros Hfg Hbg bg32 xor32 v.
  destruct (replicate_color_halves fg Hfg) as [Flo Fhi].
  destruct (replicate_color_halves bg Hbg) as [Blo Bhi].
  change (replicate_color bg) with bg32 in Blo, Bhi.
  pose proof (lxor_uint16 fg bg Hfg Hbg) as Hx.
  assert (Xlo : Z.land xor32 65535 = Z.lxor fg bg).
  { unfold xor32. rewrite land_lxor_distr, Flo, Blo. reflexivity. }
  assert (Xhi : Z.shiftr xor32 16 = Z.lxor fg bg).
  { unfold xor32. rewrite Z.shiftr_lxor, Fhi, Bhi. reflexivity. }
  assert (Vlo : Z.land v 65535 =
                Z.lxor (Z.land (Z.lxor fg bg) (m mod 65536)) bg).
  { unfold v. rewrite land_lxor_distr, Blo. f_equal.
    rewrite <- Xlo. change 65536 with (2 ^ 16).
    rewrite <- Z.land_ones by lia. change (Z.ones 16) with 65535.
    apply Z.bits_inj'. intros n Hn. rewrite !Z.land_spec.
    destruct (Z.testbit xor32 n), (Z.testbit m n), (Z.testbit 65535 n);
      reflexivity. }
  assert (Vhi : Z.shiftr v 16 =
                Z.lxor (Z.land (Z.lxor fg bg) (m / 65536)) bg).
  { unfold v. rewrite Z.shiftr_lxor, Z.shiftr_land, Xhi, Bhi.
    rewrite (Z.shiftr_div_pow2 m) by lia. reflexivity. }
  assert (Hcancel : Z.lxor (Z.lxor fg bg) bg = fg).
  { rewrite Z.lxor_assoc, Z.lxor_nilpotent. apply Z.lxor_0_r. }
  repeat split.
  - intros E. rewrite Vlo, E, land_ones16_small by exact Hx. exact Hcancel.
  - intros E. rewrite Vlo, E, Z.land_0_r. apply Z.lxor_0_l.
  - intros E. rewrite Vhi, E, land_ones16_small by exact Hx. exact Hcancel.
  - intros E. rewrite Vhi, E, Z.land_0_r. apply Z.lxor_0_l.
  - rewrite land_lxor_distr, Xlo, Blo.
    rewrite Z.lxor_comm. exact Hcancel.
  - rewrite Z.shiftr_lxor, Xhi, Bhi.
    rewrite Z.lxor_comm. exact Hcancel.
Qed.

Lemma lor_shiftl_add (x y n : Z) :
  0 <= n -> 0 <= x < 2 ^ n -> Z.lor x (Z.shiftl y n) = x + y * 2 ^ n.
Proof.
  intros Hn Hx. rewrite Z.shiftl_mul_pow2 by lia.
  assert (Hland : Z.land x (y * 2 ^ n) = 0).
  { apply Z.bits_inj'. intros k Hk.
    rewrite Z.land_spec, Z.bits_0.
    destruct (Z.lt_ge_cases k n) as [Hlt|Hge].
    - rewrite Z.mul_pow2_bits_low by lia. apply andb_false_r.
    - replace x with (x mod 2 ^ n) by (apply Z.mod_small; lia).
      rewrite Z.mod_pow2_bits_high by lia. reflexivity. }
  rewrite <- Z.lxor_lor, <- Z.add_nocarry_lxor by exact Hland. reflexivity.
Qed.

(** The four bytes of the 32-bit read of two cells. *)
Lemma cell_pair_bytes (cells : list lcd_cell_t) (i : Z) :
  let c0 := load (Cell 0 0) cells i in
  let c1 := load (Cell 0 0) cells (i + 1) in
  let d := cell_pair cells i in
  to_uint8 (Z.land d 255) = ch c0 mod 256 /\
  to_uint8 (Z.land (Z.shiftr d 8) 255) = attr c0 mod 256 /\
  to_uint8 (Z.land (Z.shiftr d 16) 255) = ch c1 mod 256 /\
  to_uint8 (Z.land (Z.shiftr d 24) 255) = attr c1 mod 256.
Proof.
  intros c0 c1 d. unfold d, cell_pair. fold c0 c1. unfold to_uint8.
  pose proof (Z.mod_pos_bound (ch c0) 256 ltac:(lia)) as H0.
  pose proof (Z.mod_pos_bound (attr c0) 256 ltac:(lia)) as H1.
  pose proof (Z.mod_pos_bound (ch c1) 256 ltac:(lia)) as H2.
  pose proof (Z.mod_pos_bound (attr c1) 256 ltac:(lia)) as H3.
  set (a0 := ch c0 mod 256) in *. set (a1 := attr c0 mod 256) in *.
  set (a2 := ch c1 mod 256) in *. set (a3 := attr c1 mod 256) in *.
  assert (E : Z.lor (Z.lor a0 (Z.shiftl a1 8))
                (Z.lor (Z.shiftl a2 16) (Z.shiftl a3 24))
              = a0 + a1 * 256 + (a2 + a3 * 256) * 65536).
  { replace (Z.shiftl a3 24) with (Z.shiftl (Z.shiftl a3 8) 16)
      by (rewrite Z.shiftl_shiftl by lia; reflexivity).
    rewrite <- Z.shiftl_lor.
    rewrite (lor_shiftl_add a0 a1 8) by (change (2 ^ 8) with 256; lia).
    rewrite (lor_shiftl_add a2 a3 8) by (change (2 ^ 8) with 256; lia).
    change (2 ^ 8) with 256.
    rewrite lor_shiftl_add by (change (2 ^ 16) with 65536; lia).
    reflexivity. }
  rewrite E. change 255 with (Z.ones 8).
  rewrite !Z.land_ones, !Z.shiftr_div_pow2 by lia.
  change (2 ^ 8) with 256. change (2 ^ 16) with 65536.
  change (2 ^ 24) with 16777216.
  rewrite !Z.mod_mod by lia.
  repeat split; Z.div_mod_to_equations; lia.
Qed.

Lemma font_bytes_load2 (font : list (list Z)) (c y : Z) :
  font_bytes font = true -> 0 <= load2 font c y <= 255.
Proof.
  intros Hf. unfold font_bytes in Hf. rewrite forallb_forall in Hf.
  unfold load2.
  assert (Hrow : forallb (fun b => (0 <=? b) && (b <=? 255)) (load [] font c)
                 = true).
  { unfold load. destruct (c <? 0); [reflexivity |].
    destruct (font !! Z.to_nat c) as [r|] eqn:Er; [| reflexivity].
    cbn. apply Hf. apply list_elem_of_In. eapply list_elem_of_lookup_2, Er. }
  rewrite forallb_forall in Hrow.
  revert Hrow. generalize (load [] font c). intros row Hrow.
  unfold load. destruct (y <? 0); [lia |].
  destruct (row !! Z.to_nat y) as [b|] eqn:Eb; [| cbn; lia].
  cbn.
  assert (Hin : In b row).
  { apply list_elem_of_In. eapply list_elem_of_lookup_2, Eb. }
  specialize (Hrow b Hin). lia.
Qed.

(** Four consecutive 32-bit stores: the eight pixels they leave. *)
Lemma store32_run (buf : list Z) (d : Z) (f : Z -> Z) :
  0 <= d -> 2 * d + 8 <= Z.of_nat (length buf) ->
  let out := store32 (store32 (store32 (store32 buf d (f 0))
                                 (d + 1) (f 1)) (d + 1 + 1) (f 2))
               (d + 1 + 1 + 1) (f 3) in
  length out = length buf /\
  forall j, load 0 out j =
            if (2 * d <=? j) && (j <? 2 * d + 8)
            then let k := j - 2 * d in
                 if k mod 2 =? 0 then Z.land (f (k / 2)) 65535
                 else Z.shiftr (f (k / 2)) 16
            else load 0 buf j.
Proof.
  intros Hd Hlen out. unfold out, store32.
  split; [rewrite !length_store; reflexivity |].
  intros j. cbn zeta.
  destruct ((2 * d <=? j) && (j <? 2 * d + 8)) eqn:E.
  - assert (Hk : exists k, j = 2 * d + k /\
                   (k = 0 \/ k = 1 \/ k = 2 \/ k = 3 \/ k = 4 \/ k = 5
                    \/ k = 6 \/ k = 7)).
    { exists (j - 2 * d). lia. }
    destruct Hk as (k & -> & Hk).
    replace (2 * d + k - 2 * d) with k by lia.
    replace (2 * (d + 1)) with (2 * d + 2) by lia.
    replace (2 * (d + 1 + 1)) with (2 * d + 4) by lia.
    replace (2 * (d + 1 + 1 + 1)) with (2 * d + 6) by lia.
    replace (2 * d + 2 + 1) with (2 * d + 3) by lia.
    replace (2 * d + 4 + 1) with (2 * d + 5) by lia.
    replace (2 * d + 6 + 1) with (2 * d + 7) by lia.
    destruct Hk as [-> | [-> | [-> | [-> | [-> | [-> | [-> | ->]]]]]]];
      cbn; rewrite ?Z.add_0_r;
      repeat first
        [ rewrite load_store_ne by lia
        | rewrite load_store_eq by (rewrite ?length_store; lia) ];
      reflexivity.
  - rewrite !load_store_ne by lia. reflexivity.
Qed.

Section TextPath.
Context {P : Platform}.

(** One cell on one scanline: its eight pixels. *)
Lemma render_cell_spec (s : state) (palette : list Z) (c : lcd_cell_t)
    (glyph_y : Z) (cursor : bool) (buf : list Z) (d : Z) :
  ATTR_LUT s = attr_lut_direct palette -> uint16_palette palette ->
  BYTE_MASKS s = byte_masks_image -> font_bytes (font_ram s) = true ->
  0 <= d -> 2 * d + 8 <= Z.of_nat (length buf) ->
  let r := render_cell s (ch c mod 256) (attr c mod 256) glyph_y cursor
             (buf, d) in
  snd r = d + 4 /\
  length (fst r) = length buf /\
  forall j, load 0 (fst r) j =
            if (2 * d <=? j) && (j <? 2 * d + 8)
            then cell_pixel (font_ram s) palette c glyph_y cursor (j - 2 * d)
            else load 0 buf j.
Proof.
  intros Hlut Hpal Hmasks Hfont Hd Hlen.
  pose proof (Z.mod_pos_bound (attr c) 256 ltac:(lia)) as Ha.
  set (a := attr c mod 256) in *.
  set (bg := load 0 palette (a / 16)).
  set (fg := load 0 palette (a mod 16)).
  assert (Hbg : 0 <= bg < 65536).
  { apply Hpal.
    split; [apply Z.div_pos; lia | apply Z.div_lt_upper_bound; lia]. }
  assert (Hfg : 0 <= fg < 65536)
    by (apply Hpal; apply Z.mod_pos_bound; lia).
  assert (H0 : load2 (ATTR_LUT s) a 0 = replicate_color bg).
  { unfold load2. rewrite Hlut. unfold attr_lut_direct.
    rewrite load_map_seqZ by lia. reflexivity. }
  assert (H1 : load2 (ATTR_LUT s) a 1 =
               Z.lxor (replicate_color fg) (replicate_color bg)).
  { unfold load2. rewrite Hlut. unfold attr_lut_direct.
    rewrite load_map_seqZ by lia. reflexivity. }
  pose proof (font_bytes_load2 (font_ram s) (ch c mod 256) glyph_y Hfont)
    as Hg.
  unfold cell_pixel. fold a bg fg.
  set (glyph := load2 (font_ram s) (ch c mod 256) glyph_y) in *.
  set (bg32 := replicate_color bg) in *.
  set (xor32 := Z.lxor (replicate_color fg) bg32) in *.
  (* the four words of the cell *)
  set (f := fun i => if glyph =? 0 then bg32
                     else Z.lxor (Z.land xor32
                                    (load2 (BYTE_MASKS s) glyph i)) bg32).
  set (b1 := store32 (store32 (store32 (store32 buf d (f 0))
                                 (d + 1) (f 1)) (d + 1 + 1) (f 2))
               (d + 1 + 1 + 1) (f 3)).
  destruct (store32_run buf d f Hd Hlen) as [Hl1 Hp1]. fold b1 in Hl1, Hp1.
  assert (Hhalf : forall k, 0 <= k < 8 ->
            (if k mod 2 =? 0 then Z.land (f (k / 2)) 65535
             else Z.shiftr (f (k / 2)) 16)
            = if Z.testbit glyph (7 - k) then fg else bg).
  { intros k Hk. unfold f.
    destruct (replicate_color_halves bg Hbg) as [Blo Bhi].
    destruct (masked_word_halves fg bg (load2 (BYTE_MASKS s) glyph (k / 2))
                Hfg Hbg) as (M1 & M2 & M3 & M4 & _).
    fold bg32 in Blo, Bhi, M1, M2, M3, M4. fold xor32 in M1, M2, M3, M4.
    destruct (glyph =? 0) eqn:Eg.
    - assert (glyph = 0) as -> by lia. rewrite Z.bits_0.
      destruct (k mod 2 =? 0); assumption.
    - destruct (byte_masks_image_pixels glyph k ltac:(lia) ltac:(lia))
        as (_ & _ & Hw).
      rewrite <- Hmasks in Hw. unfold word_pixel in Hw.
      destruct (k mod 2 =? 0);
        destruct (Z.testbit glyph (7 - k)); auto. }
  set (fc := fun _ : Z => Z.lxor bg32 xor32).
  assert (Hbase : render_cell s (ch c mod 256) a glyph_y cursor (buf, d) =
                  if cursor
                  then (store32 (store32 (store32 (store32 b1 d (fc 0))
                                            (d + 1) (fc 1))
                                   (d + 1 + 1) (fc 2))
                          (d + 1 + 1 + 1) (fc 3), d + 4)
                  else (b1, d + 4)).
  { unfold render_cell. fold glyph. rewrite H0, H1. fold bg32 xor32.
    unfold b1, f, fc, load2.
    destruct (glyph =? 0); cbn zeta;
      replace (d + 1 + 1 + 1 + 1 - 4) with d by lia;
      replace (d + 1 + 1 + 1 + 1 - 3) with (d + 1) by lia;
      replace (d + 1 + 1 + 1 + 1 - 2) with (d + 1 + 1) by lia;
      replace (d + 1 + 1 + 1 + 1 - 1) with (d + 1 + 1 + 1) by lia;
      replace (d + 1 + 1 + 1 + 1) with (d + 4) by lia;
      reflexivity. }
  cbn zeta. rewrite Hbase.
  destruct cursor; cbn [orb fst snd].
  - destruct (store32_run b1 d fc Hd ltac:(lia)) as [Hl2 Hp2].
    split; [reflexivity |]. split; [congruence |].
    intros j. rewrite Hp2. cbn zeta.
    destruct ((2 * d <=? j) && (j <? 2 * d + 8)) eqn:E.
    + unfold fc.
      destruct (masked_word_halves fg bg 0 Hfg Hbg) as (_ & _ & _ & _ & F1 & F2).
      fold bg32 xor32 in F1, F2.
      destruct ((j - 2 * d) mod 2 =? 0); assumption.
    + rewrite Hp1, E. reflexivity.
  - split; [reflexivity |]. split; [exact Hl1 |].
    intros j. rewrite Hp1. cbn zeta.
    destruct ((2 * d <=? j) && (j <? 2 * d + 8)) eqn:E; [| reflexivity].
    apply Hhalf. lia.
Qed.

(** One scanline of text: the 1024 pixels of its 128 cells. *)
Lemma text_line_spec (s : state) (palette : list Z) (cells : list lcd_cell_t)
    (buf : list Z) (ccol crow cb y_start line : Z) :
  ATTR_LUT s = attr_lut_direct palette -> uint16_palette palette ->
  BYTE_MASKS s = byte_masks_image -> font_bytes (font_ram s) = true ->
  0 <= y_start -> 0 <= line ->
  (line + 1) * SCREEN_WIDTH <= Z.of_nat (length buf) ->
  let y := y_start + line in
  let out := text_line s cells ccol crow cb y_start line buf in
  length out = length buf /\
  forall j, load 0 out j =
    if (y / 16 <? TEXT_ROWS) && (line * SCREEN_WIDTH <=? j)
       && (j <? line * SCREEN_WIDTH + SCREEN_WIDTH)
    then let col := j - line * SCREEN_WIDTH in
         cell_pixel (font_ram s) palette
           (load (Cell 0 0) cells (y / 16 * TEXT_COLS + col / 8)) (y mod 16)
           (cursor_shown crow ccol (negb (cb =? 0)) y (col / 8)) (col mod 8)
    else load 0 buf j.
Proof.
  intros Hlut Hpal Hmasks Hfont Hy Hline Hlen y out.
  unfold out, text_line. fold y.
  unfold FONT_HEIGHT, SCREEN_WIDTH, TEXT_COLS in *.
  rewrite (Z.quot_div_nonneg y 16), (Z.rem_mod_nonneg y 16) by (unfold y; lia).
  change (128 ÷ 2) with 64.
  replace (line * 1024 * 2 ÷ 4) with (line * 512)
    by (apply Z.quot_unique_exact; lia).
  destruct (y / 16 >=? TEXT_ROWS) eqn:Erow.
  { split; [reflexivity |]. intros j.
    replace (y / 16 <? TEXT_ROWS) with false by lia. reflexivity. }
  replace (y / 16 <? TEXT_ROWS) with true by lia.
  set (L := line * 1024).
  set (row := y / 16). set (gy := y mod 16).
  set (blink := negb (cb =? 0)).
  set (draw := (crow >=? 0) && (row =? crow) && (gy >=? 16 - 2) && blink).
  match goal with
  | |- context [for_range 0 64 ?body ?init] =>
      cut ((fun p (bd : list Z * Z) =>
              snd bd = line * 512 + 8 * p /\
              length (fst bd) = length buf /\
              forall j, load 0 (fst bd) j =
                if (L <=? j) && (j <? L + 16 * p)
                then cell_pixel (font_ram s) palette
                       (load (Cell 0 0) cells (row * 128 + (j - L) / 8)) gy
                       (cursor_shown crow ccol blink y ((j - L) / 8))
                       ((j - L) mod 8)
                else load 0 buf j) 64 (for_range 0 64 body init))
  end.
  { intros (_ & Hl & Hp). split; [exact Hl |]. intros j. rewrite Hp.
    cbn [andb]. reflexivity. }
  apply for_range_ind; [lia | |].
  - cbn. split; [lia |]. split; [reflexivity |]. intros j.
    replace ((L <=? j) && (j <? L + 16 * 0)) with false by lia. reflexivity.
  - intros p [b d] Hp (Hd & Hl & Hpix). cbn in Hd, Hl, Hpix. subst d.
    cbn zeta.
    destruct (cell_pair_bytes cells (row * 128 + 2 * p))
      as (B0 & B1 & B2 & B3).
    cbn zeta in B0, B1, B2, B3. rewrite B0, B1, B2, B3.
    set (c0 := load (Cell 0 0) cells (row * 128 + 2 * p)).
    set (c1 := load (Cell 0 0) cells (row * 128 + 2 * p + 1)).
    set (d := line * 512 + 8 * p).
    destruct (render_cell_spec s palette c0 gy (draw && (p * 2 =? ccol)) b d
                Hlut Hpal Hmasks Hfont ltac:(lia) ltac:(lia))
      as (S1 & L1 & P1).
    destruct (render_cell s (ch c0 mod 256) (attr c0 mod 256) gy
                (draw && (p * 2 =? ccol)) (b, d)) as [b1 d1].
    cbn in S1, L1, P1. subst d1.
    destruct (render_cell_spec s palette c1 gy (draw && (p * 2 + 1 =? ccol))
                b1 (d + 4) Hlut Hpal Hmasks Hfont ltac:(lia) ltac:(lia))
      as (S2 & L2 & P2).
    destruct (render_cell s (ch c1 mod 256) (attr c1 mod 256) gy
                (draw && (p * 2 + 1 =? ccol)) (b1, d + 4)) as [b2 d2].
    cbn in S2, L2, P2. subst d2. cbn [fst snd].
    split; [lia |]. split; [congruence |].
    intros j. rewrite P2, P1, Hpix.
    assert (Hcur : forall q, draw && (q =? ccol)
                             = cursor_shown crow ccol blink y q).
    { intros q. unfold draw, cursor_shown. fold row gy.
      destruct blink; lia. }
    destruct ((2 * (d + 4) <=? j) && (j <? 2 * (d + 4) + 8)) eqn:E2.
    + replace ((L <=? j) && (j <? L + 16 * (p + 1))) with true by lia.
      assert (Hdiv : (j - L) / 8 = 2 * p + 1)
        by (symmetry; apply (Z.div_unique _ 8 _ (j - 2 * (d + 4))); lia).
      assert (Hmod : (j - L) mod 8 = j - 2 * (d + 4))
        by (symmetry; apply (Z.mod_unique _ 8 (2 * p + 1)); lia).
      rewrite Hdiv, Hmod, <- Hcur.
      replace (row * 128 + (2 * p + 1)) with (row * 128 + 2 * p + 1) by lia.
      replace (2 * p + 1) with (p * 2 + 1) by lia. reflexivity.
    + destruct ((2 * d <=? j) && (j <? 2 * d + 8)) eqn:E1.
      * replace ((L <=? j) && (j <? L + 16 * (p + 1))) with true by lia.
        assert (Hdiv : (j - L) / 8 = 2 * p)
          by (symmetry; apply (Z.div_unique _ 8 _ (j - 2 * d)); lia).
        assert (Hmod : (j - L) mod 8 = j - 2 * d)
          by (symmetry; apply (Z.mod_unique _ 8 (2 * p)); lia).
        rewrite Hdiv, Hmod, <- Hcur.
        replace (2 * p) with (p * 2) at 2 by lia. reflexivity.
      * replace ((L <=? j) && (j <? L + 16 * (p + 1)))
          with ((L <=? j) && (j <? L + 16 * p)) by lia.
        reflexivity.
Qed.

(** A band of text scanlines. *)
Lemma text_band_spec (s : state) (palette : list Z) (cells : list lcd_cell_t)
    (buf : list Z) (ccol crow cb y_start n : Z) :
  ATTR_LUT s = attr_lut_direct palette -> uint16_palette palette ->
  BYTE_MASKS s = byte_masks_image -> font_bytes (font_ram s) = true ->
  0 <= y_start -> 0 <= n -> n * SCREEN_WIDTH <= Z.of_nat (length buf) ->
  let out := for_range 0 n (text_line s cells ccol crow cb y_start) buf in
  length out = length buf /\
  (forall line col, 0 <= line < n -> 0 <= col < SCREEN_WIDTH ->
     let y := y_start + line in
     load 0 out (line * SCREEN_WIDTH + col) =
     if y / 16 <? TEXT_ROWS
     then cell_pixel (font_ram s) palette
            (load (Cell 0 0) cells (y / 16 * TEXT_COLS + col / 8)) (y mod 16)
            (cursor_shown crow ccol (negb (cb =? 0)) y (col / 8)) (col mod 8)
     else load 0 buf (line * SCREEN_WIDTH + col)) /\
  (forall j, n * SCREEN_WIDTH <= j -> load 0 out j = load 0 buf j).
Proof.
  intros Hlut Hpal Hmasks Hfont Hy Hn Hlen out. unfold out.
  cut ((fun k b =>
          length b = length buf /\
          (forall line col, 0 <= line < n -> 0 <= col < SCREEN_WIDTH ->
             let y := y_start + line in
             load 0 b (line * SCREEN_WIDTH + col) =
             if (line <? k) && (y / 16 <? TEXT_ROWS)
             then cell_pixel (font_ram s) palette
                    (load (Cell 0 0) cells (y / 16 * TEXT_COLS + col / 8))
                    (y mod 16)
                    (cursor_shown crow ccol (negb (cb =? 0)) y (col / 8))
                    (col mod 8)
             else load 0 buf (line * SCREEN_WIDTH + col)) /\
          (forall j, k * SCREEN_WIDTH <= j -> load 0 b j = load 0 buf j)) n
         (for_range 0 n (text_line s cells ccol crow cb y_start) buf)).
  { intros (Hl & Hpix & Hpast). split; [exact Hl |]. split; [| exact Hpast].
    intros line col Hline Hc.
    specialize (Hpix line col Hline Hc). cbn zeta in Hpix. rewrite Hpix.
    replace (line <? n) with true by lia. reflexivity. }
  apply for_range_ind; [exact Hn | |].
  - split; [reflexivity |]. split; [| reflexivity].
    intros line col Hl Hc y.
    replace (line <? 0) with false by lia. reflexivity.
  - intros k b Hk (Hlb & Hpix & Hpast).
    destruct (text_line_spec s palette cells b ccol crow cb y_start k
                Hlut Hpal Hmasks Hfont Hy ltac:(lia))
      as [Hl' Hp].
    { rewrite Hlb. unfold SCREEN_WIDTH in *. lia. }
    cbn zeta in Hp.
    split; [rewrite Hl'; exact Hlb |]. split.
    + intros line col Hl Hc y. rewrite Hp.
      unfold SCREEN_WIDTH in *.
      destruct (decide (line = k)) as [-> | Hne].
      * replace (k <? k + 1) with true by lia.
        replace (k * 1024 <=? k * 1024 + col) with true by lia.
        replace (k * 1024 + col <? k * 1024 + 1024) with true by lia.
        rewrite !andb_true_r. cbn [andb]. fold y.
        replace (k * 1024 + col - k * 1024) with col by lia.
        destruct (y / 16 <? TEXT_ROWS) eqn:Er; [reflexivity |].
        specialize (Hpix k col Hl Hc). cbn zeta in Hpix. rewrite Hpix.
        replace (k <? k) with false by lia. reflexivity.
      * assert (Hout : ((y_start + k) / 16 <? TEXT_ROWS)
                       && (k * 1024 <=? line * 1024 + col)
                       && (line * 1024 + col <? k * 1024 + 1024) = false).
        { destruct (Z.lt_ge_cases line k) as [Hlt | Hge].
          - replace (k * 1024 <=? line * 1024 + col) with false by lia.
            rewrite andb_false_r. reflexivity.
          - replace (line * 1024 + col <? k * 1024 + 1024) with false by lia.
            apply andb_false_r. }
        rewrite Hout.
        specialize (Hpix line col Hl Hc). cbn zeta in Hpix. rewrite Hpix.
        replace (line <? k + 1) with (line <? k) by lia. reflexivity.
    + intros j Hj. rewrite Hp. unfold SCREEN_WIDTH in *.
      replace (j <? k * 1024 + 1024) with false by lia.
      rewrite andb_false_r. apply Hpast. lia.
Qed.

Lemma blink_bit (fc : Z) :
  negb (Z.land (Z.shiftr fc 4) 1 =? 0) = Z.testbit fc 4.
Proof.
  replace (Z.testbit fc 4) with (Z.testbit (Z.shiftr fc 4) 0)
    by (rewrite Z.shiftr_spec by lia; reflexivity).
  rewrite Z.bit0_eqb. change 1 with (Z.ones 1) at 1.
  rewrite Z.land_ones by lia. change (2 ^ 1) with 2.
  pose proof (Z.mod_pos_bound (Z.shiftr fc 4) 2 ltac:(lia)). lia.
Qed.

(** X21.  With no framebuffer to show and a text buffer of 128 x 37 cells
    set, on tables as initialisation builds them, a call for [n] whole scanlines from
    scanline [y_start] renders the text screen: the pixel at scanline [y],
    column [col] belongs to the cell at row [y / 16], column [col / 8],
    and shows the cell's foreground color (palette entry of the low
    attribute nibble) where bit [7 - col mod 8] of row [y mod 16] of the
    character's glyph is set, and its background color (high nibble)
    elsewhere.  On the last two glyph rows of the cursor's cell the
    foreground color fills the cell while bit 4 of the frame counter is
    set.  Scanlines below the 37 text rows are black. *)
Theorem bounce_text_renders_cells (s : state) (palette : list Z)
    (cells : list lcd_cell_t) (buf : list Z) (y_start n : Z) :
  ~ is_graphics_mode (s_screen_mode s) \/ s_graphics_framebuffer s = None ->
  s_display_buffer s = Some cells ->
  TEXT_COLS * TEXT_ROWS <= Z.of_nat (length cells) ->
  ATTR_LUT s = attr_lut_direct palette -> uint16_palette palette ->
  BYTE_MASKS s = byte_masks_image -> font_bytes (font_ram s) = true ->
  0 <= y_start -> 0 <= n -> n * SCREEN_WIDTH <= Z.of_nat (length buf) ->
  let r := on_bounce_empty buf (y_start * SCREEN_WIDTH)
             (n * SCREEN_WIDTH * 2) s in
  let out := fst (fst r) in
  let blink := Z.testbit (s_frame_count (snd r)) 4 in
  length out = length buf /\
  (forall line col, 0 <= line < n -> 0 <= col < SCREEN_WIDTH ->
     let y := y_start + line in
     let cell := load (Cell 0 0) cells (y / 16 * TEXT_COLS + col / 8) in
     let cursor :=
       cursor_shown (s_cursor_row s) (s_cursor_col s) blink y (col / 8) in
     load 0 out (line * SCREEN_WIDTH + col) =
     if y / 16 <? TEXT_ROWS
     then cell_pixel (font_ram s) palette cell (y mod 16) cursor (col mod 8)
     else 0) /\
  (forall j, n * SCREEN_WIDTH <= j -> load 0 out j = load 0 buf j).
Proof.
  intros Hg Hd Hcells Hlut Hpal Hmasks Hfont Hy Hn Hlen r out blink.
  set (s' := if y_start =? 0
             then set_s_frame_count (to_uint32 (s_frame_count s + 1)) s
             else s).
  assert (Hr : r = (for_range 0 n
                      (text_line s' cells (s_cursor_col s) (s_cursor_row s)
                         (Z.land (Z.shiftr (s_frame_count s') 4) 1) y_start)
                      (memset buf 0 0 (n * SCREEN_WIDTH)), false, s')).
  { assert (Hsel : (if (s_screen_mode s =? SM_VGA13H)
                       || (s_screen_mode s =? SM_150P)
                    then s_graphics_framebuffer s else None) = None).
    { destruct Hg as [Hg | ->].
      - unfold is_graphics_mode in Hg.
        replace ((s_screen_mode s =? SM_VGA13H)
                 || (s_screen_mode s =? SM_150P)) with false by lia.
        reflexivity.
      - destruct ((s_screen_mode s =? SM_VGA13H)
                  || (s_screen_mode s =? SM_150P)); reflexivity. }
    unfold r, s', on_bounce_empty, bind, ret, gets, modify, clear_bounce.
    unfold SCREEN_WIDTH.
    replace (n * 1024 * 2 ÷ 2) with (n * 1024)
      by (symmetry; apply Z.quot_mul; lia).
    replace (n * 1024 ÷ 1024) with n by (symmetry; apply Z.quot_mul; lia).
    replace (y_start * 1024 ÷ 1024) with y_start
      by (symmetry; apply Z.quot_mul; lia).
    replace (Z.rem (n * 1024 * 2) 2 =? 1) with false
      by (rewrite Z.rem_mul by lia; reflexivity).
    destruct (y_start =? 0); cbn; rewrite Hsel, Hd; reflexivity. }
  assert (Hs' : ATTR_LUT s' = ATTR_LUT s /\ BYTE_MASKS s' = BYTE_MASKS s /\
                font_ram s' = font_ram s)
    by (unfold s'; destruct (y_start =? 0); repeat split; reflexivity).
  destruct Hs' as (E1 & E2 & E3).
  destruct (text_band_spec s' palette cells (memset buf 0 0 (n * SCREEN_WIDTH))
              (s_cursor_col s) (s_cursor_row s)
              (Z.land (Z.shiftr (s_frame_count s') 4) 1) y_start n)
    as (Hl & Hpix & Hpast); try congruence; try assumption.
  { rewrite length_memset. exact Hlen. }
  unfold out, blink. rewrite Hr. cbn [fst snd].
  rewrite length_memset in Hl. split; [exact Hl |]. split.
  - intros line col Hline Hc.
    specialize (Hpix line col Hline Hc). cbn zeta in Hpix. rewrite Hpix.
    rewrite blink_bit, E3.
    destruct ((y_start + line) / 16 <? TEXT_ROWS); [reflexivity |].
    rewrite load_memset. change (to_uint8 0) with 0.
    unfold SCREEN_WIDTH in *.
    destruct ((0 <=? 0) && (0 <=? line * 1024 + col)
              && (line * 1024 + col <? 0 + n * 1024)
              && (line * 1024 + col <? Z.of_nat (length buf))) eqn:E;
      [reflexivity |].
    apply load_out_of_range. lia.
  - intros j Hj. rewrite Hpast by exact Hj. rewrite load_memset.
    unfold SCREEN_WIDTH in *.
    replace (j <? 0 + n * 1024) with false by lia.
    rewrite andb_false_r. reflexivity.
Qed.

End TextPath.

(** * The statements at concrete inputs *)

(** C4 as stated fails: after [Init], a switch to 320x200 and a call of
    [rgb_display_set_buffer] with a buffer, the mode is a graphics variant
    and both pointers are non-null. *)
Lemma buffers_exclusive_counterexample :
  let s := run [Init; SetMode SM_VGA13H; SetBuffer (Some [Cell 65 7])]
             (boot true) in
  reachable s /\
  s_screen_mode s = SM_VGA13H /\
  s_display_buffer s <> None /\
  s_graphics_framebuffer s <> None /\
  ~ buffers_exclusive s.
Proof.
  intros s.
  assert (Hm : s_screen_mode s = SM_VGA13H) by (vm_compute; reflexivity).
  assert (Hb : s_display_buffer s <> None) by (vm_compute; discriminate).
  assert (Hz : framebuffer_size s = 64000) by (vm_compute; reflexivity).
  assert (Hf : s_graphics_framebuffer s <> None).
  { intros Hn. unfold framebuffer_size in Hz. rewrite Hn in Hz.
    discriminate Hz. }
  split; [exists tt, [Init; SetMode SM_VGA13H; SetBuffer (Some [Cell 65 7])]; reflexivity |].
  split; [exact Hm |]. split; [exact Hb |]. split; [exact Hf |].
  intros [Ht _]. specialize (Ht Hb). rewrite Hm in Ht. discriminate.
Qed.

Lemma framebuffer_exclusive_of_text_buffer_witness :
  let ops := [Init; SetBuffer (Some [Cell 65 7]); SetMode SM_150P;
              GfxClear 5; SetMode SM_TEXT] in
  buffers_set_in_text_only ops (boot true) /\
  text_buffer_only_in_text (run ops (boot true)) /\
  (s_graphics_framebuffer (run [Init; SetMode SM_150P] (boot true)) <> None
   <-> is_graphics_mode
         (s_screen_mode (run [Init; SetMode SM_150P] (boot true)))).
Proof.
  intros ops.
  assert (Hd : buffers_set_in_text_only ops (boot true))
    by (vm_compute; tauto).
  split; [exact Hd |]. split.
  - exact (proj1 (proj2 (framebuffer_exclusive_of_text_buffer
                           (P := board true) tt ops) Hd)).
  - exact (proj1 (framebuffer_exclusive_of_text_buffer
                    (P := board true) tt [Init; SetMode SM_150P])).
Defined.



(** C7 as stated fails: entry [16 + 6*6 - 1] has no red. *)
Lemma color_cube_counterexample :
  let pal := s_vga_palette (run [Init] (boot true)) in
  load 0 pal (16 + 6 * 6 - 1) = 2047 /\
  cube_color 5 5 5 = 65535 /\
  ~ (load 0 pal 16 = 0 /\ load 0 pal (16 + 6 * 6 - 1) = cube_color 5 5 5).
Proof.
  vm_compute. split; [reflexivity |]. split; [reflexivity |].
  intros [_ Hx]. discriminate Hx.
Qed.

Lemma color_cube_entries_witness :
  length (s_vga_palette (boot true)) = 256%nat /\
  load 0 (s_vga_palette (snd (init_vga_palette (boot true)))) (16 + 6 * 6 - 1)
  = cube_color 0 5 5.
Proof.
  assert (Hl : length (s_vga_palette (boot true)) = 256%nat) by reflexivity.
  split; [exact Hl |].
  exact (proj1 (proj2 (proj2 (color_cube_entries (boot true) Hl)))).
Defined.

Lemma vga_palette_entry_round_trip_witness :
  length (s_vga_palette (boot true)) = 256%nat /\
  fst (rgb_display_get_vga_palette_entry 5
         (snd (rgb_display_set_vga_palette_entry 5 4660 (boot true)))) = 4660 /\
  fst (rgb_display_get_vga_palette_entry 256 (boot true)) = 0 /\
  snd (rgb_display_set_vga_palette_entry (-1) 4660 (boot true)) = boot true.
Proof.
  assert (Hl : length (s_vga_palette (boot true)) = 256%nat) by reflexivity.
  split; [exact Hl |]. split; [| split].
  - apply (proj1 (vga_palette_entry_round_trip (boot true) 5 4660 Hl)). lia.
  - apply (proj2 (vga_palette_entry_round_trip (boot true) 256 4660 Hl)). lia.
  - apply (proj2 (vga_palette_entry_round_trip (boot true) (-1) 4660 Hl)).
    lia.
Defined.



Lemma attr_lut_matches_palette_witness :
  let s := run [SetCallbacks (Some ramp_console)] (boot true) in
  table_shape 256 2 (ATTR_LUT s) /\
  ramp_palette = fst ((ramp_palette, env s)) /\
  uint16_palette ramp_palette /\
  load2 (ATTR_LUT (snd (rebuild_attr_lut s))) 31 0 = 4369 * 65536 + 4369 /\
  load2 (ATTR_LUT (snd (rebuild_attr_lut s))) 31 1
  = Z.lxor (65535 * 65536 + 65535)
      (load2 (ATTR_LUT (snd (rebuild_attr_lut s))) 31 0) /\
  table_shape 256 2 (ATTR_LUT (boot true)) /\
  uint16_palette s_cga_colors /\
  load2 (ATTR_LUT (snd (rebuild_attr_lut (boot true)))) 31 0
  = 21 * 65536 + 21.
Proof.
  intros s.
  assert (Hshape : forall t : @state (board true),
            ATTR_LUT t = replicate 256 (replicate 2 0) ->
            table_shape 256 2 (ATTR_LUT t)).
  { intros t ->. split; [reflexivity |]. apply Forall_forall. intros r Hr.
    apply elem_of_replicate in Hr. destruct Hr as [-> _]. reflexivity. }
  assert (Hpal : forall pal, 
            forallb (fun i => (0 <=? load 0 pal i) && (load 0 pal i <? 65536))
              (seqZ 0 16) = true ->
            uint16_palette pal).
  { intros pal Hall i Hi. rewrite forallb_forall in Hall.
    specialize (Hall i ltac:(apply list_elem_of_In, elem_of_seqZ; lia)).
    lia. }
  assert (H1 : table_shape 256 2 (ATTR_LUT s)) by (apply Hshape; reflexivity).
  assert (H2 : ramp_palette = fst ((ramp_palette, env s))) by reflexivity.
  assert (H3 : uint16_palette ramp_palette)
    by (apply Hpal; vm_compute; reflexivity).
  assert (H4 : table_shape 256 2 (ATTR_LUT (boot true)))
    by (apply Hshape; reflexivity).
  assert (H5 : uint16_palette s_cga_colors)
    by (apply Hpal; vm_compute; reflexivity).
  split; [exact H1 |]. split; [exact H2 |]. split; [exact H3 |].
  pose proof (proj2 (attr_lut_matches_palette s ramp_palette H1 H2 H3) 31
                ltac:(lia)) as (Hbg & _ & _ & Hxor).
  split; [exact Hbg |]. split; [exact Hxor |].
  split; [exact H4 |]. split; [exact H5 |].
  exact (proj1 (proj2 (attr_lut_matches_palette (boot true) s_cga_colors
                         H4 eq_refl H5) 31 ltac:(lia))).
Defined.

Lemma blit_transparency_modulo_256_witness :
  graphics_session session_150p 256 150 /\
  pixel (snd (rgb_gfx_blit (Some [7; 1; 2; 3]) 10 10 2 2 2 263 session_150p))
    (10 + 0) (10 + 0)
  = pixel session_150p (10 + 0) (10 + 0) /\
  pixel (snd (rgb_gfx_blit_flip (Some [7; 1; 2; 3]) 10 10 2 2 2 263 true false
                session_150p)) (10 + 0) (10 + 0)
  = 1.
Proof.
  assert (Hs : graphics_session session_150p 256 150)
    by (vm_compute; repeat split; reflexivity).
  split; [exact Hs |].
  pose proof (blit_transparency_modulo_256 session_150p 256 150 [7; 1; 2; 3]
                10 10 2 2 2 263 true false 0 0 Hs
                ltac:(lia) ltac:(lia) ltac:(lia) ltac:(lia) ltac:(lia))
    as (Hb & Hf & _ & _).
  split; [exact Hb | exact Hf].
Defined.

(** * The further properties at concrete inputs *)

Lemma byte_masks_select_pixels_witness :
  table_shape 256 4 (BYTE_MASKS (boot true)) /\
  word_pixel
    (load2 (BYTE_MASKS (snd (precompute_tables (boot true)))) 160 (2 / 2)) 2
  = 65535.
Proof.
  assert (H1 : table_shape 256 4 (BYTE_MASKS (boot true))).
  { split; [reflexivity |]. apply Forall_forall. intros r Hr.
    apply elem_of_replicate in Hr. destruct Hr as [-> _]. reflexivity. }
  split; [exact H1 |].
  exact (proj2 (proj2 (byte_masks_select_pixels (boot true) 160 2 H1
                         ltac:(lia) ltac:(lia)))).
Defined.

Lemma vga_palette_defaults_witness :
  length (s_vga_palette (boot true)) = 256%nat /\
  fst (rgb_display_get_vga_palette_entry 7
         (snd (init_vga_palette (boot true)))) = load 0 s_cga_colors 7.
Proof.
  assert (Hl : length (s_vga_palette (boot true)) = 256%nat) by reflexivity.
  split; [exact Hl |].
  exact (proj1 (proj2 (vga_palette_defaults (boot true) Hl)) 7 ltac:(lia)).
Defined.

Lemma set_mode_enters_graphics_witness :
  let s := run [Init] (boot true) in
  s_graphics_framebuffer s = None /\
  is_graphics_mode SM_150P /\
  SM_150P <> s_screen_mode s /\
  fst (rgb_display_set_mode SM_150P s) = 0 /\
  s_screen_mode (snd (rgb_display_set_mode SM_150P s)) = SM_150P /\
  s_display_buffer (snd (rgb_display_set_mode SM_150P s)) = None.
Proof.
  intros s.
  assert (H1 : s_graphics_framebuffer s = None) by (vm_compute; reflexivity).
  assert (H2 : is_graphics_mode SM_150P) by (right; reflexivity).
  assert (H3 : SM_150P <> s_screen_mode s) by (vm_compute; discriminate).
  assert (H4 : fst (rgb_display_set_mode SM_150P s) = 0)
    by (vm_compute; reflexivity).
  split; [exact H1 |]. split; [exact H2 |]. split; [exact H3 |].
  split; [exact H4 |].
  pose proof (set_mode_enters_graphics SM_150P s H1 H2 H3 H4) as (Hm & Hb & _).
  split; [exact Hm | exact Hb].
Defined.

Lemma set_mode_text_always_succeeds_witness :
  s_screen_mode session_150p <> SM_TEXT /\
  fst (rgb_display_set_mode SM_TEXT session_150p) = 0 /\
  s_graphics_framebuffer (snd (rgb_display_set_mode SM_TEXT session_150p))
  = None.
Proof.
  assert (H1 : s_screen_mode session_150p <> SM_TEXT)
    by (vm_compute; discriminate).
  split; [exact H1 |].
  pose proof (set_mode_text_always_succeeds session_150p H1)
    as (Hr & _ & Hf & _).
  split; [exact Hr | exact Hf].
Defined.

Lemma set_mode_rejected_before_allocation_witness :
  let s := run [Init; SetCallbacks (Some refusing_console)] (boot true) in
  s_callbacks s = Some refusing_console /\
  fst (1, env s) <> 0 /\
  is_graphics_mode SM_150P /\
  SM_150P <> s_screen_mode s /\
  rgb_display_set_mode SM_150P s = (-1, set_env (snd (1, env s)) s).
Proof.
  intros s.
  assert (H1 : s_callbacks s = Some refusing_console)
    by (vm_compute; reflexivity).
  assert (H3 : fst (1, env s) <> 0) by (cbn; lia).
  assert (H4 : is_graphics_mode SM_150P) by (right; reflexivity).
  assert (H5 : SM_150P <> s_screen_mode s) by (vm_compute; discriminate).
  split; [exact H1 |]. split; [exact H3 |]. split; [exact H4 |].
  split; [exact H5 |].
  exact (set_mode_rejected_before_allocation SM_150P s refusing_console
           (fun w => (1, w)) H1 eq_refl H3 H4 H5).
Defined.

Lemma allocate_falls_back_to_spiram_witness :
  s_graphics_framebuffer (@startup board_psram tt) = None /\
  is_graphics_mode SM_VGA13H /\
  fst (allocate_graphics_framebuffer SM_VGA13H (@startup board_psram tt)) = 0.
Proof.
  assert (H1 : s_graphics_framebuffer (@startup board_psram tt) = None)
    by reflexivity.
  assert (H2 : is_graphics_mode SM_VGA13H) by (left; reflexivity).
  split; [exact H1 |]. split; [exact H2 |].
  exact (proj1 (allocate_falls_back_to_spiram SM_VGA13H
                  (@startup board_psram tt) H1 H2)).
Defined.

Lemma reachable_geometry_of_a_variant_witness :
  reachable session_150p /\
  s_graphics_framebuffer session_150p <> None /\
  (s_gfx_scale session_150p = 3 \/ s_gfx_scale session_150p = 4).
Proof.
  assert (Hr : reachable session_150p)
    by (exists tt, [Init; SetMode SM_150P]; reflexivity).
  assert (Hz : framebuffer_size session_150p = 38400)
    by (vm_compute; reflexivity).
  assert (Hf : s_graphics_framebuffer session_150p <> None).
  { intros Hn. unfold framebuffer_size in Hz. rewrite Hn in Hz.
    discriminate Hz. }
  split; [exact Hr |]. split; [exact Hf |].
  exact (proj1 (proj2 (reachable_geometry_of_a_variant session_150p Hr Hf))).
Defined.

Lemma init_loads_font_and_tables_witness :
  tables_shaped (boot true) /\
  BYTE_MASKS (snd (rgb_display_init (boot true))) = byte_masks_image /\
  load2 (font_ram (snd (rgb_display_init (boot true)))) 65 3
  = (if 65 <? 32 then 0
     else load 0 (@terminus16_glyph_bitmap (board true)) ((65 - 32) * 16 + 3)).
Proof.
  assert (H1 : tables_shaped (boot true)).
  { unfold tables_shaped, table_shape.
    repeat split; try reflexivity;
      apply Forall_forall; intros r Hr;
      apply elem_of_replicate in Hr; destruct Hr as [-> _]; reflexivity. }
  split; [exact H1 |].
  pose proof (init_loads_font_and_tables (boot true) H1) as (Hf & Hb & _).
  split; [exact Hb |].
  exact (Hf 65 3 ltac:(lia) ltac:(lia)).
Defined.

Lemma set_vga_palette_round_trip_witness :
  length (s_vga_palette (boot true)) = 256%nat /\
  length (replicate 256 7 : list Z) = 256%nat /\
  fst (rgb_display_get_vga_palette_entry 9
         (snd (rgb_display_set_vga_palette (replicate 256 7) (boot true))))
  = load 0 (replicate 256 7) 9.
Proof.
  assert (H1 : length (s_vga_palette (boot true)) = 256%nat) by reflexivity.
  assert (H2 : length (replicate 256 7 : list Z) = 256%nat) by reflexivity.
  split; [exact H1 |]. split; [exact H2 |].
  exact (proj2 (set_vga_palette_round_trip (boot true) (replicate 256 7)
                  H1 H2) 9 ltac:(lia)).
Defined.

Lemma vga_palette_entries_independent_witness :
  length (s_vga_palette (boot true)) = 256%nat /\
  fst (rgb_display_get_vga_palette_entry 6
         (snd (rgb_display_set_vga_palette_entry 5 4660 (boot true))))
  = fst (rgb_display_get_vga_palette_entry 6 (boot true)).
Proof.
  assert (H1 : length (s_vga_palette (boot true)) = 256%nat) by reflexivity.
  split; [exact H1 |].
  exact (vga_palette_entries_independent (boot true) 5 6 4660 H1).
Defined.

Lemma vsync_handshake_witness :
  (~ is_graphics_mode (s_screen_mode (boot true)) \/
   s_vsync_sem (boot true) = false) /\
  rgb_display_wait_vsync (boot true) = (tt, boot true) /\
  is_graphics_mode (s_screen_mode session_150p) /\
  s_vsync_sem session_150p = true /\
  s_waiting_for_vsync (boot true) = false /\
  on_vsync (boot true) = (false, boot true) /\
  on_vsync (snd (on_vsync (snd (rgb_display_wait_vsync session_150p))))
  = (false, snd (on_vsync (snd (rgb_display_wait_vsync session_150p)))).
Proof.
  assert (H1 : ~ is_graphics_mode (s_screen_mode (boot true)) \/
               s_vsync_sem (boot true) = false) by (right; reflexivity).
  assert (H2 : is_graphics_mode (s_screen_mode session_150p))
    by (right; vm_compute; reflexivity).
  assert (H3 : s_vsync_sem session_150p = true) by (vm_compute; reflexivity).
  assert (H4 : s_waiting_for_vsync (boot true) = false) by reflexivity.
  split; [exact H1 |].
  split; [exact (proj1 (vsync_handshake (boot true)) H1) |].
  split; [exact H2 |]. split; [exact H3 |]. split; [exact H4 |].
  split; [exact (proj1 (proj2 (vsync_handshake (boot true))) H4) |].
  exact (proj2 (proj2 (proj2 (proj2 (proj2 (vsync_handshake session_150p))
                                 H2 H3)))).
Defined.

Lemma clear_fills_every_pixel_witness :
  graphics_session session_150p 256 150 /\
  int_range 256 /\ int_range 150 /\
  pixel (snd (rgb_gfx_clear 263 session_150p)) 3 4 = 263 mod 256 /\
  snd (rgb_gfx_clear 263 session_150p)
  = snd (rgb_gfx_rectfill 0 0 256 150 263 session_150p).
Proof.
  assert (Hs : graphics_session session_150p 256 150)
    by (vm_compute; repeat split; reflexivity).
  assert (Hw : int_range 256) by (unfold int_range, INT_MIN, INT_MAX; lia).
  assert (Hh : int_range 150) by (unfold int_range, INT_MIN, INT_MAX; lia).
  split; [exact Hs |]. split; [exact Hw |]. split; [exact Hh |]. split.
  - exact (proj1 (clear_fills_every_pixel session_150p 256 150 263 Hs) 3 4
             ltac:(lia) ltac:(lia)).
  - exact (proj2 (clear_fills_every_pixel session_150p 256 150 263 Hs) Hw Hh).
Defined.

Lemma pixel_write_read_witness :
  graphics_session session_150p 256 150 /\
  pixel (snd (rgb_gfx_pixel 3 4 9 session_150p)) 3 4 = 9 mod 256 /\
  pixel (snd (rgb_gfx_pixel 3 4 9 session_150p)) 4 4 = pixel session_150p 4 4.
Proof.
  assert (Hs : graphics_session session_150p 256 150)
    by (vm_compute; repeat split; reflexivity).
  split; [exact Hs |]. split.
  - exact (pixel_write_read session_150p 256 150 3 4 9 3 4 Hs
             ltac:(lia) ltac:(lia)).
  - exact (pixel_write_read session_150p 256 150 3 4 9 4 4 Hs
             ltac:(lia) ltac:(lia)).
Defined.

Lemma lines_paint_clipped_segments_witness :
  graphics_session session_150p 256 150 /\
  int_range 256 /\ int_range 150 /\
  int_range 250 /\ int_range 140 /\ int_range 20 /\
  250 + 20 <= INT_MAX /\ 140 + 20 <= INT_MAX /\
  pixel (snd (rgb_gfx_hline 250 140 20 9 session_150p)) 255 140 = 9 mod 256 /\
  pixel (snd (rgb_gfx_hline 250 140 20 9 session_150p)) 0 141
  = pixel session_150p 0 141 /\
  pixel (snd (rgb_gfx_vline 250 140 20 9 session_150p)) 250 149 = 9 mod 256.
Proof.
  assert (Hs : graphics_session session_150p 256 150)
    by (vm_compute; repeat split; reflexivity).
  assert (Hr : forall z, -2147483648 <= z <= 2147483647 -> int_range z)
    by (intros z Hz; exact Hz).
  assert (Hw : int_range 256) by (apply Hr; lia).
  assert (Hh : int_range 150) by (apply Hr; lia).
  assert (Hx : int_range 250) by (apply Hr; lia).
  assert (Hy : int_range 140) by (apply Hr; lia).
  assert (Hl : int_range 20) by (apply Hr; lia).
  assert (H1 : 250 + 20 <= INT_MAX) by (unfold INT_MAX; lia).
  assert (H2 : 140 + 20 <= INT_MAX) by (unfold INT_MAX; lia).
  split; [exact Hs |]. split; [exact Hw |]. split; [exact Hh |].
  split; [exact Hx |]. split; [exact Hy |]. split; [exact Hl |].
  split; [exact H1 |]. split; [exact H2 |]. split; [| split].
  - exact (proj1 (lines_paint_clipped_segments session_150p 256 150 250 140
                    20 9 255 140 Hs ltac:(lia) ltac:(lia) Hw Hh Hx Hy Hl) H1).
  - exact (proj1 (lines_paint_clipped_segments session_150p 256 150 250 140
                    20 9 0 141 Hs ltac:(lia) ltac:(lia) Hw Hh Hx Hy Hl) H1).
  - exact (proj2 (lines_paint_clipped_segments session_150p 256 150 250 140
                    20 9 250 149 Hs ltac:(lia) ltac:(lia) Hw Hh Hx Hy Hl) H2).
Defined.

Lemma rect_paints_border_witness :
  graphics_session session_150p 256 150 /\
  int_range 256 /\ int_range 150 /\
  int_range 10 /\ int_range 5 /\ int_range 4 /\
  10 + 5 <= INT_MAX /\ 10 + 4 <= INT_MAX /\
  pixel (snd (rgb_gfx_rect 10 10 5 4 9 session_150p)) 14 12 = 9 mod 256 /\
  pixel (snd (rgb_gfx_rect 10 10 5 4 9 session_150p)) 12 12
  = pixel session_150p 12 12.
Proof.
  assert (Hs : graphics_session session_150p 256 150)
    by (vm_compute; repeat split; reflexivity).
  assert (Hr : forall z, -2147483648 <= z <= 2147483647 -> int_range z)
    by (intros z Hz; exact Hz).
  assert (Hw : int_range 256) by (apply Hr; lia).
  assert (Hh : int_range 150) by (apply Hr; lia).
  assert (Hx : int_range 10) by (apply Hr; lia).
  assert (Hrw : int_range 5) by (apply Hr; lia).
  assert (Hrh : int_range 4) by (apply Hr; lia).
  assert (H1 : 10 + 5 <= INT_MAX) by (unfold INT_MAX; lia).
  assert (H2 : 10 + 4 <= INT_MAX) by (unfold INT_MAX; lia).
  split; [exact Hs |]. split; [exact Hw |]. split; [exact Hh |].
  split; [exact Hx |]. split; [exact Hrw |]. split; [exact Hrh |].
  split; [exact H1 |]. split; [exact H2 |]. split.
  - exact (rect_paints_border session_150p 256 150 10 10 5 4 9 14 12 Hs
             ltac:(lia) ltac:(lia) Hw Hh Hx Hx Hrw Hrh H1 H2).
  - exact (rect_paints_border session_150p 256 150 10 10 5 4 9 12 12 Hs
             ltac:(lia) ltac:(lia) Hw Hh Hx Hx Hrw Hrh H1 H2).
Defined.

Lemma rectfill_paints_intersection_witness :
  graphics_session session_150p 256 150 /\
  int_range 256 /\ int_range 150 /\ int_range (-5) /\ int_range 20 /\
  -5 + 20 <= INT_MAX /\
  pixel (snd (rgb_gfx_rectfill (-5) (-5) 20 20 9 session_150p)) 14 14
  = 9 mod 256 /\
  pixel (snd (rgb_gfx_rectfill (-5) (-5) 20 20 9 session_150p)) 15 14
  = pixel session_150p 15 14.
Proof.
  assert (Hs : graphics_session session_150p 256 150)
    by (vm_compute; repeat split; reflexivity).
  assert (Hr : forall z, -2147483648 <= z <= 2147483647 -> int_range z)
    by (intros z Hz; exact Hz).
  assert (Hw : int_range 256) by (apply Hr; lia).
  assert (Hh : int_range 150) by (apply Hr; lia).
  assert (Hx : int_range (-5)) by (apply Hr; lia).
  assert (Hd : int_range 20) by (apply Hr; lia).
  assert (H1 : -5 + 20 <= INT_MAX) by (unfold INT_MAX; lia).
  split; [exact Hs |]. split; [exact Hw |]. split; [exact Hh |].
  split; [exact Hx |]. split; [exact Hd |]. split; [exact H1 |]. split.
  - exact (proj1 (rectfill_paints_intersection session_150p 256 150 (-5) (-5)
                    20 20 9 14 14 Hs ltac:(lia) ltac:(lia) Hw Hh Hx Hx Hd Hd
                    H1 H1)).
  - exact (proj1 (rectfill_paints_intersection session_150p 256 150 (-5) (-5)
                    20 20 9 15 14 Hs ltac:(lia) ltac:(lia) Hw Hh Hx Hx Hd Hd
                    H1 H1)).
Defined.

Lemma blit_copies_sprite_witness :
  graphics_session session_150p 256 150 /\
  snd (rgb_gfx_blit_flip None 10 10 2 2 2 (-1) true true session_150p)
  = session_150p /\
  pixel (snd (rgb_gfx_blit_flip (Some [7; 1; 2; 3]) 10 10 2 2 2 (-1) true true
                session_150p)) 10 10
  = 3.
Proof.
  assert (Hs : graphics_session session_150p 256 150)
    by (vm_compute; repeat split; reflexivity).
  split; [exact Hs |]. split.
  - exact (proj1 (proj2 (blit_copies_sprite session_150p None 10 10 2 2 2
                           (-1) true true)) (or_introl eq_refl)).
  - exact (proj1 (proj2 (proj2 (proj2
             (blit_copies_sprite session_150p (Some [7; 1; 2; 3]) 10 10 2 2 2
                (-1) true true)) 256 150 [7; 1; 2; 3] 10 10 Hs eq_refl
             ltac:(lia) ltac:(lia))) eq_refl ltac:(lia)).
Defined.

Lemma bounce_fallback_and_frame_count_witness :
  (~ is_graphics_mode (s_screen_mode (boot true)) \/
   s_graphics_framebuffer (boot true) = None) /\
  s_display_buffer (boot true) = None /\
  4096 <= 2 * Z.of_nat (length (replicate 2048 9 : list Z)) /\
  load 0 (fst (fst (on_bounce_empty (replicate 2048 9) 0 4096 (boot true)))) 5
  = 0.
Proof.
  assert (H1 : ~ is_graphics_mode (s_screen_mode (boot true)) \/
               s_graphics_framebuffer (boot true) = None)
    by (right; reflexivity).
  assert (H2 : s_display_buffer (boot true) = None) by reflexivity.
  assert (H3 : 4096 <= 2 * Z.of_nat (length (replicate 2048 9 : list Z)))
    by (vm_compute; discriminate).
  split; [exact H1 |]. split; [exact H2 |]. split; [exact H3 |].
  exact (proj2 (proj2 (bounce_fallback_and_frame_count (boot true)
                         (replicate 2048 9) 0 4096)) H1 H2 H3 5 ltac:(lia)).
Defined.

Lemma bounce_graphics_upscales_witness :
  let s := run [Init; SetMode SM_150P; GfxClear 5; SetVgaPaletteEntry 5 4660]
             (boot true) in
  reachable s /\
  is_graphics_mode (s_screen_mode s) /\
  2 * SCREEN_WIDTH <= Z.of_nat (length (replicate 2048 0 : list Z)) /\
  load 0 (fst (fst (on_bounce_empty (replicate 2048 0) (0 * SCREEN_WIDTH)
                       (2 * SCREEN_WIDTH * 2) s))) (1 * SCREEN_WIDTH + 10)
  = 4660.
Proof.
  intros s.
  assert (H1 : reachable s).
  { exists tt, [Init; SetMode SM_150P; GfxClear 5; SetVgaPaletteEntry 5 4660].
    reflexivity. }
  assert (H2 : is_graphics_mode (s_screen_mode s))
    by (right; vm_compute; reflexivity).
  assert (H3 : 2 * SCREEN_WIDTH
               <= Z.of_nat (length (replicate 2048 0 : list Z)))
    by (vm_compute; discriminate).
  split; [exact H1 |]. split; [exact H2 |]. split; [exact H3 |].
  etransitivity;
    [ exact (proj1 (proj2 (bounce_graphics_upscales s (replicate 2048 0) 0 2
                             H1 H2 ltac:(lia) ltac:(lia) H3))
               1 10 ltac:(lia) ltac:(vm_compute; split; congruence))
    | vm_compute; reflexivity ].
Defined.

Lemma bounce_text_renders_cells_witness :
  (~ is_graphics_mode (s_screen_mode text_session) \/
   s_graphics_framebuffer text_session = None) /\
  s_display_buffer text_session = Some text_cells /\
  TEXT_COLS * TEXT_ROWS <= Z.of_nat (length text_cells) /\
  ATTR_LUT text_session = attr_lut_direct s_cga_colors /\
  uint16_palette s_cga_colors /\
  BYTE_MASKS text_session = byte_masks_image /\
  font_bytes (font_ram text_session) = true /\
  2 * SCREEN_WIDTH <= Z.of_nat (length (replicate 2048 9 : list Z)) /\
  load 0 (fst (fst (on_bounce_empty (replicate 2048 9) (0 * SCREEN_WIDTH)
                       (2 * SCREEN_WIDTH * 2) text_session)))
    (1 * SCREEN_WIDTH + 8)
  = 65535 /\
  load 0 (fst (fst (on_bounce_empty (replicate 2048 9) (0 * SCREEN_WIDTH)
                       (2 * SCREEN_WIDTH * 2) text_session)))
    (1 * SCREEN_WIDTH + 9)
  = 21.
Proof.
  assert (H1 : ~ is_graphics_mode (s_screen_mode text_session) \/
               s_graphics_framebuffer text_session = None)
    by (right; vm_compute; reflexivity).
  assert (H2 : s_display_buffer text_session = Some text_cells)
    by (vm_compute; reflexivity).
  assert (H3 : TEXT_COLS * TEXT_ROWS <= Z.of_nat (length text_cells))
    by (vm_compute; discriminate).
  assert (H4 : ATTR_LUT text_session = attr_lut_direct s_cga_colors)
    by (vm_compute; reflexivity).
  assert (H5 : uint16_palette s_cga_colors).
  { intros i Hi.
    assert (Hc : i = 0 \/ i = 1 \/ i = 2 \/ i = 3 \/ i = 4 \/ i = 5 \/ i = 6
                 \/ i = 7 \/ i = 8 \/ i = 9 \/ i = 10 \/ i = 11 \/ i = 12
                 \/ i = 13 \/ i = 14 \/ i = 15) by lia.
    repeat (destruct Hc as [-> | Hc];
            [vm_compute; split; [discriminate | reflexivity] |]).
    subst i. vm_compute. split; [discriminate | reflexivity]. }
  assert (H6 : BYTE_MASKS text_session = byte_masks_image)
    by (vm_compute; reflexivity).
  assert (H7 : font_bytes (font_ram text_session) = true)
    by (vm_compute; reflexivity).
  assert (H8 : 2 * SCREEN_WIDTH
               <= Z.of_nat (length (replicate 2048 9 : list Z)))
    by (vm_compute; discriminate).
  split; [exact H1 |]. split; [exact H2 |]. split; [exact H3 |].
  split; [exact H4 |]. split; [exact H5 |]. split; [exact H6 |].
  split; [exact H7 |]. split; [exact H8 |].
  pose proof (proj1 (proj2 (bounce_text_renders_cells text_session
                              s_cga_colors text_cells (replicate 2048 9) 0 2
                              H1 H2 H3 H4 H5 H6 H7 ltac:(lia) ltac:(lia) H8)))
    as Hpix.
  split.
  - etransitivity;
      [ exact (Hpix 1 8 ltac:(lia) ltac:(vm_compute; split; congruence))
      | vm_compute; reflexivity ].
  - etransitivity;
      [ exact (Hpix 1 9 ltac:(lia) ltac:(vm_compute; split; congruence))
      | vm_compute; reflexivity ].
Defined.
